(** * LiquiditySellBuyWalls: a shallow embedding of the strategy engine

    Source: [docker-exchangebot/exchangebots/strategies/liquidity_wall.py]
    and the start-up script [docker-exchangebot/exchangebots/main.py].

    The strategy is a Python class whose methods read a settings dictionary,
    read snapshots fetched from the exchange ([self.dex]) and call commands of
    the exchange.  The embedding keeps that shape:

    - Python floats are an abstract number type [num] with the operations the
      source uses (class [PyFloat]); its instance is IEEE binary64
      ([PrimFloat], what CPython computes with).  The theorems that need no
      fact of arithmetic are stated for every instance, and so hold of the
      doubles; the worked examples compute with doubles.
    - Dictionaries that are only looked up are [gmap]s; dictionaries that the
      source iterates over keep their order as association lists.
    - Every method is a computation in a small monad [M]: it reads and writes
      the object's attributes ([bot]), may raise a Python exception, and emits
      the calls it makes on the exchange and the lines it prints ([event]).
    - The exchange ([Dex]) answers a query from the calls made before it, and
      says which calls of [dex.cancel] raise (the source catches those); the
      commands [sell], [buy], [borrow] and [adjust_debt] are recorded and
      return.
    - Line numbers are those of [liquidity_wall.py]. *)

From Stdlib Require Import ZArith String List Lia.
From Stdlib Require Import Floats.PrimFloat Floats.SpecFloat Floats.FloatOps.
From stdpp Require Import gmap strings.
Import ListNotations.
Open Scope string_scope.
Open Scope list_scope.
Open Scope Z_scope.

(** ** Numbers *)

(** The float operations the source uses.  [of_Z] is [float(n)] for an integer
    literal or an integer setting. *)
Class PyFloat (num : Type) : Type := {
  of_Z : Z -> num;
  fadd : num -> num -> num;
  fsub : num -> num -> num;
  fmul : num -> num -> num;
  fdiv : num -> num -> num;
  fabs : num -> num;
  feq : num -> num -> bool;
  fle : num -> num -> bool;
  flt : num -> num -> bool
}.

(** [float(n)]: the double nearest to the integer [n], ties to even. *)
Definition float_of_Z (z : Z) : float :=
  SF2Prim (binary_normalize prec emax z 0 false).

(** IEEE binary64, as CPython's [float]. *)
#[export] Instance float_PyFloat : PyFloat float := {|
  of_Z := float_of_Z;
  fadd := PrimFloat.add;
  fsub := PrimFloat.sub;
  fmul := PrimFloat.mul;
  fdiv := PrimFloat.div;
  fabs := PrimFloat.abs;
  feq := PrimFloat.eqb;
  fle := PrimFloat.leb;
  flt := PrimFloat.ltb
|}.

(** ** Strings: [str.split] *)

(** [s.split(sep)] for a non-empty [sep]: the parts between the leftmost
    non-overlapping occurrences of [sep].  [skip] counts the characters of an
    occurrence still to be dropped. *)
Fixpoint py_split_aux (sep : string) (skip : nat) (s : string) : list string :=
  match s with
  | EmptyString => [EmptyString]
  | String c s' =>
      match skip with
      | S k => py_split_aux sep k s'
      | O =>
          if String.prefix sep s
          then EmptyString :: py_split_aux sep (String.length sep - 1) s'
          else match py_split_aux sep 0 s' with
               | p :: ps => String c p :: ps
               | [] => [String c EmptyString]
               end
      end
  end.

Definition py_split (sep s : string) : list string := py_split_aux sep 0 s.

(** ** Association lists (ordered dictionaries) *)

Fixpoint assoc_lookup {V : Type} (k : string) (d : list (string * V)) : option V :=
  match d with
  | [] => None
  | (k', v) :: d' => if String.eqb k k' then Some v else assoc_lookup k d'
  end.

(** [d[k] = v]: overwrite in place, or append a new key. *)
Fixpoint assoc_set {V : Type} (k : string) (v : V) (d : list (string * V)) : list (string * V) :=
  match d with
  | [] => [(k, v)]
  | (k', v') :: d' =>
      if String.eqb k k' then (k', v) :: d' else (k', v') :: assoc_set k v d'
  end.

(** [l.count(a)] *)
Definition count_string (a : string) (l : list string) : nat :=
  List.length (List.filter (String.eqb a) l).

(** [list(set(l))]: the distinct elements (Python leaves their order open; the
    source only looks the result up). *)
Fixpoint unique_strings (l : list string) : list string :=
  match l with
  | [] => []
  | a :: l' => if existsb (String.eqb a) l' then unique_strings l' else a :: unique_strings l'
  end.

(** ** Python exceptions *)

(** The exceptions the strategy can raise.  [NotModelled] is no Python
    exception: it marks the three inputs this embedding does not follow
    (markets given as a dictionary, [skip_blocks] given as a float, an
    integer beyond [2**53] used in float arithmetic). *)

Inductive exn : Type :=
| KeyError (key : string)
| ZeroDivisionError
| ValueError
| TypeError
| AssertionError
| UnboundLocalError (var : string)
| RecursionError
| MissingSettingsException (key : string)
| Exception (msg : string)
| NotModelled (what : string).

Inductive result (A : Type) : Type :=
| Ok (a : A)
| Raise (e : exn).
Arguments Ok {A} a.
Arguments Raise {A} e.

(** * The start-up script ([main.py])

    The script talks to the wallet ([GrapheneAPI]), to the faucet
    ([requests.post]) and to the module [bot], and prints.  It is embedded as
    a computation that records these calls in their order and takes the
    answers from [Answers].  Of the exceptions the calls may raise, the
    [RPCError] of [rpc.set_password], which the script catches, and an
    exception of [bot.init] or [bot.run], which it does not, are followed;
    the other calls are taken to return. *)
Module Main.

(** The module [config], as far as the script reads it. *)
Record Config : Type := {
  wallet_host : string;
  wallet_port : Z;
  wallet_password : string;
  account : string;
  referrer : string;
  faucet : string;
  bots : list (string * list (string * string))
}.

(** What [rpc.suggest_brain_key] returns. *)
Record BrainKey : Type := {
  brain_priv_key : string;
  wif_priv_key : string;
  pub_key : string
}.

(** The body of the request to the faucet. *)
Record Payload : Type := {
  name : string;
  owner_key : string;
  active_key : string;
  memo_key : string;
  refcode : string;
  payload_referrer : string
}.

(** The lines the script prints (time stamps left out). *)
Inductive line : Type :=
| Starting
| Running
| Registered (account : string)
| MyAccounts (accounts : list string)
| BrainKeyLine (brain_priv_key : string)
| WriteItDown
| SendFunds (account : string)
| CreationFailed
| WholeBrainKey (brain_key : BrainKey)
| FaucetResponse (faucet response : string)
| AccountName (account : string)
| AccountBalances (balances : string)
| BotConfig (bot_configs : list (string * list (string * string))).

(** The calls of the script, in the order made. *)
Inductive call : Type :=
| Sleep (seconds : Z)
| GrapheneAPI (host : string) (port : Z)
| SetPassword (password : string)
| Unlock (password : string)
| IsLocked
| ListMyAccounts
| SuggestBrainKey
| Post (url : string) (payload : Payload)
| ImportKey (account wif_priv_key : string)
| ListAccountBalances (account : string)
| BotInit
| BotRun
| Print (l : line).

Inductive failure : Type :=
| RPCError
| BotFailure (e : exn).

(** The answers of the wallet, the faucet and the bot. *)
Record Answers : Type := {
  set_password_fails : bool;
  is_locked : bool;
  my_accounts : list string;
  my_accounts_after_import : list string;
  brain_key : BrainKey;
  status_code : Z;
  text : string;
  account_balances : string;
  bot_init : option exn;
  bot_run : option exn
}.

(** A part of the script: its result or the exception it ends with, and
    the calls it made. *)
Definition Script (A : Type) : Type := Answers -> (A + failure) * list call.

Definition ret {A : Type} (a : A) : Script A := fun _ => (inl a, []).

Definition raise {A : Type} (e : failure) : Script A := fun _ => (inr e, []).

Definition bind {A B : Type} (m : Script A) (k : A -> Script B) : Script B :=
  fun w =>
    match m w with
    | (inl a, calls) => let r := k a w in (fst r, calls ++ snd r)
    | (inr e, calls) => (inr e, calls)
    end.

(** A call that returns the answer [f]. *)
Definition ask {A : Type} (c : call) (f : Answers -> A) : Script A :=
  fun w => (inl (f w), [c]).

Definition do (c : call) : Script unit := ask c (fun _ => tt).

(** A call that raises when the answer says so. *)
Definition attempt (c : call) (f : Answers -> option failure) : Script unit :=
  fun w => match f w with
           | Some e => (inr e, [c])
           | None => (inl tt, [c])
           end.

(** [try: m except RPCError: pass] *)
Definition except_RPCError (m : Script unit) : Script unit :=
  fun w => match m w with
           | (inr RPCError, calls) => (inl tt, calls)
           | r => r
           end.

Notation "x <- m ;; k" := (bind m (fun x => k))
  (at level 100, m at next level, right associativity).
Notation "m ;; k" := (bind m (fun _ => k))
  (at level 100, right associativity).

(** [run_bot] (lines 11-20). *)
Definition run_bot (config : Config) : Script unit :=
  do (GrapheneAPI (wallet_host config) (wallet_port config)) ;;
  locked <- ask IsLocked is_locked ;;
  (if locked : bool then do (Unlock (wallet_password config)) else ret tt) ;;
  do (Print Starting) ;;
  attempt BotInit (fun w => option_map BotFailure (bot_init w)) ;;
  do (Sleep 6) ;;
  do (Print Running) ;;
  attempt BotRun (fun w => option_map BotFailure (bot_run w)).

(** [register_account_faucet] (lines 22-39), called with the default
    [referrer] and [faucet] of the configuration. *)
Definition register_account_faucet (config : Config) (account public_key : string)
    : Script (bool * string) :=
  let payload := {| name := account;
                    owner_key := public_key;
                    active_key := public_key;
                    memo_key := public_key;
                    refcode := referrer config;
                    payload_referrer := referrer config |} in
  request <- ask (Post (String.append (faucet config) "/api/v1/accounts") payload)
               (fun w => (status_code w, text w)) ;;
  ret (Z.eqb (fst request) 201, snd request).

(** The dictionary comprehension of line 73: a bot's settings without the
    key ['bot']. *)
Definition without_bot (settings : list (string * string)) : list (string * string) :=
  List.filter (fun kv => negb (String.eqb (fst kv) "bot")) settings.

(** The script (lines 42-80). *)
Definition main (config : Config) : Script unit :=
  do (Sleep 5) ;;
  do (GrapheneAPI (wallet_host config) (wallet_port config)) ;;
  except_RPCError
    (attempt (SetPassword (wallet_password config))
       (fun w => if set_password_fails w then Some RPCError else None)) ;;
  do (Unlock (wallet_password config)) ;;
  accounts <- ask ListMyAccounts my_accounts ;;
  if Nat.eqb (List.length accounts) 0 then
    key <- ask SuggestBrainKey brain_key ;;
    registration <- register_account_faucet config (account config) (pub_key key) ;;
    if fst registration : bool then
      do (ImportKey (account config) (wif_priv_key key)) ;;
      do (Print (Registered (account config))) ;;
      after <- ask ListMyAccounts my_accounts_after_import ;;
      do (Print (MyAccounts after)) ;;
      do (Print (BrainKeyLine (brain_priv_key key))) ;;
      do (Print WriteItDown) ;;
      do (Print (SendFunds (account config)))
    else
      do (Print CreationFailed) ;;
      do (Print (WholeBrainKey key)) ;;
      do (Print (FaucetResponse (faucet config) (snd registration)))
  else
    balances <- ask (ListAccountBalances (account config)) account_balances ;;
    let bot_configs := map (fun b => (fst b, without_bot (snd b))) (bots config) in
    do (Print (AccountName (account config))) ;;
    do (Print (AccountBalances balances)) ;;
    do (Print (BotConfig bot_configs)) ;;
    run_bot config.

(** ** Vocabulary of the statements *)

Definition is_import (c : call) : bool :=
  match c with
  | ImportKey _ _ => true
  | _ => false
  end.

Definition is_post (c : call) : bool :=
  match c with
  | Post _ _ => true
  | _ => false
  end.

Definition is_bot (c : call) : bool :=
  match c with
  | BotInit | BotRun => true
  | _ => false
  end.

Definition is_unlock (c : call) : bool :=
  match c with
  | Unlock _ => true
  | _ => false
  end.

(** The request that registers [account] with the one key [public_key]. *)
Definition registration_of (config : Config) (public_key : string) : call :=
  Post (String.append (faucet config) "/api/v1/accounts")
    {| name := account config;
       owner_key := public_key;
       active_key := public_key;
       memo_key := public_key;
       refcode := referrer config;
       payload_referrer := referrer config |}.

(** A configuration and answers for a first run: an empty wallet and a
    faucet that answers 201. *)
Definition example_config : Config :=
  {| wallet_host := "cli-wallet";
     wallet_port := 8092;
     wallet_password := "secret";
     account := "liquidity-bot";
     referrer := "xeroc";
     faucet := "https://faucet.example";
     bots := [("LiquidityWall", [("bot", "LiquiditySellBuyWalls"); ("ratio", "2.5")])] |}.

Definition example_key : BrainKey :=
  {| brain_priv_key := "WORDS"; wif_priv_key := "5K"; pub_key := "BTS6" |}.

Definition first_run (status : Z) : Answers :=
  {| set_password_fails := false;
     is_locked := true;
     my_accounts := [];
     my_accounts_after_import := ["liquidity-bot"];
     brain_key := example_key;
     status_code := status;
     text := "{}";
     account_balances := "[]";
     bot_init := None;
     bot_run := None |}.

Definition later_run : Answers :=
  {| set_password_fails := true;
     is_locked := false;
     my_accounts := ["liquidity-bot"];
     my_accounts_after_import := ["liquidity-bot"];
     brain_key := example_key;
     status_code := 0;
     text := "";
     account_balances := "[]";
     bot_init := None;
     bot_run := None |}.

End Main.

Section Strategy.

Context {num : Type} `{PyFloat num}.

(** ** Data model *)

(** Values of the settings dictionary.  Lines 180-182 compare the target
    price with string literals by identity ([is]), so a string value comes in
    two kinds: [VStr s] is the string object that CPython shares between the
    literals spelled [s] (an interned string, as a literal of the
    configuration module is), and [VStrFresh s] is another string object with
    the same characters (built at run time, for instance read from a file).
    Everything but lines 180-182 treats the two alike. *)
Inductive pyval : Type :=
| VNone
| VBool (b : bool)
| VInt (z : Z)
| VFloat (x : num)
| VStr (s : string)
| VStrFresh (s : string)
| VList (l : list string)
| VDict (d : gmap string num).

Record order : Type := {
  orderNumber : string;
  type : string;
  rate : num;
  total : num
}.

Record debt_position : Type := {
  debt : num;
  collateral : num;
  collateral_asset : string
}.

(** An entry of the ticker; the key ["settlement_price"] may be absent. *)
Record ticker_entry : Type := {
  settlement_price : option num
}.

(** What [dex.rpc.get_asset] returns, as far as [init] reads it. *)
Record asset : Type := {
  asset_id : string;
  bitasset_data_id : option string
}.

(** The lines the strategy prints (time stamps left out). *)
Inductive log : Type :=
| LogBlocks (block_counter : Z)
| LogOrderSpread (orderNumber : string) (order_feed_spread : num)
| LogPlacingDebt (symbol : string) (amount : num)
| LogCancelling (market : string)
| LogCancelOne (orderNumber : string)
| LogCancelError (o : order)
| LogNoDebt
| LogChange (amount current change_percentage : num)
| LogWrong (n : nat)
| LogAdjust (symbol : string) (delta_amount : num)
| LogFilled (oid : string)
| LogPlaced (oid : string).

(** The calls on the exchange and the printed lines, in the order made. *)
Inductive event : Type :=
| ReturnTicker
| ReturnOpenOrders
| ListDebtPositions
| ReturnBalances
| Sell (market : string) (price amount : num)
| Buy (market : string) (price amount : num)
| Cancel (orderNumber : string)
| Borrow (amount : num) (symbol : string) (ratio : pyval)
| AdjustDebt (delta_amount : num) (symbol : string) (ratio : pyval)
| Log (l : log).

(** The strategy object: [self.settings], the class attribute
    [block_counter], and the four snapshots of [update_data]. *)
Record bot : Type := {
  settings : gmap string pyval;
  block_counter : Z;
  ticker : gmap string ticker_entry;
  open_orders : list (string * list order);
  debt_positions : list (string * debt_position);
  balances : gmap string num
}.

(** The exchange and the configuration module.  A query is answered from the
    calls made so far; [cancel_raises] says whether [dex.cancel] raises;
    the other commands return. *)
Record Dex : Type := {
  dex_market_separator : string;
  config_market_separator : string;
  returnTicker : list event -> gmap string ticker_entry;
  returnOpenOrders : list event -> list (string * list order);
  list_debt_positions : list event -> list (string * debt_position);
  returnBalances : list event -> gmap string num;
  cancel_raises : list event -> string -> bool;
  get_asset : string -> asset;
  short_backing_asset : string -> string
}.

Variable dex : Dex.

(** ** The monad of methods *)

Record outcome (A : Type) : Type := {
  res : result A;
  st : bot;
  out : list event
}.
Arguments res {A} o.
Arguments st {A} o.
Arguments out {A} o.

(** A method runs on the object [self], after the calls [h] already made. *)
Definition M (A : Type) : Type := bot -> list event -> outcome A.

Definition ret {A : Type} (a : A) : M A :=
  fun self _ => {| res := Ok a; st := self; out := [] |}.

Definition raise {A : Type} (e : exn) : M A :=
  fun self _ => {| res := Raise e; st := self; out := [] |}.

Definition bind {A B : Type} (m : M A) (k : A -> M B) : M B :=
  fun self h =>
    let r1 := m self h in
    match res r1 with
    | Ok a =>
        let r2 := k a (st r1) (h ++ out r1) in
        {| res := res r2; st := st r2; out := out r1 ++ out r2 |}
    | Raise e => {| res := Raise e; st := st r1; out := out r1 |}
    end.

Notation "x <- m ;; k" := (bind m (fun x => k))
  (at level 100, m at next level, right associativity).
Notation "m ;; k" := (bind m (fun _ => k))
  (at level 100, right associativity).

Definition get_self : M bot :=
  fun self _ => {| res := Ok self; st := self; out := [] |}.

(** [self.attribute = value], as a function on the object. *)
Definition assign (f : bot -> bot) : M unit :=
  fun self _ => {| res := Ok tt; st := f self; out := [] |}.

Definition history : M (list event) :=
  fun self h => {| res := Ok h; st := self; out := [] |}.

Definition emit (e : event) : M unit :=
  fun self _ => {| res := Ok tt; st := self; out := [e] |}.

Definition print (l : log) : M unit := emit (Log l).

(** [for x in l: body(x)] *)
Fixpoint for_each {A : Type} (l : list A) (body : A -> M unit) : M unit :=
  match l with
  | [] => ret tt
  | x :: l' => body x ;; for_each l' body
  end.

(** ** Reading settings and snapshots *)

(** [self.settings[k]] *)
Definition setting (k : string) : M pyval :=
  fun self _ =>
    match settings self !! k with
    | Some v => {| res := Ok v; st := self; out := [] |}
    | None => {| res := Raise (KeyError k); st := self; out := [] |}
    end.

(** An integer [n] with [float(n)] exact.  On such integers Python's
    arithmetic of integers (true division, comparison with a float) and the
    arithmetic of the floats [float(n)] give the same results; beyond them
    they may differ in the last digit, and the model does not follow. *)
Definition exact_int (z : Z) : bool := Z.abs z <=? 2 ^ 53.

(** A value used as an operand of float arithmetic or comparison. *)
Definition num_of (v : pyval) : option num :=
  match v with
  | VInt z => if exact_int z then Some (of_Z z) else None
  | VFloat x => Some x
  | VBool b => Some (of_Z (if b then 1 else 0))
  | _ => None
  end.

Definition as_num (v : pyval) : M num :=
  match num_of v with
  | Some x => ret x
  | None =>
      match v with
      | VInt _ => raise (NotModelled "integer beyond 2**53")
      | _ => raise TypeError
      end
  end.

Definition num_setting (k : string) : M num :=
  v <- setting k ;; as_num v.

(** [self.settings[k][key]] *)
Definition dict_setting (k key : string) : M num :=
  v <- setting k ;;
  match v with
  | VDict d =>
      match d !! key with
      | Some x => ret x
      | None => raise (KeyError key)
      end
  | _ => raise TypeError
  end.

(** [for market in self.settings["markets"]]: the list iterated over.  A
    string is iterated character by character; a dictionary of numbers is no
    list of markets and is left out of the model. *)
Definition markets_setting : M (list string) :=
  v <- setting "markets" ;;
  match v with
  | VList l => ret l
  | VStr s | VStrFresh s => ret (map (fun c => String c EmptyString) (list_ascii_of_string s))
  | VDict _ => raise (NotModelled "markets given as a dictionary")
  | _ => raise TypeError
  end.

(** Truth value of a setting. *)
Definition truthy (v : pyval) : bool :=
  match v with
  | VNone => false
  | VBool b => b
  | VInt z => negb (z =? 0)
  | VFloat x => negb (feq x (of_Z 0))
  | VStr s | VStrFresh s => negb (String.eqb s "")
  | VList l => match l with [] => false | _ => true end
  | VDict d => match map_to_list d with [] => false | _ => true end
  end.

(** [quote, base = market.split(sep)] *)
Definition split_market (sep market : string) : M (string * string) :=
  if String.eqb sep "" then raise ValueError
  else match py_split sep market with
       | [quote; base] => ret (quote, base)
       | _ => raise ValueError
       end.

(** [x / y] with a divisor that may be zero. *)
Definition py_div (x y : num) : M num :=
  if feq y (of_Z 0) then raise ZeroDivisionError else ret (fdiv x y).

(** [min([x, y])]: the first of the smallest. *)
Definition py_min (x y : num) : num := if flt y x then y else x.

(** [sum(l)], from the integer 0. *)
Definition py_sum (l : list num) : num := fold_left fadd l (of_Z 0).

Definition set_settings (v : gmap string pyval) (self : bot) : bot :=
  {| settings := v; block_counter := block_counter self; ticker := ticker self;
     open_orders := open_orders self; debt_positions := debt_positions self;
     balances := balances self |}.

Definition set_block_counter (v : Z) (self : bot) : bot :=
  {| settings := settings self; block_counter := v; ticker := ticker self;
     open_orders := open_orders self; debt_positions := debt_positions self;
     balances := balances self |}.

Definition set_ticker (v : gmap string ticker_entry) (self : bot) : bot :=
  {| settings := settings self; block_counter := block_counter self; ticker := v;
     open_orders := open_orders self; debt_positions := debt_positions self;
     balances := balances self |}.

Definition set_open_orders (v : list (string * list order)) (self : bot) : bot :=
  {| settings := settings self; block_counter := block_counter self; ticker := ticker self;
     open_orders := v; debt_positions := debt_positions self;
     balances := balances self |}.

Definition set_debt_positions (v : list (string * debt_position)) (self : bot) : bot :=
  {| settings := settings self; block_counter := block_counter self; ticker := ticker self;
     open_orders := open_orders self; debt_positions := v;
     balances := balances self |}.

Definition set_balances (v : gmap string num) (self : bot) : bot :=
  {| settings := settings self; block_counter := block_counter self; ticker := ticker self;
     open_orders := open_orders self; debt_positions := debt_positions self;
     balances := v |}.

(** A query of the exchange: recorded, and answered from the calls so far. *)
Definition query {A : Type} (e : event) (answer : list event -> A) : M A :=
  fun self h => {| res := Ok (answer h); st := self; out := [e] |}.

(** ** [update_data] (lines 119-123) *)

Definition update_data : M unit :=
  t <- query ReturnTicker (returnTicker dex) ;;
  assign (set_ticker t) ;;
  o <- query ReturnOpenOrders (returnOpenOrders dex) ;;
  assign (set_open_orders o) ;;
  d <- query ListDebtPositions (list_debt_positions dex) ;;
  assign (set_debt_positions d) ;;
  b <- query ReturnBalances (returnBalances dex) ;;
  assign (set_balances b).

(** ** [get_total_bts] and [get_debt_amounts] (lines 256-280) *)

(** [calculation_type] is [None] by default; [get_debt_amounts] passes
    [self.debt_positions] for it.  Only its truth value is used: the
    comparison with ["worth"] guards an assignment that changes nothing. *)
Definition get_total_bts (calculation_type : option (list (string * debt_position))) : M num :=
  (match calculation_type with
   | Some (_ :: _) => ret tt
   | _ => _ <- setting "calculate_bts_total" ;; ret tt
   end) ;;
  self <- get_self ;;
  let total_collateral :=
    py_sum (map (fun kv => collateral (snd kv))
              (List.filter (fun kv => String.eqb (collateral_asset (snd kv)) "BTS")
                 (debt_positions self))) in
  let order_list := concat (map snd (open_orders self)) in
  let bts_on_orderbook :=
    py_sum (map total (List.filter (fun o => String.eqb (type o) "buy") order_list)) in
  match balances self !! "BTS" with
  | None => raise (KeyError "BTS")
  | Some b => ret (fadd (fadd total_collateral b) bts_on_orderbook)
  end.

Fixpoint debt_amounts_loop (total_bts : num) (markets : list string)
    (quote_amounts : list (string * num)) : M (list (string * num)) :=
  match markets with
  | [] => ret quote_amounts
  | m :: markets' =>
      qb <- split_market (config_market_separator dex) m ;;
      let quote := fst qb in
      p <- dict_setting "borrow_percentages" quote ;;
      self <- get_self ;;
      match ticker self !! m with
      | None => raise (KeyError m)
      | Some t =>
          match settlement_price t with
          | None => raise (KeyError "settlement_price")
          | Some price =>
              quote_amount <- py_div (fmul total_bts (fdiv p (of_Z 100))) price ;;
              debt_amounts_loop total_bts markets' (assoc_set quote quote_amount quote_amounts)
          end
      end
  end.

Definition get_debt_amounts : M (list (string * num)) :=
  self <- get_self ;;
  total_bts <- get_total_bts (Some (debt_positions self)) ;;
  markets <- markets_setting ;;
  debt_amounts_loop total_bts markets [].

(** ** Debt positions (lines 231-254) *)

Definition place_initial_debt_positions : M unit :=
  debt_amounts <- get_debt_amounts ;;
  print LogNoDebt ;;
  for_each debt_amounts (fun sa =>
    print (LogPlacingDebt (fst sa) (snd sa)) ;;
    ratio <- setting "ratio" ;;
    emit (Borrow (snd sa) (fst sa) ratio)).

Definition adjust_debt_amount (delta_amount : num) (symbol : string) : M unit :=
  print (LogAdjust symbol delta_amount) ;;
  ratio <- setting "ratio" ;;
  emit (AdjustDebt delta_amount symbol ratio).

Definition adjust_one (sa : string * num) : M unit :=
  let symbol := fst sa in
  let amount := snd sa in
  self <- get_self ;;
  match assoc_lookup symbol (debt_positions self) with
  | None => raise (KeyError symbol)
  | Some pos =>
      q <- py_div amount (debt pos) ;;
      let change_percentage := fmul (fabs (fsub q (of_Z 1))) (of_Z 100) in
      print (LogChange amount (debt pos) change_percentage) ;;
      minimum <- num_setting "minimum_change_percentage" ;;
      if fle minimum change_percentage
      then adjust_debt_amount (fsub amount (debt pos)) symbol
      else ret tt
  end.

Definition update_debt_positions : M unit :=
  debt_amounts <- get_debt_amounts ;;
  self <- get_self ;;
  if Nat.eqb (List.length (debt_positions self)) 0 then place_initial_debt_positions
  else if Nat.eqb (List.length (debt_positions self)) 3 then for_each debt_amounts adjust_one
  else print (LogWrong (List.length (debt_positions self))).

(** ** [orderFilled] and [orderPlaced] (lines 157-161) *)

Definition orderFilled (oid : string) : M unit := print (LogFilled oid).

Definition orderPlaced (oid : string) : M unit := print (LogPlaced oid).

(** ** [place_orders] (lines 163-212) *)

(** Remaining depth of the Python call stack ([sys.getrecursionlimit()]):
    it bounds the calls of [place_orders] and [cancel_orders] on themselves
    in their ["all"] branch. *)
Variable recursionlimit : nat.

(** Lines 169-172. *)
Fixpoint collect_asset_ids (markets : list string) (asset_ids : list string) : M (list string) :=
  match markets with
  | [] => ret asset_ids
  | single_market :: markets' =>
      qb <- split_market (config_market_separator dex) single_market ;;
      collect_asset_ids markets' (asset_ids ++ [snd qb; fst qb])
  end.

(** Lines 174-176. *)
Fixpoint compute_amounts (bal : gmap string num) (asset_ids assets_unique : list string)
    (amounts : gmap string num) : M (gmap string num) :=
  match assets_unique with
  | [] => ret amounts
  | a :: rest =>
      match bal !! a with
      | Some b =>
          vp <- num_setting "volume_percentage" ;;
          compute_amounts bal asset_ids rest
            (<[a := fdiv (fdiv (fmul b vp) (of_Z 100))
                      (of_Z (Z.of_nat (count_string a asset_ids)))]> amounts)
      | None => compute_amounts bal asset_ids rest amounts
      end
  end.

(** [base * (1 + offset/100)] *)
Definition with_offset (price : num) : M num :=
  off <- num_setting "target_price_offset_percentage" ;;
  ret (fmul price (fadd (of_Z 1) (fdiv off (of_Z 100)))).

(** Lines 177-186.  The tests [target_price is "feed"] compare identities:
    they hold of the interned string of that spelling ([VStr]) and of no
    other string object ([VStrFresh]).  When no branch is taken [base_price]
    is unbound at line 188. *)
Definition base_price (market : string) (target_price : pyval) : M num :=
  match target_price with
  | VFloat _ | VInt _ | VBool _ =>
      t <- as_num target_price ;;
      with_offset t
  | VStr s =>
      if String.eqb s "settlement_price" || String.eqb s "feed" || String.eqb s "price_feed"
      then
        self <- get_self ;;
        match ticker self !! market with
        | None => raise (KeyError market)
        | Some t =>
            match settlement_price t with
            | Some p => with_offset p
            | None =>
                raise (Exception (String.append "Pair "
                         (String.append market " does not have a settlement price!")))
            end
        end
      else raise (UnboundLocalError "base_price")
  | _ => raise (UnboundLocalError "base_price")
  end.

(** Line 188. *)
Definition buy_price (base_price : num) : M num :=
  sp <- num_setting "spread_percentage" ;;
  ret (fmul base_price (fsub (of_Z 1) (fdiv sp (of_Z 200)))).

(** Line 189. *)
Definition sell_price (base_price : num) : M num :=
  sp <- num_setting "spread_percentage" ;;
  ret (fmul base_price (fadd (of_Z 1) (fdiv sp (of_Z 200)))).

(** ["symmetric_sides" in self.settings and self.settings["symmetric_sides"]] *)
Definition symmetric_sides : M bool :=
  fun self _ =>
    {| res := Ok (match settings self !! "symmetric_sides" with
                  | Some v => truthy v
                  | None => false
                  end);
       st := self; out := [] |}.

(** The size gate of lines 195, 199, 204 and 208, each time against
    [minimum_amounts[quote]]. *)
Definition submit_if_large (quote : string) (amount : num) (order : event) : M unit :=
  minimum <- dict_setting "minimum_amounts" quote ;;
  if fle minimum amount then emit order else ret tt.

(** Lines 192-200. *)
Definition place_sell (market quote base : string) (amounts : gmap string num)
    (buy sell : num) (only_sell only_buy : bool) : M unit :=
  match amounts !! quote with
  | Some aq =>
      if negb only_buy then
        symmetric <- symmetric_sides ;;
        if symmetric && negb only_sell then
          amount <- match amounts !! base with
                    | Some ab => q <- py_div ab buy ;; ret (py_min aq q)
                    | None => ret aq
                    end ;;
          submit_if_large quote amount (Sell market sell amount)
        else submit_if_large quote aq (Sell market sell aq)
      else ret tt
  | None => ret tt
  end.

(** Lines 201-209. *)
Definition place_buy (market quote base : string) (amounts : gmap string num)
    (buy : num) (only_sell only_buy : bool) : M unit :=
  match amounts !! base with
  | Some ab =>
      if negb only_sell then
        symmetric <- symmetric_sides ;;
        if symmetric && negb only_buy then
          amount <- match amounts !! quote with
                    | Some aq => q <- py_div ab buy ;; ret (py_min aq q)
                    | None => py_div ab buy
                    end ;;
          submit_if_large quote amount (Buy market buy amount)
        else
          amount <- py_div ab buy ;;
          submit_if_large quote amount (Buy market buy amount)
      else ret tt
  | None => ret tt
  end.

(** The branch [market != "all"] (lines 165-209). *)
Definition place_orders_market (market : string) (only_sell only_buy : bool) : M unit :=
  target_price <- setting "target_price" ;;
  bal <- query ReturnBalances (returnBalances dex) ;;
  markets <- markets_setting ;;
  asset_ids <- collect_asset_ids markets [] ;;
  amounts <- compute_amounts bal asset_ids (unique_strings asset_ids) ∅ ;;
  base <- base_price market target_price ;;
  buy <- buy_price base ;;
  sell <- sell_price base ;;
  qb <- split_market (config_market_separator dex) market ;;
  place_sell market (fst qb) (snd qb) amounts buy sell only_sell only_buy ;;
  place_buy market (fst qb) (snd qb) amounts buy only_sell only_buy.

Fixpoint place_orders (depth : nat) (market : string) (only_sell only_buy : bool) : M unit :=
  if negb (String.eqb market "all") then place_orders_market market only_sell only_buy
  else match depth with
       | O => raise RecursionError
       | S d =>
           markets <- markets_setting ;;
           for_each markets (fun m => place_orders d m false false)
       end.

(** ** [cancel_orders] (lines 214-229) *)

(** One turn of the loop of lines 220-226: a failing [dex.cancel] is caught
    and reported, and the loop goes on. *)
Definition cancel_one (o : order) : M unit :=
  print (LogCancelOne (orderNumber o)) ;;
  h <- history ;;
  emit (Cancel (orderNumber o)) ;;
  if cancel_raises dex h (orderNumber o) then print (LogCancelError o) else ret tt.

Definition cancel_orders_market (market : string) : M unit :=
  self <- get_self ;;
  match assoc_lookup market (open_orders self) with
  | None => raise (KeyError market)
  | Some os => for_each os cancel_one
  end.

Fixpoint cancel_orders (depth : nat) (market : string) : M unit :=
  print (LogCancelling market) ;;
  if negb (String.eqb market "all") then cancel_orders_market market
  else match depth with
       | O => raise RecursionError
       | S d =>
           markets <- markets_setting ;;
           for_each markets (cancel_orders d)
       end.

(** ** [check_and_replace] (lines 133-155) *)

(** Line 143. *)
Definition order_feed_spread (market : string) (o : order) : M num :=
  self <- get_self ;;
  match ticker self !! market with
  | None => raise (KeyError market)
  | Some t =>
      match settlement_price t with
      | None => raise (KeyError "settlement_price")
      | Some p =>
          q <- py_div (fsub (rate o) p) p ;;
          ret (fabs (fmul q (of_Z 100)))
      end
  end.

(** The condition of line 145; [or] evaluates its right side only when the
    left one is false. *)
Definition must_replace (spread : num) : M bool :=
  allowed <- num_setting "allowed_spread_percentage" ;;
  if fle spread (fdiv allowed (of_Z 2)) then ret true
  else
    allowed' <- num_setting "allowed_spread_percentage" ;;
    sp <- num_setting "spread_percentage" ;;
    ret (fle (fdiv (fadd allowed' sp) (of_Z 2)) spread).

(** Lines 146-148. *)
Definition replace_now (market : string) : M bool :=
  cancel_orders recursionlimit market ;;
  place_orders recursionlimit market false false ;;
  ret true.

(** The loop of lines 142-148; the result says whether the method returned
    [True] from inside the loop. *)
Fixpoint replace_loop (market : string) (os : list order) : M bool :=
  match os with
  | [] => ret false
  | o :: os' =>
      spread <- order_feed_spread market o ;;
      print (LogOrderSpread (orderNumber o) spread) ;;
      stale <- must_replace spread ;;
      if stale then replace_now market
      else replace_loop market os'
  end.

(** Lines 134-148; the result says whether the method has returned. *)
Definition reconcile_orders (market : string) : M bool :=
  self <- get_self ;;
  match assoc_lookup market (open_orders self) with
  | None => ret false
  | Some os =>
      (if Nat.eqb (List.length os) 0
       then place_orders recursionlimit market false false
       else ret tt) ;;
      (match os with
       | [o] =>
           if String.eqb (type o) "sell" then place_orders recursionlimit market false true
           else if String.eqb (type o) "buy" then place_orders recursionlimit market true false
           else ret tt
       | _ => ret tt
       end) ;;
      replace_loop market os
  end.

(** Lines 149-154. *)
Definition borrow_missing (market : string) : M unit :=
  qb <- split_market (dex_market_separator dex) market ;;
  let symbol := fst qb in
  self <- get_self ;;
  match assoc_lookup symbol (debt_positions self) with
  | Some _ => ret tt
  | None =>
      debt_amounts <- get_debt_amounts ;;
      match assoc_lookup symbol debt_amounts with
      | None => raise (KeyError symbol)
      | Some amount =>
          print (LogPlacingDebt symbol amount) ;;
          ratio <- setting "ratio" ;;
          emit (Borrow amount symbol ratio)
      end
  end.

Definition check_and_replace (market : string) : M bool :=
  returned <- reconcile_orders market ;;
  if returned then ret true
  else borrow_missing market ;; ret false.

(** ** [tick] (lines 125-131) *)

(** [n % v] for the integer [n]; the remainder by a float is left out of the
    model. *)
Definition py_mod (n : Z) (v : pyval) : M Z :=
  match v with
  | VInt k => if k =? 0 then raise ZeroDivisionError else ret (n mod k)
  | VBool b => if b then ret (n mod 1) else raise ZeroDivisionError
  | VFloat _ => raise (NotModelled "remainder by a float")
  | _ => raise TypeError
  end.

(** The body of the [if] of line 127. *)
Definition tick_work : M unit :=
  self <- get_self ;;
  print (LogBlocks (block_counter self)) ;;
  update_data ;;
  markets <- markets_setting ;;
  for_each markets (fun market => _ <- check_and_replace market ;; ret tt).

Definition tick : M unit :=
  assign (fun self => set_block_counter (block_counter self + 1) self) ;;
  self <- get_self ;;
  skip <- setting "skip_blocks" ;;
  r <- py_mod (block_counter self) skip ;;
  if r =? 0 then tick_work else ret tt.

(** ** [init] (lines 55-117) *)

Definition default_setting (k : string) (v : pyval) : M unit :=
  self <- get_self ;;
  match settings self !! k with
  | Some _ => ret tt
  | None => assign (set_settings (<[k := v]> (settings self)))
  end.

Definition require_setting (k : string) : M unit :=
  self <- get_self ;;
  match settings self !! k with
  | Some _ => ret tt
  | None => raise (MissingSettingsException k)
  end.

(** Lines 58-89. *)
Definition init_settings : M unit :=
  default_setting "target_price_offset_percentage" (VFloat (of_Z 0)) ;;
  require_setting "target_price" ;;
  require_setting "spread_percentage" ;;
  require_setting "volume_percentage" ;;
  default_setting "symmetric_sides" (VBool true) ;;
  default_setting "expiration" (VInt (60 * 60 * 24)) ;;
  default_setting "skip_blocks" (VInt 20) ;;
  require_setting "ratio" ;;
  require_setting "borrow_percentages" ;;
  require_setting "minimum_amounts" ;;
  require_setting "minimum_change_percentage".

(** Lines 93-107, for one market. *)
Definition verify_market (market : string) : M unit :=
  qb <- split_market (dex_market_separator dex) market ;;
  let quote := get_asset dex (fst qb) in
  let base := get_asset dex (snd qb) in
  match bitasset_data_id quote with
  | None => raise ValueError
  | Some bid =>
      if String.eqb (short_backing_asset dex bid) (asset_id base) then ret tt
      else raise AssertionError
  end.

(** Lines 58-107: the settings, then the markets. *)
Definition init_checks : M unit :=
  init_settings ;;
  markets <- markets_setting ;;
  for_each markets verify_market.

Definition init : M unit :=
  init_checks ;;
  update_data ;;
  self <- get_self ;;
  (if Nat.eqb (List.length (debt_positions self)) 0
   then place_initial_debt_positions
   else ret tt) ;;
  tick.

(** * Vocabulary of the statements *)

(** A reader neither changes the object nor calls the exchange nor prints,
    and its result does not depend on the calls made before. *)
Definition reader {A : Type} (m : M A) : Prop :=
  forall self, exists r, forall h, m self h = {| res := r; st := self; out := [] |}.

(** The effects of a method: [R] relates the object before and after it,
    and [P self] holds of every event it emits when started on [self]. *)
Definition respects (R : bot -> bot -> Prop) (P : bot -> event -> Prop)
    {A : Type} (m : M A) : Prop :=
  forall self h, R self (st (m self h)) /\ Forall (P self) (out (m self h)).

(** The outcome [r], after the events [l]. *)
Definition prepend {A : Type} (l : list event) (r : outcome A) : outcome A :=
  {| res := res r; st := st r; out := l ++ out r |}.

(** An order event passed the size gate of its market's quote asset: the
    market splits into quote and base, and the amount is at least
    [minimum_amounts[quote]]. *)
Definition gate_passed (self : bot) (market : string) (amount : num) : Prop :=
  exists quote base d minimum,
    py_split (config_market_separator dex) market = [quote; base] /\
    settings self !! "minimum_amounts" = Some (VDict d) /\
    d !! quote = Some minimum /\
    fle minimum amount = true.

Definition gated (self : bot) (e : event) : Prop :=
  match e with
  | Sell market _ amount => gate_passed self market amount
  | Buy market _ amount => gate_passed self market amount
  | _ => True
  end.

(** Placing or cancelling an order. *)
Definition order_action (e : event) : bool :=
  match e with
  | Sell _ _ _ | Buy _ _ _ | Cancel _ => true
  | _ => false
  end.

Definition is_cancel (e : event) : bool :=
  match e with
  | Cancel _ => true
  | _ => false
  end.

Definition is_borrow (e : event) : bool :=
  match e with
  | Borrow _ _ _ => true
  | _ => false
  end.

(** What [cancel_orders] emits: calls of [dex.cancel] and printed lines. *)
Definition cancel_event (e : event) : Prop :=
  match e with
  | Cancel _ | Log _ => True
  | _ => False
  end.

(** [|rate - settlement_price| / settlement_price * 100] *)
Definition feed_spread (p : num) (o : order) : num :=
  fabs (fmul (fdiv (fsub (rate o) p) p) (of_Z 100)).

(** The order is at most [allowed/2] or at least [(allowed + spread)/2] away
    from the feed. *)
Definition is_stale (allowed sp p : num) (o : order) : bool :=
  fle (feed_spread p o) (fdiv allowed (of_Z 2))
  || fle (fdiv (fadd allowed sp) (of_Z 2)) (feed_spread p o).

(** The line printed when an order is evaluated. *)
Definition spread_log (p : num) (o : order) : event :=
  Log (LogOrderSpread (orderNumber o) (feed_spread p o)).

(** The market has a non-zero settlement price [p] in the ticker, and the
    settings give the numbers [allowed_spread_percentage] and
    [spread_percentage]. *)
Definition feed_known (self : bot) (market : string) (p allowed sp : num) : Prop :=
  (exists t, ticker self !! market = Some t /\ settlement_price t = Some p) /\
  feq p (of_Z 0) = false /\
  (exists v, settings self !! "allowed_spread_percentage" = Some v /\ num_of v = Some allowed) /\
  (exists v, settings self !! "spread_percentage" = Some v /\ num_of v = Some sp).

(** The class attribute of line 50. *)
Definition initial_block_counter : Z := -1.

(** The object and the calls made after [n] invocations of [tick], one per
    block, whatever each of them returned or raised. *)
Fixpoint after_ticks (n : nat) (self : bot) (h : list event) : bot * list event :=
  match n with
  | O => (self, h)
  | S n' =>
      let sh := after_ticks n' self h in
      (st (tick (fst sh) (snd sh)), snd sh ++ out (tick (fst sh) (snd sh)))
  end.

(** Settings and block counter are the same. *)
Definition same_config (s s' : bot) : Prop :=
  settings s' = settings s /\ block_counter s' = block_counter s.

(** The settings [init] raises [MissingSettingsException] for. *)
Definition required_settings : list string :=
  ["target_price"; "spread_percentage"; "volume_percentage"; "ratio";
   "borrow_percentages"; "minimum_amounts"; "minimum_change_percentage"].

(** The documented defaults. *)
Definition default_of (k : string) : option pyval :=
  if String.eqb k "target_price_offset_percentage" then Some (VFloat (of_Z 0))
  else if String.eqb k "symmetric_sides" then Some (VBool true)
  else if String.eqb k "expiration" then Some (VInt 86400)
  else if String.eqb k "skip_blocks" then Some (VInt 20)
  else None.

(** [if k not in settings: settings[k] = v] *)
Definition fill (k : string) (v : pyval) (m : gmap string pyval) : gmap string pyval :=
  match m !! k with
  | Some _ => m
  | None => <[k := v]> m
  end.

(** The settings after the four defaults. *)
Definition with_defaults (m : gmap string pyval) : gmap string pyval :=
  fill "skip_blocks" (VInt 20)
    (fill "expiration" (VInt (60 * 60 * 24))
       (fill "symmetric_sides" (VBool true)
          (fill "target_price_offset_percentage" (VFloat (of_Z 0)) m))).

(** The first required setting that is missing, in the order of the checks. *)
Fixpoint first_missing (m : gmap string pyval) (keys : list string) : option string :=
  match keys with
  | [] => None
  | k :: keys' =>
      match m !! k with
      | Some _ => first_missing m keys'
      | None => Some k
      end
  end.

(** The collateral in BTS, plus the free balance of BTS, plus what the open
    buy orders hold. *)
Definition total_backing (self : bot) (free : num) : num :=
  fadd
    (fadd
       (py_sum (map (fun kv => collateral (snd kv))
                  (List.filter (fun kv => String.eqb (collateral_asset (snd kv)) "BTS")
                     (debt_positions self))))
       free)
    (py_sum (map total
               (List.filter (fun o => String.eqb (type o) "buy")
                  (concat (map snd (open_orders self)))))).

(** [totalBacking * (borrow_percentage/100) / settlement_price] *)
Definition desired (total_bts percentage price : num) : num :=
  fdiv (fmul total_bts (fdiv percentage (of_Z 100))) price.

Definition has_quote (m quote : string) : Prop :=
  exists base, py_split (config_market_separator dex) m = [quote; base].

(** The market has the quote asset [quote], a borrow percentage for it and
    a non-zero settlement price. *)
Definition market_known (self : bot) (m quote : string) (percentage price : num) : Prop :=
  has_quote m quote /\
  (exists d, settings self !! "borrow_percentages" = Some (VDict d) /\
             d !! quote = Some percentage) /\
  (exists t, ticker self !! m = Some t /\ settlement_price t = Some price) /\
  feq price (of_Z 0) = false.

(** [|desired/current - 1| * 100] *)
Definition change_percentage (amount current : num) : num :=
  fmul (fabs (fsub (fdiv amount current) (of_Z 1))) (of_Z 100).

(** * A worked configuration *)

(** [a/b], for example numbers that are exact in binary. *)
Definition frac (a b : Z) : num := fdiv (of_Z a) (of_Z b).

(** The configuration of the class's docstring, with numbers that are exact
    as IEEE doubles: one market, a feed price of 2 BTS per USD, an offset of
    25 percent and a spread of 12.5 percent, so that the walls stand at
    2.34375 and 2.65625 around the base price 2.5; orders are replaced when
    they are at most 1.25 or at least 7.5 percent away from the feed. *)
Definition example_settings : gmap string pyval :=
  list_to_map
    [("markets", VList ["USD:BTS"]);
     ("borrow_percentages", VDict (list_to_map [("USD", of_Z 30); ("BTS", of_Z 70)]));
     ("minimum_amounts", VDict (list_to_map [("USD", frac 1 4)]));
     ("target_price", VStr "feed");
     ("target_price_offset_percentage", VInt 25);
     ("spread_percentage", VFloat (frac 25 2));
     ("allowed_spread_percentage", VFloat (frac 5 2));
     ("volume_percentage", VInt 10);
     ("symmetric_sides", VBool true);
     ("expiration", VInt 21600);
     ("ratio", VFloat (frac 5 2));
     ("skip_blocks", VInt 20);
     ("minimum_change_percentage", VInt 10)].

(** Settings that give the required keys and nothing else. *)
Definition example_raw_settings : gmap string pyval :=
  list_to_map
    [("markets", VList ["USD:BTS"]);
     ("target_price", VStr "feed");
     ("spread_percentage", VFloat (frac 25 2));
     ("volume_percentage", VInt 10);
     ("ratio", VFloat (frac 5 2));
     ("borrow_percentages", VDict (list_to_map [("USD", of_Z 30); ("BTS", of_Z 70)]));
     ("minimum_amounts", VDict (list_to_map [("USD", frac 1 4)]));
     ("minimum_change_percentage", VInt 10)].

Definition example_ticker : gmap string ticker_entry :=
  list_to_map [("USD:BTS", {| settlement_price := Some (of_Z 2) |})].

(** [bts] free BTS and 100 free USD. *)
Definition example_balances (bts : num) : gmap string num :=
  list_to_map [("BTS", bts); ("USD", of_Z 100)].

Definition example_asset (name : string) : asset :=
  if String.eqb name "BTS" then {| asset_id := "1.3.0"; bitasset_data_id := None |}
  else {| asset_id := "1.3.121"; bitasset_data_id := Some "2.4.21" |}.

(** An exchange that answers every query with the same snapshot and on which
    no cancel fails. *)
Definition example_dex (orders : list (string * list order))
    (debts : list (string * debt_position)) (bts : num) : Dex :=
  {| dex_market_separator := ":";
     config_market_separator := ":";
     returnTicker := fun _ => example_ticker;
     returnOpenOrders := fun _ => orders;
     list_debt_positions := fun _ => debts;
     returnBalances := fun _ => example_balances bts;
     cancel_raises := fun _ _ => false;
     get_asset := example_asset;
     short_backing_asset := fun _ => "1.3.0" |}.

(** The same exchange, on which cancelling the order 1.7.1 fails. *)
Definition example_dex_cancel_fails (orders : list (string * list order))
    (debts : list (string * debt_position)) (bts : num) : Dex :=
  {| dex_market_separator := ":";
     config_market_separator := ":";
     returnTicker := fun _ => example_ticker;
     returnOpenOrders := fun _ => orders;
     list_debt_positions := fun _ => debts;
     returnBalances := fun _ => example_balances bts;
     cancel_raises := fun _ n => String.eqb n "1.7.1";
     get_asset := example_asset;
     short_backing_asset := fun _ => "1.3.0" |}.

(** The strategy object holding that snapshot, before its first tick. *)
Definition example_bot (orders : list (string * list order))
    (debts : list (string * debt_position)) (bts : num) : bot :=
  {| settings := example_settings;
     block_counter := -1;
     ticker := example_ticker;
     open_orders := orders;
     debt_positions := debts;
     balances := example_balances bts |}.

Definition usd_debt : string * debt_position :=
  ("USD", {| debt := of_Z 100; collateral := of_Z 600; collateral_asset := "BTS" |}).

Definition cny_debt : string * debt_position :=
  ("CNY", {| debt := of_Z 50; collateral := of_Z 400; collateral_asset := "BTS" |}).

Definition eur_debt : string * debt_position :=
  ("EUR", {| debt := of_Z 50; collateral := of_Z 400; collateral_asset := "BTS" |}).

(** A sell at 2.0625, 3.125 percent away from the feed: within the band. *)
Definition sell_near : order :=
  {| orderNumber := "1.7.1"; type := "sell"; rate := frac 33 16; total := of_Z 20 |}.

(** A buy at 1.75, 12.5 percent away from the feed: beyond the band. *)
Definition buy_far : order :=
  {| orderNumber := "1.7.2"; type := "buy"; rate := frac 7 4; total := of_Z 100 |}.

(** A sell at 2.25, 12.5 percent away from the feed. *)
Definition sell_far : order :=
  {| orderNumber := "1.7.3"; type := "sell"; rate := frac 9 4; total := of_Z 20 |}.


(** * Vocabulary of the further properties *)

Definition is_adjust (e : event) : bool :=
  match e with
  | AdjustDebt _ _ _ => true
  | _ => false
  end.

(** The call of [dex.cancel] for an open order. *)
Definition cancel_of (o : order) : event := Cancel (orderNumber o).

(** The open orders the snapshot lists for a market; none when the market
    is no key of [self.open_orders]. *)
Definition orders_of (self : bot) (market : string) : list order :=
  match assoc_lookup market (open_orders self) with
  | Some os => os
  | None => []
  end.

(** A debt command that fits the snapshot of [self]: a borrow for an asset
    without a debt position; never an adjustment. *)
Definition debt_command_allowed (self : bot) (e : event) : Prop :=
  match e with
  | Borrow _ symbol _ => assoc_lookup symbol (debt_positions self) = None
  | AdjustDebt _ _ _ => False
  | _ => True
  end.

(** The four queries of [update_data], in the order made. *)
Definition refresh_events : list event :=
  [ReturnTicker; ReturnOpenOrders; ListDebtPositions; ReturnBalances].

(** The object after [update_data], run after the calls [h]: settings and
    counter are kept, and each snapshot is the exchange's answer at the time
    of its query. *)
Definition fresh_snapshot (self : bot) (h : list event) : bot :=
  {| settings := settings self;
     block_counter := block_counter self;
     ticker := returnTicker dex h;
     open_orders := returnOpenOrders dex (h ++ [ReturnTicker]);
     debt_positions := list_debt_positions dex (h ++ [ReturnTicker; ReturnOpenOrders]);
     balances := returnBalances dex (h ++ [ReturnTicker; ReturnOpenOrders; ListDebtPositions]) |}.

(** The loop of lines 130-131 over the markets [ms]. *)
Definition reconcile_list (ms : list string) : M unit :=
  for_each ms (fun market => _ <- check_and_replace market ;; ret tt).

(** The test of line 127 on the counter already incremented: whether the
    tick is an active one, or the exception the test raises. *)
Definition tick_gate (self : bot) : result bool :=
  res ((skip <- setting "skip_blocks" ;;
        r <- py_mod (block_counter self) skip ;;
        ret (r =? 0)) self []).

(** The market is a pair whose quote asset is a bitasset backed by the
    market's base asset (lines 94-107). *)
Definition market_verified (market : string) : Prop :=
  exists quote base bid,
    py_split (dex_market_separator dex) market = [quote; base] /\
    bitasset_data_id (get_asset dex quote) = Some bid /\
    short_backing_asset dex bid = asset_id (get_asset dex base).

(** The market is no pair, or its quote asset is no bitasset. *)
Definition not_borrowable (market : string) : Prop :=
  (forall quote base, py_split (dex_market_separator dex) market <> [quote; base]) \/
  (exists quote base,
     py_split (dex_market_separator dex) market = [quote; base] /\
     bitasset_data_id (get_asset dex quote) = None).

(** The quote asset of the market is a bitasset backed by another asset
    than the market's base. *)
Definition wrong_collateral (market : string) : Prop :=
  exists quote base bid,
    py_split (dex_market_separator dex) market = [quote; base] /\
    bitasset_data_id (get_asset dex quote) = Some bid /\
    short_backing_asset dex bid <> asset_id (get_asset dex base).

(** The market is a pair [quote; base]. *)
Definition is_pair (market : string) : Prop :=
  exists quote base, py_split (config_market_separator dex) market = [quote; base].

(** The list [asset_ids] of lines 167-172: for each market its base, then
    its quote. *)
Definition market_assets (ms : list string) : list string :=
  flat_map (fun m => match py_split (config_market_separator dex) m with
                     | [quote; base] => [base; quote]
                     | _ => []
                     end) ms.

(** Line 176: the part of the balance [b] that one market may use when [n]
    sides of markets refer to the asset. *)
Definition allocation (vp b : num) (n : nat) : num :=
  fdiv (fdiv (fmul b vp) (of_Z 100)) (of_Z (Z.of_nat n)).

(** The value of ["symmetric_sides" in settings and settings["symmetric_sides"]]. *)
Definition symmetric_of (self : bot) : bool :=
  match settings self !! "symmetric_sides" with
  | Some v => truthy v
  | None => false
  end.

Definition is_sell (e : event) : bool :=
  match e with
  | Sell _ _ _ => true
  | _ => false
  end.

Definition is_buy (e : event) : bool :=
  match e with
  | Buy _ _ _ => true
  | _ => false
  end.

(** The orders one call of [place_orders] for [market] may submit: at most
    one sell order unless called with [only_buy], then at most one buy order
    unless called with [only_sell]. *)
Definition one_wall (market : string) (only_sell only_buy : bool) (l : list event) : Prop :=
  exists sells buys,
    l = sells ++ buys /\
    (sells = [] \/ (only_buy = false /\ exists price amount, sells = [Sell market price amount])) /\
    (buys = [] \/ (only_sell = false /\ exists price amount, buys = [Buy market price amount])).

(** What the bootstrap prints and issues for one allocated asset. *)
Definition borrow_events (ratio : pyval) (sa : string * num) : list event :=
  [Log (LogPlacingDebt (fst sa) (snd sa)); Borrow (snd sa) (fst sa) ratio].

(** [sep.join(parts)] *)
Fixpoint py_join (sep : string) (parts : list string) : string :=
  match parts with
  | [] => EmptyString
  | [p] => p
  | p :: ps => String.append p (String.append sep (py_join sep ps))
  end.

(** The number of occurrences of the character [c] in [s]. *)
Fixpoint count_char (c : Ascii.ascii) (s : string) : nat :=
  match s with
  | EmptyString => O
  | String a s' => ((if Ascii.eqb a c then 1 else 0) + count_char c s')%nat
  end.

(** [s[k:]] *)
Fixpoint drop_chars (k : nat) (s : string) : string :=
  match k, s with
  | O, _ => s
  | S k', String _ s' => drop_chars k' s'
  | S _, EmptyString => EmptyString
  end.

(** The configuration is complete for placing orders in [market] after the
    calls [h]: the market is one of the configured pairs, the balances the
    exchange reports hold [bq] of its quote and [bb] of its base asset, the
    settings give the volume [vp], the spread [sp] and the minimum amount of
    the quote asset, and the base price [bp] is computed. *)
Definition ready_to_place (self : bot) (h : list event) (market quote base : string)
    (ms : list string) (vp sp bp bq bb minimum : num) : Prop :=
  market <> "all" /\
  String.eqb (config_market_separator dex) "" = false /\
  settings self !! "markets" = Some (VList ms) /\
  Forall is_pair ms /\
  In market ms /\
  py_split (config_market_separator dex) market = [quote; base] /\
  returnBalances dex h !! quote = Some bq /\
  returnBalances dex h !! base = Some bb /\
  (exists v, settings self !! "volume_percentage" = Some v /\ num_of v = Some vp) /\
  (exists tp, settings self !! "target_price" = Some tp /\
              res (base_price market tp self h) = Ok bp) /\
  (exists v, settings self !! "spread_percentage" = Some v /\ num_of v = Some sp) /\
  (exists d, settings self !! "minimum_amounts" = Some (VDict d) /\ d !! quote = Some minimum).

(** Line 188 and line 189. *)
Definition buy_price_of (bp sp : num) : num :=
  fmul bp (fsub (of_Z 1) (fdiv sp (of_Z 200))).

Definition sell_price_of (bp sp : num) : num :=
  fmul bp (fadd (of_Z 1) (fdiv sp (of_Z 200))).

(** The orders of lines 192-209 on a complete configuration.  Each asset's
    allocation is [balance * volume_percentage / 100 / n], where [n] counts
    the sides of configured markets that refer to the asset; the size of the
    buy side is the allocation of the base asset divided by the buy price.
    With symmetric sides and both sides asked for, both orders have the
    smaller of the two sizes.  A side is submitted when it is asked for and
    its size is at least [minimum]. *)
Definition walls (self : bot) (market quote base : string) (ms : list string)
    (vp sp bp bq bb minimum : num) (only_sell only_buy : bool) : list event :=
  let buy := buy_price_of bp sp in
  let sell := sell_price_of bp sp in
  let aq := allocation vp bq (count_string quote (market_assets ms)) in
  let ab := allocation vp bb (count_string base (market_assets ms)) in
  let both := py_min aq (fdiv ab buy) in
  let sell_amount := if symmetric_of self && negb only_sell then both else aq in
  let buy_amount := if symmetric_of self && negb only_buy then both else fdiv ab buy in
  (if negb only_buy && fle minimum sell_amount then [Sell market sell sell_amount] else []) ++
  (if negb only_sell && fle minimum buy_amount then [Buy market buy buy_amount] else []).


(** The settings of the class's documentation that no method consults. *)
Definition unread_setting (k : string) : bool :=
  String.eqb k "only_buy" || String.eqb k "only_sell" || String.eqb k "expiration".

(** Two objects that differ at most in those settings. *)
Definition alike (s1 s2 : bot) : Prop :=
  (forall k, unread_setting k = false -> settings s1 !! k = settings s2 !! k) /\
  block_counter s1 = block_counter s2 /\
  ticker s1 = ticker s2 /\
  open_orders s1 = open_orders s2 /\
  debt_positions s1 = debt_positions s2 /\
  balances s1 = balances s2.

(** Run on objects that are alike, after the same calls, the two methods
    return or raise the same, call and print the same, and leave objects that
    are alike. *)
Definition alike_runs {A : Type} (m1 m2 : M A) : Prop :=
  forall s1 s2 h,
    alike s1 s2 ->
    res (m1 s1 h) = res (m2 s2 h) /\
    out (m1 s1 h) = out (m2 s2 h) /\
    alike (st (m1 s1 h)) (st (m2 s2 h)).

(** A method that does not tell objects that are alike apart. *)
Definition blind {A : Type} (m : M A) : Prop := alike_runs m m.

(** The three spellings of the feed as target price (lines 180-182). *)
Definition names_feed (token : string) : Prop :=
  token = "settlement_price" \/ token = "feed" \/ token = "price_feed".

(** A target price that is neither a number nor the interned string of a
    spelling of the feed; a string of such a spelling that is another object
    is among them. *)
Definition unusable_target (tp : pyval) : Prop :=
  match tp with
  | VStr s => s <> "settlement_price" /\ s <> "feed" /\ s <> "price_feed"
  | VStrFresh _ | VNone | VList _ | VDict _ => True
  | VBool _ | VInt _ | VFloat _ => False
  end.

(** The message of line 186. *)
Definition no_settlement_price (market : string) : exn :=
  Exception (String.append "Pair " (String.append market " does not have a settlement price!")).

(** The markets of [ms] before the first one that is no key of
    [self.open_orders]. *)
Fixpoint listed_markets (self : bot) (ms : list string) : list string :=
  match ms with
  | [] => []
  | m :: ms' =>
      match assoc_lookup m (open_orders self) with
      | Some _ => m :: listed_markets self ms'
      | None => []
      end
  end.

(** The first market of [ms] that is no key of [self.open_orders]. *)
Fixpoint first_unlisted (self : bot) (ms : list string) : option string :=
  match ms with
  | [] => None
  | m :: ms' =>
      match assoc_lookup m (open_orders self) with
      | Some _ => first_unlisted self ms'
      | None => Some m
      end
  end.

(** * Further worked configurations *)

(** The example with a second market, EUR:BTS, listed first; the ticker
    of the example has no entry for it. *)
Definition two_market_bot (orders : list (string * list order))
    (debts : list (string * debt_position)) (bts : num) : bot :=
  set_settings (<["markets" := VList ["EUR:BTS"; "USD:BTS"]]> example_settings)
    (example_bot orders debts bts).

(** The example on a new account, with ["calculate_bts_total"] configured. *)
Definition bootstrap_bot (bts : num) : bot :=
  set_settings (<["calculate_bts_total" := VStr "worth"]> example_settings)
    (example_bot [] [] bts).




(** The example with a minimum amount of 100 USD. *)
Definition large_minimum_bot (orders : list (string * list order))
    (debts : list (string * debt_position)) (bts : num) : bot :=
  set_settings (<["minimum_amounts" := VDict (list_to_map [("USD", of_Z 100)])]> example_settings)
    (example_bot orders debts bts).


(** The example with the setting [only_buy] switched on. *)
Definition only_buy_bot (orders : list (string * list order))
    (debts : list (string * debt_position)) (bts : num) : bot :=
  set_settings (<["only_buy" := VBool true]> example_settings)
    (example_bot orders debts bts).

(** * Reasoning about methods *)

(** ** Methods that only read *)

Lemma reader_ret {A : Type} (a : A) : reader (ret a).
Proof. intros self. exists (Ok a). reflexivity. Qed.

Lemma reader_raise {A : Type} (e : exn) : reader (raise (A := A) e).
Proof. intros self. exists (Raise e). reflexivity. Qed.

Lemma reader_get_self : reader get_self.
Proof. intros self. exists (Ok self). reflexivity. Qed.

Lemma reader_bind {A B : Type} (m : M A) (k : A -> M B) :
  reader m -> (forall a, reader (k a)) -> reader (bind m k).
Proof.
  intros Hm Hk self. destruct (Hm self) as [[a | e] Hr].
  - destruct (Hk a self) as [r' Hr']. exists r'. intros h.
    unfold bind. rewrite Hr. simpl. rewrite Hr'. reflexivity.
  - exists (Raise e). intros h. unfold bind. rewrite Hr. reflexivity.
Qed.

Lemma reader_setting (k : string) : reader (setting k).
Proof.
  intros self. unfold setting.
  destruct (settings self !! k) as [v |]; eexists; reflexivity.
Qed.

Lemma reader_as_num (v : pyval) : reader (as_num v).
Proof.
  unfold as_num. destruct (num_of v); [apply reader_ret |].
  destruct v; apply reader_raise.
Qed.

Lemma reader_num_setting (k : string) : reader (num_setting k).
Proof. apply reader_bind; [apply reader_setting | apply reader_as_num]. Qed.

Lemma reader_dict_setting (k key : string) : reader (dict_setting k key).
Proof.
  apply reader_bind; [apply reader_setting |].
  intros [| | | | | | | d]; try apply reader_raise.
  destruct (d !! key); [apply reader_ret | apply reader_raise].
Qed.

Lemma reader_markets_setting : reader markets_setting.
Proof.
  apply reader_bind; [apply reader_setting |].
  intros [| | | | | | |]; try apply reader_raise; apply reader_ret.
Qed.

Lemma reader_split_market (sep market : string) : reader (split_market sep market).
Proof.
  unfold split_market. destruct (String.eqb sep ""); [apply reader_raise |].
  destruct (py_split sep market) as [| q [| b [| c l]]];
    try apply reader_raise; apply reader_ret.
Qed.

Lemma reader_py_div (x y : num) : reader (py_div x y).
Proof. unfold py_div. destruct (feq y (of_Z 0)); [apply reader_raise | apply reader_ret]. Qed.

Lemma reader_symmetric_sides : reader symmetric_sides.
Proof. intros self. eexists. reflexivity. Qed.

Create HintDb reader.

#[local] Hint Resolve reader_ret reader_raise reader_get_self reader_setting
  reader_as_num reader_num_setting reader_dict_setting reader_markets_setting
  reader_split_market reader_py_div reader_symmetric_sides : reader.

(** Reading methods are closed under sequencing and case analysis. *)
Ltac reader_step :=
  match goal with
  | |- reader (bind _ _) => apply reader_bind; [| intros ?]
  | |- reader (match ?x with _ => _ end) => destruct x
  | |- reader (if ?b then _ else _) => destruct b
  | |- reader (let _ := _ in _) => cbv zeta
  | |- reader _ => solve [auto with reader]
  end.

Ltac reader_tac := repeat reader_step.

Lemma reader_get_total_bts (c : option (list (string * debt_position))) :
  reader (get_total_bts c).
Proof. unfold get_total_bts. reader_tac. Qed.

Lemma reader_debt_amounts_loop (total_bts : num) (markets : list string)
    (acc : list (string * num)) : reader (debt_amounts_loop total_bts markets acc).
Proof.
  revert acc. induction markets as [| m markets' IH]; intros acc; simpl.
  - apply reader_ret.
  - reader_tac.
Qed.

Lemma reader_get_debt_amounts : reader get_debt_amounts.
Proof.
  unfold get_debt_amounts. reader_tac;
    auto using reader_get_total_bts, reader_debt_amounts_loop.
Qed.

Lemma reader_order_feed_spread (market : string) (o : order) :
  reader (order_feed_spread market o).
Proof. unfold order_feed_spread. reader_tac. Qed.

Lemma reader_must_replace (spread : num) : reader (must_replace spread).
Proof. unfold must_replace. reader_tac. Qed.

Lemma reader_with_offset (price : num) : reader (with_offset price).
Proof. unfold with_offset. reader_tac. Qed.

Lemma reader_base_price (market : string) (target_price : pyval) :
  reader (base_price market target_price).
Proof. unfold base_price. reader_tac; auto using reader_with_offset. Qed.

Lemma reader_buy_price (b : num) : reader (buy_price b).
Proof. unfold buy_price. reader_tac. Qed.

Lemma reader_sell_price (b : num) : reader (sell_price b).
Proof. unfold sell_price. reader_tac. Qed.

Lemma reader_collect_asset_ids (markets acc : list string) :
  reader (collect_asset_ids markets acc).
Proof.
  revert acc. induction markets as [| m markets' IH]; intros acc; simpl.
  - apply reader_ret.
  - reader_tac.
Qed.

Lemma reader_compute_amounts (bal : gmap string num) (ids uniq : list string)
    (acc : gmap string num) : reader (compute_amounts bal ids uniq acc).
Proof.
  revert acc. induction uniq as [| a rest IH]; intros acc; simpl.
  - apply reader_ret.
  - destruct (bal !! a); [| apply IH]. reader_tac.
Qed.

#[local] Hint Resolve reader_get_total_bts reader_debt_amounts_loop
  reader_get_debt_amounts reader_order_feed_spread reader_must_replace
  reader_with_offset reader_base_price reader_buy_price reader_sell_price
  reader_collect_asset_ids reader_compute_amounts : reader.

Lemma split_market_cases (sep market : string) :
  (exists quote base,
      py_split sep market = [quote; base] /\
      split_market sep market = ret (quote, base)) \/
  split_market sep market = raise ValueError.
Proof.
  unfold split_market. destruct (String.eqb sep ""); [right; reflexivity |].
  destruct (py_split sep market) as [| q [| b [| c l]]]; auto.
  left. exists q, b. auto.
Qed.

(** ** Effects of methods *)

Section Effects.

(** [R] relates the object before and after a method, [P self] holds of the
    events a method started on [self] may emit. *)
Variable R : bot -> bot -> Prop.
Variable P : bot -> event -> Prop.
Hypothesis R_refl : forall s, R s s.
Hypothesis R_trans : forall s1 s2 s3, R s1 s2 -> R s2 s3 -> R s1 s3.
Hypothesis P_mono : forall s s' e, R s s' -> P s' e -> P s e.

Lemma respects_reader {A : Type} (m : M A) : reader m -> respects R P m.
Proof.
  intros Hm self h. destruct (Hm self) as [r Hr]. rewrite Hr. simpl.
  split; [apply R_refl | constructor].
Qed.

Lemma respects_bind {A B : Type} (m : M A) (k : A -> M B) :
  respects R P m -> (forall a, respects R P (k a)) -> respects R P (bind m k).
Proof.
  intros Hm Hk self h. unfold bind. destruct (Hm self h) as [HR HP].
  destruct (res (m self h)) as [a | e]; simpl; [| auto].
  destruct (Hk a (st (m self h)) (h ++ out (m self h))) as [HR' HP'].
  split; [eapply R_trans; eauto |].
  apply Forall_app. split; [exact HP |].
  eapply Forall_impl; [exact HP' |]. intros e. apply P_mono. exact HR.
Qed.

Lemma respects_for_each {A : Type} (l : list A) (body : A -> M unit) :
  (forall x, respects R P (body x)) -> respects R P (for_each l body).
Proof.
  intros Hb. induction l as [| x l IH]; simpl.
  - apply respects_reader, reader_ret.
  - apply respects_bind; auto.
Qed.

Lemma respects_emit (e : event) : (forall s, P s e) -> respects R P (emit e).
Proof. intros He self h. simpl. split; [apply R_refl | repeat constructor; apply He]. Qed.

Lemma respects_query {A : Type} (e : event) (f : list event -> A) :
  (forall s, P s e) -> respects R P (query e f).
Proof. intros He self h. simpl. split; [apply R_refl | repeat constructor; apply He]. Qed.

Lemma respects_history : respects R P history.
Proof. intros self h. simpl. split; [apply R_refl | constructor]. Qed.

(** [self.attribute = value] *)
Lemma respects_assign (f : bot -> bot) :
  (forall s, R s (f s)) -> respects R P (assign f).
Proof. intros Hf self h. simpl. split; [apply Hf | constructor]. Qed.

Lemma bind_ret {A B : Type} (a : A) (k : A -> M B) (self : bot) (h : list event) :
  bind (ret a) k self h = k a self h.
Proof.
  unfold bind. simpl. rewrite app_nil_r. destruct (k a self h). reflexivity.
Qed.

Lemma respects_bind_ret {A B : Type} (a : A) (k : A -> M B) :
  respects R P (k a) -> respects R P (bind (ret a) k).
Proof. intros Hk self h. rewrite bind_ret. apply Hk. Qed.

Hypothesis P_log : forall s l, P s (Log l).
Hypothesis P_balances : forall s, P s ReturnBalances.
Hypothesis P_sell : forall s market price amount,
  gate_passed s market amount -> P s (Sell market price amount).
Hypothesis P_buy : forall s market price amount,
  gate_passed s market amount -> P s (Buy market price amount).
Hypothesis P_cancel : forall s n, P s (Cancel n).
Hypothesis P_borrow : forall s amount symbol ratio, P s (Borrow amount symbol ratio).
Hypothesis P_adjust : forall s delta symbol ratio, P s (AdjustDebt delta symbol ratio).
Hypothesis P_ticker : forall s, P s ReturnTicker.
Hypothesis P_orders : forall s, P s ReturnOpenOrders.
Hypothesis P_debt : forall s, P s ListDebtPositions.
Hypothesis R_ticker : forall s v, R s (set_ticker v s).
Hypothesis R_open_orders : forall s v, R s (set_open_orders v s).
Hypothesis R_debt_positions : forall s v, R s (set_debt_positions v s).
Hypothesis R_balances : forall s v, R s (set_balances v s).

Lemma respects_print (l : log) : respects R P (print l).
Proof. apply respects_emit. intros s. apply P_log. Qed.

(** The size gate: an order is submitted only when it passes. *)
Lemma respects_submit_sell (market quote base : string) (price amount : num) :
  py_split (config_market_separator dex) market = [quote; base] ->
  respects R P (submit_if_large quote amount (Sell market price amount)).
Proof.
  intros Hsplit self h. unfold submit_if_large, dict_setting, setting, bind. simpl.
  destruct (settings self !! "minimum_amounts") as [[| | | | | | | d] |] eqn:Hm; simpl;
    try (split; [apply R_refl | constructor]).
  destruct (d !! quote) as [minimum |] eqn:Hq; simpl;
    try (split; [apply R_refl | constructor]).
  destruct (fle minimum amount) eqn:Hle; simpl;
    (split; [apply R_refl |]); repeat constructor.
  apply P_sell. exists quote, base, d, minimum. auto.
Qed.

Lemma respects_submit_buy (market quote base : string) (price amount : num) :
  py_split (config_market_separator dex) market = [quote; base] ->
  respects R P (submit_if_large quote amount (Buy market price amount)).
Proof.
  intros Hsplit self h. unfold submit_if_large, dict_setting, setting, bind. simpl.
  destruct (settings self !! "minimum_amounts") as [[| | | | | | | d] |] eqn:Hm; simpl;
    try (split; [apply R_refl | constructor]).
  destruct (d !! quote) as [minimum |] eqn:Hq; simpl;
    try (split; [apply R_refl | constructor]).
  destruct (fle minimum amount) eqn:Hle; simpl;
    (split; [apply R_refl |]); repeat constructor.
  apply P_buy. exists quote, base, d, minimum. auto.
Qed.

Ltac respects_step :=
  match goal with
  | |- respects _ _ (bind _ _) => apply respects_bind; [| intros ?]
  | |- respects _ _ (match ?x with _ => _ end) => destruct x
  | |- respects _ _ (if ?b then _ else _) => destruct b
  | |- respects _ _ (print _) => apply respects_print
  | |- respects _ _ _ => solve [apply respects_reader; auto with reader]
  end.

Ltac respects_tac := repeat respects_step.

Lemma respects_place_sell (market quote base : string) (amounts : gmap string num)
    (buy sell : num) (only_sell only_buy : bool) :
  py_split (config_market_separator dex) market = [quote; base] ->
  respects R P (place_sell market quote base amounts buy sell only_sell only_buy).
Proof.
  intros Hsplit. unfold place_sell.
  respects_tac; eauto using respects_submit_sell.
Qed.

Lemma respects_place_buy (market quote base : string) (amounts : gmap string num)
    (buy : num) (only_sell only_buy : bool) :
  py_split (config_market_separator dex) market = [quote; base] ->
  respects R P (place_buy market quote base amounts buy only_sell only_buy).
Proof.
  intros Hsplit. unfold place_buy.
  respects_tac; eauto using respects_submit_buy.
Qed.

Lemma respects_place_orders_market (market : string) (only_sell only_buy : bool) :
  respects R P (place_orders_market market only_sell only_buy).
Proof.
  unfold place_orders_market.
  apply respects_bind; [apply respects_reader; auto with reader | intros target_price].
  apply respects_bind; [apply respects_query; apply P_balances | intros bal].
  do 6 (apply respects_bind; [apply respects_reader; auto with reader | intros ?]).
  destruct (split_market_cases (config_market_separator dex) market)
    as [(quote & base & Hsplit & ->) | ->].
  - apply respects_bind_ret. simpl.
    apply respects_bind; [| intros ?];
      eauto using respects_place_sell, respects_place_buy.
  - intros self h. unfold bind. simpl. split; [apply R_refl | constructor].
Qed.

Lemma respects_place_orders (depth : nat) (market : string) (only_sell only_buy : bool) :
  respects R P (place_orders depth market only_sell only_buy).
Proof.
  revert market only_sell only_buy.
  induction depth as [| d IH]; intros market only_sell only_buy; simpl;
    destruct (String.eqb market "all"); simpl;
    auto using respects_place_orders_market.
  - apply respects_reader, reader_raise.
  - apply respects_bind; [apply respects_reader; auto with reader | intros markets].
    apply respects_for_each. intros m. apply IH.
Qed.

Lemma respects_cancel_one (o : order) : respects R P (cancel_one o).
Proof.
  unfold cancel_one.
  apply respects_bind; [apply respects_print | intros _].
  apply respects_bind; [apply respects_history | intros h'].
  apply respects_bind; [apply respects_emit; intros s; apply P_cancel | intros _].
  destruct (cancel_raises dex h' (orderNumber o));
    [apply respects_print | apply respects_reader, reader_ret].
Qed.

Lemma respects_cancel_orders (depth : nat) (market : string) :
  respects R P (cancel_orders depth market).
Proof.
  revert market. induction depth as [| d IH]; intros market; simpl;
    (apply respects_bind; [apply respects_print | intros _]);
    destruct (String.eqb market "all"); simpl.
  - apply respects_reader, reader_raise.
  - unfold cancel_orders_market. respects_tac.
    apply respects_for_each, respects_cancel_one.
  - apply respects_bind; [apply respects_reader; auto with reader | intros markets].
    apply respects_for_each. exact IH.
  - unfold cancel_orders_market. respects_tac.
    apply respects_for_each, respects_cancel_one.
Qed.

Lemma respects_replace_now (market : string) : respects R P (replace_now market).
Proof.
  unfold replace_now.
  apply respects_bind; [apply respects_cancel_orders | intros _].
  apply respects_bind; [apply respects_place_orders | intros _].
  apply respects_reader, reader_ret.
Qed.

Lemma respects_replace_loop (market : string) (os : list order) :
  respects R P (replace_loop market os).
Proof.
  induction os as [| o os' IH]; simpl.
  - apply respects_reader, reader_ret.
  - apply respects_bind; [apply respects_reader; auto with reader | intros spread].
    apply respects_bind; [apply respects_print | intros _].
    apply respects_bind; [apply respects_reader; auto with reader | intros [|]];
      [apply respects_replace_now | exact IH].
Qed.

Lemma respects_reconcile_orders (market : string) : respects R P (reconcile_orders market).
Proof.
  unfold reconcile_orders.
  apply respects_bind; [apply respects_reader, reader_get_self | intros self].
  destruct (assoc_lookup market (open_orders self)) as [os |];
    [| apply respects_reader, reader_ret].
  apply respects_bind;
    [destruct (Nat.eqb (List.length os) 0);
     [apply respects_place_orders | apply respects_reader, reader_ret] | intros _].
  apply respects_bind; [| intros _; apply respects_replace_loop].
  destruct os as [| o [| o' os']]; try (apply respects_reader, reader_ret).
  destruct (String.eqb (type o) "sell"); [apply respects_place_orders |].
  destruct (String.eqb (type o) "buy"); [apply respects_place_orders |].
  apply respects_reader, reader_ret.
Qed.

Lemma respects_borrow_missing (market : string) : respects R P (borrow_missing market).
Proof.
  unfold borrow_missing.
  apply respects_bind; [apply respects_reader; auto with reader | intros qb]. simpl.
  apply respects_bind; [apply respects_reader, reader_get_self | intros self].
  destruct (assoc_lookup (fst qb) (debt_positions self));
    [apply respects_reader, reader_ret |].
  apply respects_bind; [apply respects_reader; auto with reader | intros amounts].
  destruct (assoc_lookup (fst qb) amounts) as [amount |];
    [| apply respects_reader, reader_raise].
  apply respects_bind; [apply respects_print | intros _].
  apply respects_bind; [apply respects_reader; auto with reader | intros ratio].
  apply respects_emit. intros s. apply P_borrow.
Qed.

Lemma respects_check_and_replace (market : string) : respects R P (check_and_replace market).
Proof.
  unfold check_and_replace.
  apply respects_bind; [apply respects_reconcile_orders | intros [|]].
  - apply respects_reader, reader_ret.
  - apply respects_bind; [apply respects_borrow_missing | intros _].
    apply respects_reader, reader_ret.
Qed.

Lemma respects_update_data : respects R P update_data.
Proof.
  unfold update_data.
  apply respects_bind; [apply respects_query, P_ticker | intros t].
  apply respects_bind; [apply respects_assign; intros s; apply R_ticker | intros _].
  apply respects_bind; [apply respects_query, P_orders | intros o].
  apply respects_bind; [apply respects_assign; intros s; apply R_open_orders | intros _].
  apply respects_bind; [apply respects_query, P_debt | intros d].
  apply respects_bind; [apply respects_assign; intros s; apply R_debt_positions | intros _].
  apply respects_bind; [apply respects_query, P_balances | intros b].
  apply respects_assign. intros s. apply R_balances.
Qed.

Lemma respects_tick_work : respects R P tick_work.
Proof.
  unfold tick_work.
  apply respects_bind; [apply respects_reader, reader_get_self | intros self].
  apply respects_bind; [apply respects_print | intros _].
  apply respects_bind; [apply respects_update_data | intros _].
  apply respects_bind; [apply respects_reader; auto with reader | intros markets].
  apply respects_for_each. intros market.
  apply respects_bind; [apply respects_check_and_replace | intros _].
  apply respects_reader, reader_ret.
Qed.

Lemma respects_place_initial_debt_positions : respects R P place_initial_debt_positions.
Proof.
  unfold place_initial_debt_positions.
  apply respects_bind; [apply respects_reader; auto with reader | intros amounts].
  apply respects_bind; [apply respects_print | intros _].
  apply respects_for_each. intros sa.
  apply respects_bind; [apply respects_print | intros _].
  apply respects_bind; [apply respects_reader; auto with reader | intros ratio].
  apply respects_emit. intros s. apply P_borrow.
Qed.

End Effects.

(** ** Running [bind] *)

Lemma bind_run {A B : Type} (m : M A) (k : A -> M B) self h a self' o :
  m self h = {| res := Ok a; st := self'; out := o |} ->
  bind m k self h = prepend o (k a self' (h ++ o)).
Proof. intros Hm. unfold bind. rewrite Hm. reflexivity. Qed.

Lemma bind_run_raise {A B : Type} (m : M A) (k : A -> M B) self h e self' o :
  m self h = {| res := Raise e; st := self'; out := o |} ->
  bind m k self h = {| res := Raise e; st := self'; out := o |}.
Proof. intros Hm. unfold bind. rewrite Hm. reflexivity. Qed.

Lemma prepend_nil {A : Type} (r : outcome A) : prepend [] r = r.
Proof. destruct r. reflexivity. Qed.

Lemma prepend_prepend {A : Type} (l1 l2 : list event) (r : outcome A) :
  prepend l1 (prepend l2 r) = prepend (l1 ++ l2) r.
Proof. unfold prepend. simpl. rewrite app_assoc. reflexivity. Qed.

Lemma bind_read {A B : Type} (m : M A) (k : A -> M B) self h a :
  m self h = {| res := Ok a; st := self; out := [] |} ->
  bind m k self h = k a self h.
Proof.
  intros Hm. rewrite (bind_run _ _ _ _ _ _ _ Hm), app_nil_r. apply prepend_nil.
Qed.

(** A method that leaves the object as it is. *)
Lemma keeps_self {A : Type} (m : M A) :
  respects eq (fun _ _ => True) m -> forall self h, st (m self h) = self.
Proof. intros Hm self h. symmetry. apply Hm. Qed.

(** * The order reconciler *)

Lemma order_feed_spread_run market self h o p allowed sp :
  feed_known self market p allowed sp ->
  order_feed_spread market o self h = {| res := Ok (feed_spread p o); st := self; out := [] |}.
Proof.
  intros ((t & Ht & Hp) & Hz & _).
  unfold order_feed_spread, py_div, bind, get_self. simpl.
  rewrite Ht, Hp, Hz. reflexivity.
Qed.

Lemma num_setting_run k self h v x :
  settings self !! k = Some v -> num_of v = Some x ->
  num_setting k self h = {| res := Ok x; st := self; out := [] |}.
Proof.
  intros Hk Hv. unfold num_setting, setting, as_num, bind. rewrite Hk. simpl.
  rewrite Hv. reflexivity.
Qed.

Lemma must_replace_run market self h x p allowed sp :
  feed_known self market p allowed sp ->
  must_replace x self h =
    {| res := Ok (fle x (fdiv allowed (of_Z 2)) || fle (fdiv (fadd allowed sp) (of_Z 2)) x);
       st := self; out := [] |}.
Proof.
  intros (_ & _ & (va & Ha & Hva) & (vs & Hs & Hvs)).
  unfold must_replace.
  rewrite (bind_read _ _ _ _ _ (num_setting_run _ _ _ _ _ Ha Hva)).
  destruct (fle x (fdiv allowed (of_Z 2))); [reflexivity |].
  rewrite (bind_read _ _ _ _ _ (num_setting_run _ _ _ _ _ Ha Hva)).
  rewrite (bind_read _ _ _ _ _ (num_setting_run _ _ _ _ _ Hs Hvs)).
  reflexivity.
Qed.

(** One turn of the loop of [check_and_replace]. *)
Lemma replace_loop_cons market self h o os p allowed sp :
  feed_known self market p allowed sp ->
  replace_loop market (o :: os) self h =
    prepend [spread_log p o]
      (if is_stale allowed sp p o
       then replace_now market self (h ++ [spread_log p o])
       else replace_loop market os self (h ++ [spread_log p o])).
Proof.
  intros Hk. simpl.
  rewrite (bind_read _ _ _ _ _ (order_feed_spread_run _ _ _ o _ _ _ Hk)).
  erewrite bind_run by reflexivity. fold (spread_log p o).
  rewrite (bind_read _ _ _ _ _ (must_replace_run _ _ _ _ _ _ _ Hk)).
  unfold is_stale. destruct (_ || _); reflexivity.
Qed.




Lemma cancel_one_run o self h :
  cancel_one o self h =
    {| res := Ok tt; st := self;
       out := Log (LogCancelOne (orderNumber o)) :: Cancel (orderNumber o) ::
              (if cancel_raises dex (h ++ [Log (LogCancelOne (orderNumber o))]) (orderNumber o)
               then [Log (LogCancelError o)] else []) |}.
Proof.
  unfold cancel_one, bind, print, emit, history. simpl.
  destruct (cancel_raises dex _ _); reflexivity.
Qed.

(** Every order of the list is cancelled, whether or not a cancel fails. *)
Lemma cancel_loop_run os self h :
  exists cancels,
    for_each os cancel_one self h = {| res := Ok tt; st := self; out := cancels |} /\
    (forall o, In o os -> In (Cancel (orderNumber o)) cancels) /\
    Forall cancel_event cancels.
Proof.
  revert h. induction os as [| o os IH]; intros h.
  - exists []. simpl. repeat split; [intros o [] | constructor].
  - simpl for_each. rewrite (bind_run _ _ _ _ _ _ _ (cancel_one_run o self h)).
    match goal with |- context [for_each os cancel_one self ?h'] =>
      destruct (IH h') as (cancels & -> & Hin & Hall) end.
    eexists. split; [reflexivity |]. split.
    + intros o' [<- | Ho']; simpl; [auto |].
      right. right. apply in_or_app. right. auto.
    + simpl. repeat constructor. apply Forall_app. split; [| exact Hall].
      destruct (cancel_raises dex _ _); repeat constructor.
Qed.

Lemma cancel_orders_run depth market os self h :
  market <> "all" ->
  assoc_lookup market (open_orders self) = Some os ->
  exists cancels,
    cancel_orders depth market self h = {| res := Ok tt; st := self; out := cancels |} /\
    (forall o, In o os -> In (Cancel (orderNumber o)) cancels) /\
    Forall cancel_event cancels.
Proof.
  intros Hall%String.eqb_neq Hos.
  destruct (cancel_loop_run os self (h ++ [Log (LogCancelling market)]))
    as (cancels & Hrun & Hin & Hc).
  exists (Log (LogCancelling market) :: cancels).
  split; [| split; [intros o Ho; right; auto | constructor; simpl; auto]].
  assert (Hm : cancel_orders_market market self (h ++ [Log (LogCancelling market)]) =
               {| res := Ok tt; st := self; out := cancels |}).
  { unfold cancel_orders_market. rewrite (bind_read _ _ _ _ self) by reflexivity.
    rewrite Hos. exact Hrun. }
  destruct depth; simpl; (erewrite bind_run by reflexivity);
    rewrite Hall; simpl; rewrite Hm; reflexivity.
Qed.

Lemma place_orders_keeps_self depth market only_sell only_buy self h :
  st (place_orders depth market only_sell only_buy self h) = self.
Proof.
  apply keeps_self, respects_place_orders; auto; congruence.
Qed.

(** Lines 146-148: every open order of the market is cancelled, then both
    sides are placed. *)
Lemma replace_now_run market os self h :
  market <> "all" ->
  assoc_lookup market (open_orders self) = Some os ->
  exists cancels,
    (forall o, In o os -> In (Cancel (orderNumber o)) cancels) /\
    Forall cancel_event cancels /\
    replace_now market self h =
      {| res := match res (place_orders recursionlimit market false false self (h ++ cancels)) with
                | Ok _ => Ok true
                | Raise e => Raise e
                end;
         st := self;
         out := cancels ++ out (place_orders recursionlimit market false false self (h ++ cancels)) |}.
Proof.
  intros Hall Hos.
  destruct (cancel_orders_run recursionlimit market os self h Hall Hos)
    as (cancels & Hrun & Hin & Hc).
  exists cancels. split; [exact Hin |]. split; [exact Hc |].
  unfold replace_now. rewrite (bind_run _ _ _ _ _ _ _ Hrun).
  unfold bind, prepend. simpl.
  pose proof (place_orders_keeps_self recursionlimit market false false self (h ++ cancels)) as Hst.
  destruct (place_orders recursionlimit market false false self (h ++ cancels))
    as [[[] | e] self' o]; simpl in *; subst self'; rewrite ?app_nil_r; reflexivity.
Qed.


Lemma check_and_replace_keeps_self market self h :
  st (check_and_replace market self h) = self.
Proof.
  apply keeps_self, respects_check_and_replace; auto; congruence.
Qed.

Lemma borrow_missing_no_order_action market self h :
  Forall (fun e => order_action e = false) (out (borrow_missing market self h)).
Proof.
  apply (respects_borrow_missing eq (fun _ e => order_action e = false)); auto; congruence.
Qed.



(** Every order that [place_orders] submits, on the sell side as on
    the buy side, has passed the size gate of its market: the market splits
    into quote and base, [minimum_amounts[quote]] exists, and the comparison
    [amount >= minimum_amounts[quote]] held.  The minimum is the quote
    asset's for both sides. *)
Lemma place_orders_gated
    (depth : nat) (market : string) (only_sell only_buy : bool)
    (self : bot) (h : list event) :
  Forall (gated self) (out (place_orders depth market only_sell only_buy self h)).
Proof.
  apply (respects_place_orders eq gated); simpl; auto.
  - congruence.
  - intros s s' e <-. auto.
Qed.

Lemma place_orders_no_cancel depth market only_sell only_buy self h :
  Forall (fun e => is_cancel e = false)
    (out (place_orders depth market only_sell only_buy self h)).
Proof.
  apply (respects_place_orders eq (fun _ e => is_cancel e = false)); auto; congruence.
Qed.

Lemma Forall_no_order_action_no_cancel (l : list event) :
  Forall (fun e => order_action e = false) l -> Forall (fun e => is_cancel e = false) l.
Proof.
  intros Hl. eapply Forall_impl; [exact Hl |]. intros [] ; simpl; congruence.
Qed.






(** * Debt positions *)

Lemma reconcile_orders_keeps_self market self h :
  st (reconcile_orders market self h) = self.
Proof.
  apply keeps_self, respects_reconcile_orders; auto; congruence.
Qed.

Lemma reconcile_orders_no_borrow market self h :
  Forall (fun e => is_borrow e = false) (out (reconcile_orders market self h)).
Proof.
  apply (respects_reconcile_orders eq (fun _ e => is_borrow e = false)); auto; congruence.
Qed.

Lemma filter_none (f : event -> bool) (l : list event) :
  Forall (fun e => f e = false) l -> List.filter f l = [].
Proof.
  induction 1 as [| e l He _ IH]; simpl; [reflexivity |]. rewrite He. exact IH.
Qed.

Lemma split_market_run sep market quote base self h :
  String.eqb sep "" = false ->
  py_split sep market = [quote; base] ->
  split_market sep market self h = {| res := Ok (quote, base); st := self; out := [] |}.
Proof. intros Hsep Hsplit. unfold split_market. rewrite Hsep, Hsplit. reflexivity. Qed.

Lemma setting_run k v self h :
  settings self !! k = Some v ->
  setting k self h = {| res := Ok v; st := self; out := [] |}.
Proof. intros Hk. unfold setting. rewrite Hk. reflexivity. Qed.

(** The result of a reader does not depend on the calls made before. *)
Lemma reader_run {A : Type} (m : M A) self h h' a :
  reader m -> res (m self h) = Ok a ->
  m self h' = {| res := Ok a; st := self; out := [] |}.
Proof.
  intros Hm Hres. destruct (Hm self) as [r Hr]. rewrite Hr in Hres. simpl in Hres.
  subst r. apply Hr.
Qed.

(** Lines 149-154 when the quote asset has no debt position. *)
Lemma borrow_missing_run market self h symbol base amounts amount ratio :
  String.eqb (dex_market_separator dex) "" = false ->
  py_split (dex_market_separator dex) market = [symbol; base] ->
  assoc_lookup symbol (debt_positions self) = None ->
  res (get_debt_amounts self h) = Ok amounts ->
  assoc_lookup symbol amounts = Some amount ->
  settings self !! "ratio" = Some ratio ->
  forall h',
    borrow_missing market self h' =
      {| res := Ok tt; st := self;
         out := [Log (LogPlacingDebt symbol amount); Borrow amount symbol ratio] |}.
Proof.
  intros Hsep Hsplit Hpos Hamounts Hamount Hratio h'. unfold borrow_missing.
  rewrite (bind_read _ _ _ _ _ (split_market_run _ _ _ _ _ _ Hsep Hsplit)). simpl fst.
  rewrite (bind_read _ _ _ _ self) by reflexivity. rewrite Hpos.
  rewrite (bind_read _ _ _ _ _
             (reader_run _ _ _ h' _ reader_get_debt_amounts Hamounts)).
  rewrite Hamount.
  erewrite bind_run by reflexivity.
  rewrite (bind_read _ _ _ _ _ (setting_run _ _ _ _ Hratio)).
  reflexivity.
Qed.

(** C4 (as amended).  A market whose quote asset [symbol] has no debt
    position in the snapshot.  The order handling of the market runs first
    and is not held back.  When it neither replaced the orders nor raised,
    and the debt allocation is computed with an amount for [symbol], the
    method then prints a line and issues one borrow command for [symbol]
    with that amount at the configured ratio; it is the only borrow command
    of the call. *)
Theorem check_and_replace_missing_debt
    (market : string) (self : bot) (h : list event)
    (symbol base : string) (amounts : list (string * num)) (amount : num) (ratio : pyval) :
  String.eqb (dex_market_separator dex) "" = false ->
  py_split (dex_market_separator dex) market = [symbol; base] ->
  assoc_lookup symbol (debt_positions self) = None ->
  res (reconcile_orders market self h) = Ok false ->
  res (get_debt_amounts self h) = Ok amounts ->
  assoc_lookup symbol amounts = Some amount ->
  settings self !! "ratio" = Some ratio ->
  let r := check_and_replace market self h in
  res r = Ok false /\
  out r = out (reconcile_orders market self h)
            ++ [Log (LogPlacingDebt symbol amount); Borrow amount symbol ratio] /\
  List.filter is_borrow (out r) = [Borrow amount symbol ratio].
Proof.
  intros Hsep Hsplit Hpos Hrec Hamounts Hamount Hratio r.
  assert (Hr : r = {| res := Ok false; st := self;
                      out := out (reconcile_orders market self h)
                               ++ [Log (LogPlacingDebt symbol amount);
                                   Borrow amount symbol ratio] |}).
  { subst r. unfold check_and_replace.
    pose proof (reconcile_orders_keeps_self market self h) as Hst.
    destruct (reconcile_orders market self h) as [rr self' o] eqn:Hrun.
    simpl in Hrec, Hst. subst rr self'.
    rewrite (bind_run _ _ _ _ _ _ _ Hrun).
    rewrite (bind_run _ _ _ _ _ _ _
      (borrow_missing_run _ _ _ _ _ _ _ _ Hsep Hsplit Hpos Hamounts Hamount Hratio _)).
    reflexivity. }
  rewrite Hr. cbn [res out]. split; [reflexivity |]. split; [reflexivity |].
  rewrite List.filter_app, (filter_none _ _ (reconcile_orders_no_borrow market self h)).
  reflexivity.
Qed.

(** * The tick scheduler *)

Lemma update_data_run self h :
  exists self',
    update_data self h =
      {| res := Ok tt; st := self';
         out := [ReturnTicker; ReturnOpenOrders; ListDebtPositions; ReturnBalances] |} /\
    settings self' = settings self /\
    block_counter self' = block_counter self /\
    debt_positions self' =
      list_debt_positions dex (h ++ [ReturnTicker; ReturnOpenOrders]).
Proof.
  unfold update_data.
  do 7 (erewrite bind_run by reflexivity).
  unfold prepend, assign, query. cbn [res st out app].
  eexists. split; [reflexivity |].
  cbn [settings block_counter debt_positions set_ticker set_open_orders
       set_debt_positions set_balances].
  rewrite <- !app_assoc. auto.
Qed.

(** An active tick starts with the printed line and the snapshot refresh. *)
Lemma tick_work_refreshes self h :
  exists rest,
    out (tick_work self h) =
      Log (LogBlocks (block_counter self)) :: ReturnTicker :: ReturnOpenOrders ::
      ListDebtPositions :: ReturnBalances :: rest.
Proof.
  unfold tick_work. rewrite (bind_read _ _ _ _ self) by reflexivity.
  erewrite bind_run by reflexivity.
  destruct (update_data_run self (h ++ [Log (LogBlocks (block_counter self))]))
    as (self' & Hrun & _).
  rewrite (bind_run _ _ _ _ _ _ _ Hrun). simpl. eexists. reflexivity.
Qed.

Lemma tick_run self h k :
  settings self !! "skip_blocks" = Some (VInt k) -> k <> 0 ->
  tick self h =
    if (block_counter self + 1) mod k =? 0
    then tick_work (set_block_counter (block_counter self + 1) self) h
    else {| res := Ok tt; st := set_block_counter (block_counter self + 1) self; out := [] |}.
Proof.
  intros Hk Hk0. unfold tick.
  erewrite bind_run by reflexivity. rewrite prepend_nil, app_nil_r.
  rewrite (bind_read _ _ _ _ (set_block_counter (block_counter self + 1) self)) by reflexivity.
  cbv beta.
  rewrite (bind_read _ _ _ _ (VInt k))
    by (apply setting_run; exact Hk).
  unfold py_mod. apply Z.eqb_neq in Hk0. rewrite Hk0. rewrite bind_ret.
  cbn [block_counter set_block_counter].
  destruct ((block_counter self + 1) mod k =? 0); reflexivity.
Qed.

Lemma tick_same_settings_counter self h :
  settings (st (tick self h)) = settings self /\
  block_counter (st (tick self h)) = block_counter self + 1.
Proof.
  unfold tick. erewrite bind_run by reflexivity. rewrite prepend_nil, app_nil_r.
  set (self1 := set_block_counter (block_counter self + 1) self).
  assert (Hrefl : forall s, same_config s s) by (intros; split; reflexivity).
  assert (Htrans : forall s1 s2 s3, same_config s1 s2 -> same_config s2 s3 -> same_config s1 s3)
    by (intros s1 s2 s3 [] []; split; congruence).
  match goal with |- context [st (?m self1 h)] =>
    assert (Hm : respects same_config (fun _ _ => True) m) end.
  { apply respects_bind; auto; [apply respects_reader; auto with reader | intros s].
    apply respects_bind; auto; [apply respects_reader; auto with reader | intros skip].
    apply respects_bind; auto.
    - apply respects_reader; auto. unfold py_mod.
      destruct skip as [| [] | z | | | | |]; try destruct (z =? 0); auto with reader.
    - intros z. destruct (z =? 0); [| apply respects_reader; auto with reader].
      apply respects_tick_work; auto; intros; split; reflexivity. }
  destruct (Hm self1 h) as [[Hs Hc] _]. rewrite Hs, Hc. split; reflexivity.
Qed.

Lemma after_ticks_counter n self h :
  settings (fst (after_ticks n self h)) = settings self /\
  block_counter (fst (after_ticks n self h)) = block_counter self + Z.of_nat n.
Proof.
  induction n as [| n [IHs IHc]]; [simpl; split; [reflexivity | lia] |].
  cbn [after_ticks fst].
  destruct (tick_same_settings_counter (fst (after_ticks n self h)) (snd (after_ticks n self h)))
    as [Hs Hc].
  rewrite Hs, Hc, IHs, IHc. split; [reflexivity | lia].
Qed.

(** Every invocation of [tick] raises the counter by exactly one and
    leaves the settings alone.  With an integer [skip_blocks = k], not zero,
    the snapshot is refreshed if and only if the new counter is a multiple of
    [k]; then the tick is the printed line, the refresh and the
    reconciliation of every market ([tick_work]), and otherwise it changes
    nothing but the counter and calls nothing.  Starting from the counter
    [-1] with [skip_blocks = 20], the tick after [n] earlier ones is an
    active one exactly when [n] is a multiple of 20. *)
Lemma tick_scheduler_run (self : bot) (h : list event) :
  let r := tick self h in
  block_counter (st r) = block_counter self + 1 /\
  settings (st r) = settings self /\
  (forall k, settings self !! "skip_blocks" = Some (VInt k) -> k <> 0 ->
     ((block_counter self + 1) mod k = 0 <-> In ReturnTicker (out r)) /\
     ((block_counter self + 1) mod k = 0 ->
        r = tick_work (set_block_counter (block_counter self + 1) self) h /\
        exists rest,
          out r = Log (LogBlocks (block_counter self + 1)) :: ReturnTicker ::
                  ReturnOpenOrders :: ListDebtPositions :: ReturnBalances :: rest) /\
     ((block_counter self + 1) mod k <> 0 ->
        r = {| res := Ok tt;
               st := set_block_counter (block_counter self + 1) self;
               out := [] |})) /\
  (block_counter self = initial_block_counter ->
   settings self !! "skip_blocks" = Some (VInt 20) ->
   forall n,
     let sh := after_ticks n self h in
     block_counter (fst sh) + 1 = Z.of_nat n /\
     (Z.of_nat n mod 20 = 0 <-> In ReturnTicker (out (tick (fst sh) (snd sh)))) /\
     (Z.of_nat n mod 20 <> 0 ->
        tick (fst sh) (snd sh) =
          {| res := Ok tt; st := set_block_counter (Z.of_nat n) (fst sh); out := [] |})).
Proof.
  assert (Hgate : forall (s : bot) (hs : list event) (k : Z),
    settings s !! "skip_blocks" = Some (VInt k) -> k <> 0 ->
     ((block_counter s + 1) mod k = 0 <-> In ReturnTicker (out (tick s hs))) /\
     ((block_counter s + 1) mod k = 0 ->
        tick s hs = tick_work (set_block_counter (block_counter s + 1) s) hs /\
        exists rest,
          out (tick s hs) = Log (LogBlocks (block_counter s + 1)) :: ReturnTicker ::
                  ReturnOpenOrders :: ListDebtPositions :: ReturnBalances :: rest) /\
     ((block_counter s + 1) mod k <> 0 ->
        tick s hs = {| res := Ok tt;
               st := set_block_counter (block_counter s + 1) s;
               out := [] |})).
  { intros s hs k Hk Hk0. rewrite (tick_run s hs k Hk Hk0).
    destruct (tick_work_refreshes (set_block_counter (block_counter s + 1) s) hs)
      as [rest Hrest].
    destruct ((block_counter s + 1) mod k =? 0) eqn:Hmod.
    - apply Z.eqb_eq in Hmod. split; [| split].
      + split; [intros _ | auto]. rewrite Hrest. simpl. auto.
      + intros _. split; [reflexivity | eexists; exact Hrest].
      + intros Hne. contradiction.
    - apply Z.eqb_neq in Hmod. split; [| split].
      + split; [intros Heq; contradiction | intros []].
      + intros Heq. contradiction.
      + reflexivity. }
  intros r. destruct (tick_same_settings_counter self h) as [Hs Hc].
  split; [exact Hc |]. split; [exact Hs |]. split; [intros k; apply Hgate |].
  intros Hinit H20 n sh.
  destruct (after_ticks_counter n self h) as [Hsn Hcn]. fold sh in Hsn, Hcn.
  assert (Hcount : block_counter (fst sh) + 1 = Z.of_nat n)
    by (rewrite Hcn, Hinit; unfold initial_block_counter; lia).
  split; [exact Hcount |].
  assert (H20' : settings (fst sh) !! "skip_blocks" = Some (VInt 20)) by (rewrite Hsn; exact H20).
  destruct (Hgate (fst sh) (snd sh) 20 H20' ltac:(lia)) as (Hiff & _ & Hidle).
  rewrite Hcount in Hiff, Hidle. split; [exact Hiff | exact Hidle].
Qed.

(** * The settings validator *)

Lemma lookup_fill k v m k' :
  fill k v m !! k' =
    match m !! k' with
    | Some x => Some x
    | None => if String.eqb k' k then Some v else None
    end.
Proof.
  unfold fill. destruct (String.eqb_spec k' k) as [-> | Hne].
  - destruct (m !! k) eqn:Hk; [rewrite Hk; reflexivity |].
    rewrite lookup_insert_eq. reflexivity.
  - destruct (m !! k) eqn:Hk; [destruct (m !! k'); reflexivity |].
    rewrite lookup_insert_ne by congruence. destruct (m !! k'); reflexivity.
Qed.

Lemma default_setting_run k v self h :
  default_setting k v self h =
    {| res := Ok tt; st := set_settings (fill k v (settings self)) self; out := [] |}.
Proof.
  unfold default_setting, fill. rewrite (bind_read _ _ _ _ self) by reflexivity.
  destruct (settings self !! k); [destruct self |]; reflexivity.
Qed.

Lemma require_setting_run k self h :
  require_setting k self h =
    {| res := match settings self !! k with
              | Some _ => Ok tt
              | None => Raise (MissingSettingsException k)
              end;
       st := self; out := [] |}.
Proof.
  unfold require_setting. rewrite (bind_read _ _ _ _ self) by reflexivity.
  destruct (settings self !! k); reflexivity.
Qed.

Lemma lookup_with_defaults m k :
  with_defaults m !! k =
    match m !! k with
    | Some v => Some v
    | None => default_of k
    end.
Proof.
  unfold with_defaults, default_of. rewrite !lookup_fill.
  destruct (m !! k); [reflexivity |].
  destruct (String.eqb k "target_price_offset_percentage") eqn:E1;
    [apply String.eqb_eq in E1; subst k; reflexivity |].
  destruct (String.eqb k "symmetric_sides") eqn:E2;
    [apply String.eqb_eq in E2; subst k; reflexivity |].
  destruct (String.eqb k "expiration") eqn:E3;
    [apply String.eqb_eq in E3; subst k; reflexivity |].
  destruct (String.eqb k "skip_blocks"); reflexivity.
Qed.

Lemma first_missing_none m keys :
  first_missing m keys = None <-> (forall k, In k keys -> m !! k <> None).
Proof.
  induction keys as [| k keys IH]; simpl.
  - split; [intros _ k [] | reflexivity].
  - destruct (m !! k) eqn:Hk.
    + rewrite IH. split.
      * intros Hall k' [<- | Hin]; [congruence | auto].
      * intros Hall k' Hin. auto.
    + split; [discriminate |]. intros Hall. exfalso. apply (Hall k); auto.
Qed.

Lemma first_missing_some m keys k :
  first_missing m keys = Some k -> In k keys /\ m !! k = None.
Proof.
  induction keys as [| k' keys IH]; simpl; [discriminate |].
  destruct (m !! k') eqn:Hk.
  - intros Hf. destruct (IH Hf). auto.
  - intros [= <-]. auto.
Qed.

(** [init_settings], run on any settings. *)
Lemma init_settings_run self h :
  init_settings self h =
    match first_missing (settings self) required_settings with
    | Some k =>
        {| res := Raise (MissingSettingsException k);
           st := st (init_settings self h); out := [] |}
    | None =>
        {| res := Ok tt; st := set_settings (with_defaults (settings self)) self; out := [] |}
    end.
Proof.
  unfold init_settings, required_settings, first_missing.
  rewrite (bind_run _ _ _ _ _ _ _ (default_setting_run _ _ _ _)), prepend_nil, app_nil_r.
  set (s1 := set_settings _ self).
  assert (Hreq : forall (k : string) (s : bot) (hh : list event) (rest : M unit),
    (require_setting k ;; rest) s hh =
      match settings s !! k with
      | Some _ => rest s hh
      | None => {| res := Raise (MissingSettingsException k); st := s; out := [] |}
      end).
  { intros k s hh rest. unfold bind at 1. rewrite require_setting_run. simpl.
    destruct (settings s !! k); [| reflexivity].
    rewrite app_nil_r. destruct (rest s hh). reflexivity. }
  assert (Hdef : forall (k : string) (v : pyval) (s : bot) (hh : list event) (rest : M unit),
    (default_setting k v ;; rest) s hh = rest (set_settings (fill k v (settings s)) s) hh).
  { intros k v s hh rest.
    rewrite (bind_run _ _ _ _ _ _ _ (default_setting_run _ _ _ _)), prepend_nil, app_nil_r.
    reflexivity. }
  assert (Hl : forall k, default_of k = None ->
            settings s1 !! k = settings self !! k).
  { intros k Hk. subst s1. cbn [settings set_settings]. rewrite lookup_fill.
    destruct (settings self !! k); [reflexivity |].
    unfold default_of in Hk. destruct (String.eqb k "target_price_offset_percentage");
      [discriminate | reflexivity]. }
  rewrite Hreq, Hl by reflexivity.
  destruct (settings self !! "target_price"); [| reflexivity].
  rewrite Hreq, Hl by reflexivity.
  destruct (settings self !! "spread_percentage"); [| reflexivity].
  rewrite Hreq, Hl by reflexivity.
  destruct (settings self !! "volume_percentage"); [| reflexivity].
  rewrite !Hdef. set (s4 := set_settings _ _).
  assert (Hl4 : forall k, default_of k = None ->
            settings s4 !! k = settings self !! k).
  { intros k Hk. subst s4. cbn [settings set_settings]. rewrite !lookup_fill.
    rewrite Hl by exact Hk.
    destruct (settings self !! k); [reflexivity |].
    unfold default_of in Hk.
    destruct (String.eqb k "target_price_offset_percentage"); [discriminate |].
    destruct (String.eqb k "symmetric_sides"); [discriminate |].
    destruct (String.eqb k "expiration"); [discriminate |].
    destruct (String.eqb k "skip_blocks"); [discriminate | reflexivity]. }
  rewrite Hreq, Hl4 by reflexivity.
  destruct (settings self !! "ratio"); [| reflexivity].
  rewrite Hreq, Hl4 by reflexivity.
  destruct (settings self !! "borrow_percentages"); [| reflexivity].
  rewrite Hreq, Hl4 by reflexivity.
  destruct (settings self !! "minimum_amounts"); [| reflexivity].
  rewrite require_setting_run, Hl4 by reflexivity.
  destruct (settings self !! "minimum_change_percentage"); [| reflexivity].
  subst s4 s1. unfold with_defaults. destruct self. reflexivity.
Qed.

(** C8.  [init] on any settings.  When all seven required settings are
    present the validation returns, and afterwards every setting that was
    present keeps its value and, of the absent ones, exactly
    [target_price_offset_percentage], [symmetric_sides], [expiration] and
    [skip_blocks] are set, to 0.0, [True], 86400 and 20.  When a required
    setting is absent it raises [MissingSettingsException] naming one that
    is absent (the first in the order of the checks); it raises that
    exception in no other case. *)
Theorem init_settings_validates (self : bot) (h : list event) :
  let r := init_settings self h in
  ((forall k, In k required_settings -> settings self !! k <> None) ->
   res r = Ok tt /\
   forall k, settings (st r) !! k =
             match settings self !! k with
             | Some v => Some v
             | None => default_of k
             end) /\
  (forall k, In k required_settings -> settings self !! k = None ->
   exists k', In k' required_settings /\ settings self !! k' = None /\
              res r = Raise (MissingSettingsException k')) /\
  (forall k, res r = Raise (MissingSettingsException k) ->
   In k required_settings /\ settings self !! k = None) /\
  out r = [].
Proof.
  intros r. subst r. rewrite init_settings_run.
  destruct (first_missing (settings self) required_settings) as [k0 |] eqn:Hf.
  - destruct (first_missing_some _ _ _ Hf) as [Hin Hnone]. cbn [res st out].
    split; [intros Hall; exfalso; exact (Hall k0 Hin Hnone) |].
    split; [intros k _ _; exists k0; auto |].
    split; [intros k [= <-]; auto | reflexivity].
  - cbn [res st out settings set_settings].
    split; [intros _; split; [reflexivity | apply lookup_with_defaults] |].
    split; [| split; [discriminate | reflexivity]].
    intros k Hin Hnone. exfalso.
    exact (proj1 (first_missing_none _ _) Hf k Hin Hnone).
Qed.

(** * The bootstrap *)

Lemma get_debt_amounts_empty self h :
  debt_positions self = [] ->
  settings self !! "calculate_bts_total" = None ->
  get_debt_amounts self h =
    {| res := Raise (KeyError "calculate_bts_total"); st := self; out := [] |}.
Proof.
  intros Hd Hk. unfold get_debt_amounts.
  rewrite (bind_read _ _ _ _ self) by reflexivity. rewrite Hd.
  apply bind_run_raise. unfold get_total_bts.
  apply bind_run_raise. apply bind_run_raise. unfold setting. rewrite Hk. reflexivity.
Qed.

Lemma place_initial_debt_positions_empty self h :
  debt_positions self = [] ->
  settings self !! "calculate_bts_total" = None ->
  place_initial_debt_positions self h =
    {| res := Raise (KeyError "calculate_bts_total"); st := self; out := [] |}.
Proof.
  intros Hd Hk. unfold place_initial_debt_positions.
  apply bind_run_raise, get_debt_amounts_empty; assumption.
Qed.

Lemma reader_require_setting k : reader (require_setting k).
Proof. unfold require_setting. reader_tac. Qed.

Lemma reader_verify_market market : reader (verify_market market).
Proof. unfold verify_market. reader_tac. Qed.

Lemma reader_for_each {A : Type} (l : list A) (body : A -> M unit) :
  (forall x, reader (body x)) -> reader (for_each l body).
Proof.
  intros Hb. induction l as [| x l IH]; simpl; [apply reader_ret |].
  apply reader_bind; auto.
Qed.

(** The validation calls nothing, prints nothing and leaves alone every
    setting that has no default. *)
Lemma init_checks_quiet self h k :
  default_of k = None ->
  out (init_checks self h) = [] /\
  settings (st (init_checks self h)) !! k = settings self !! k /\
  settings (st (init_settings self h)) !! k = settings self !! k.
Proof.
  intros Hk.
  set (R := fun s s' : bot => settings s' !! k = settings s !! k).
  set (P := fun (_ : bot) (_ : event) => False).
  assert (Hrefl : forall s, R s s) by reflexivity.
  assert (Htrans : forall s1 s2 s3, R s1 s2 -> R s2 s3 -> R s1 s3)
    by (unfold R; intros; congruence).
  assert (Hmono : forall s s' e, R s s' -> P s' e -> P s e) by auto.
  assert (Hdef : forall k' v, default_of k' <> None -> respects R P (default_setting k' v)).
  { intros k' v Hk' s hh. rewrite default_setting_run. cbn [st out]. split; [| constructor].
    unfold R. cbn [settings set_settings]. rewrite lookup_fill.
    destruct (settings s !! k); [reflexivity |].
    destruct (String.eqb_spec k k') as [-> | _]; [contradiction | reflexivity]. }
  assert (Hreq : forall k', respects R P (require_setting k'))
    by (intros; apply respects_reader, reader_require_setting; auto).
  assert (Hsettings : respects R P init_settings).
  { unfold init_settings.
    repeat (apply respects_bind; try assumption; [| intros _]);
      first [apply Hreq | apply Hdef; discriminate]. }
  assert (Hchecks : respects R P init_checks).
  { unfold init_checks. apply respects_bind; try assumption. intros _.
    apply respects_bind; try assumption;
      [apply respects_reader; auto with reader | intros markets].
    apply respects_reader; auto. apply reader_for_each, reader_verify_market. }
  destruct (Hchecks self h) as [HR HP]. destruct (Hsettings self h) as [HR' _].
  split; [| split; [exact HR | exact HR']].
  destruct (out (init_checks self h)) as [| e l]; [reflexivity |].
  inversion HP as [| ? ? He]. destruct He.
Qed.

(** C10.  An object whose settings lack ["calculate_bts_total"].  On an
    empty debt-position snapshot the debt allocation and the bootstrap
    [place_initial_debt_positions] raise [KeyError] for that key before
    anything is called or printed.  The validation neither raises for that
    key nor sets it.  Hence [init], on an exchange that lists no debt
    position, always ends in an exception and issues no borrow command; when
    the validation of settings and markets passed, the exception is that
    [KeyError], raised right after the snapshot was fetched. *)
Theorem bootstrap_needs_calculate_bts_total (self : bot) (h : list event) :
  settings self !! "calculate_bts_total" = None ->
  (debt_positions self = [] ->
   get_debt_amounts self h =
     {| res := Raise (KeyError "calculate_bts_total"); st := self; out := [] |} /\
   place_initial_debt_positions self h =
     {| res := Raise (KeyError "calculate_bts_total"); st := self; out := [] |}) /\
  settings (st (init_settings self h)) !! "calculate_bts_total" = None /\
  (forall k, res (init_settings self h) <> Raise (MissingSettingsException "calculate_bts_total")
             /\ (res (init_settings self h) = Raise (MissingSettingsException k) ->
                 In k required_settings)) /\
  ((forall h', list_debt_positions dex h' = []) ->
   let r := init self h in
   (exists e, res r = Raise e) /\
   Forall (fun e => is_borrow e = false) (out r) /\
   (res (init_checks self h) = Ok tt ->
    res r = Raise (KeyError "calculate_bts_total") /\
    out r = [ReturnTicker; ReturnOpenOrders; ListDebtPositions; ReturnBalances])).
Proof.
  intros Hkey.
  destruct (init_checks_quiet self h "calculate_bts_total" eq_refl) as (Hout & Hchecks & Hsettings).
  split; [intros Hd; split;
          [apply get_debt_amounts_empty | apply place_initial_debt_positions_empty];
          assumption |].
  split; [rewrite Hsettings; exact Hkey |].
  split.
  { intros k. rewrite init_settings_run.
    destruct (first_missing (settings self) required_settings) as [k0 |] eqn:Hf;
      cbn [res]; [| split; discriminate].
    destruct (first_missing_some _ _ _ Hf) as [Hin _]. split.
    - intros [= ->]. simpl in Hin. intuition discriminate.
    - intros [= <-]. exact Hin. }
  intros Hnone r. subst r. unfold init.
  destruct (init_checks self h) as [[[] | e] self1 o1] eqn:Hc;
    cbn [out st] in Hout, Hchecks; subst o1.
  - rewrite (bind_run _ _ _ _ _ _ _ Hc), prepend_nil, app_nil_r.
    destruct (update_data_run self1 h) as (self2 & Hrun & Hs2 & _ & Hd2).
    rewrite Hnone in Hd2.
    rewrite (bind_run _ _ _ _ _ _ _ Hrun).
    rewrite (bind_read _ _ _ _ self2) by reflexivity. rewrite Hd2. simpl Nat.eqb. cbv iota.
    rewrite (bind_run_raise _ _ _ _ _ _ _
      (place_initial_debt_positions_empty self2 _ Hd2
         ltac:(rewrite Hs2, Hchecks; exact Hkey))).
    cbn. split; [eexists; reflexivity |]. split; [repeat constructor | auto].
  - rewrite (bind_run_raise _ _ _ _ _ _ _ Hc). cbn.
    split; [eexists; reflexivity |]. split; [constructor | discriminate].
Qed.

(** * The debt allocation *)

Lemma assoc_lookup_set_eq {V : Type} k (v : V) d :
  assoc_lookup k (assoc_set k v d) = Some v.
Proof.
  induction d as [| [k' v'] d IH]; simpl.
  - rewrite String.eqb_refl. reflexivity.
  - destruct (String.eqb k k') eqn:E; simpl; rewrite E; [reflexivity | exact IH].
Qed.

Lemma assoc_lookup_set_ne {V : Type} k k' (v : V) d :
  k <> k' -> assoc_lookup k (assoc_set k' v d) = assoc_lookup k d.
Proof.
  intros Hne. induction d as [| [k0 v0] d IH]; simpl.
  - apply String.eqb_neq in Hne. rewrite Hne. reflexivity.
  - destruct (String.eqb k' k0) eqn:E; simpl.
    + apply String.eqb_eq in E. subst k0.
      apply String.eqb_neq in Hne. rewrite Hne. reflexivity.
    + destruct (String.eqb k k0); [reflexivity | exact IH].
Qed.

Lemma market_known_unique self m q q' p p' price price' :
  market_known self m q p price -> market_known self m q' p' price' ->
  q = q' /\ p = p' /\ price = price'.
Proof.
  intros ([b Hb] & (d & Hd & Hq) & (t & Ht & Hp) & _)
         ([b' Hb'] & (d' & Hd' & Hq') & (t' & Ht' & Hp') & _).
  rewrite Hb in Hb'. injection Hb' as <- <-.
  rewrite Hd in Hd'. injection Hd' as <-. rewrite Hq in Hq'. injection Hq' as <-.
  rewrite Ht in Ht'. injection Ht' as <-. rewrite Hp in Hp'. injection Hp' as <-.
  auto.
Qed.

Lemma get_total_bts_run self h c free :
  match c with
  | Some (_ :: _) => True
  | _ => settings self !! "calculate_bts_total" <> None
  end ->
  balances self !! "BTS" = Some free ->
  get_total_bts c self h = {| res := Ok (total_backing self free); st := self; out := [] |}.
Proof.
  intros Hc Hb. unfold get_total_bts.
  assert (Hfirst : forall hh,
    (match c with
     | Some (_ :: _) => ret tt
     | _ => _ <- setting "calculate_bts_total" ;; ret tt
     end) self hh = {| res := Ok tt; st := self; out := [] |}).
  { intros hh. destruct c as [[| x l] |]; try reflexivity;
      destruct (settings self !! "calculate_bts_total") as [v |] eqn:Hk;
      try contradiction;
      rewrite (bind_read _ _ _ _ _ (setting_run _ _ _ _ Hk)); reflexivity. }
  rewrite (bind_read _ _ _ _ _ (Hfirst h)).
  rewrite (bind_read _ _ _ _ self) by reflexivity.
  cbv zeta. rewrite Hb. reflexivity.
Qed.

Lemma debt_amounts_loop_cons total_bts m ms acc self h quote percentage price :
  String.eqb (config_market_separator dex) "" = false ->
  market_known self m quote percentage price ->
  debt_amounts_loop total_bts (m :: ms) acc self h =
    debt_amounts_loop total_bts ms
      (assoc_set quote (desired total_bts percentage price) acc) self h.
Proof.
  intros Hsep ([base Hsplit] & (d & Hd & Hq) & (t & Ht & Hp) & Hz). simpl.
  rewrite (bind_read _ _ _ _ _ (split_market_run _ _ _ _ _ _ Hsep Hsplit)). cbn [fst].
  assert (Hbp : dict_setting "borrow_percentages" quote self h =
                {| res := Ok percentage; st := self; out := [] |}).
  { unfold dict_setting. rewrite (bind_read _ _ _ _ _ (setting_run _ _ _ _ Hd)).
    rewrite Hq. reflexivity. }
  rewrite (bind_read _ _ _ _ _ Hbp).
  rewrite (bind_read _ _ _ _ self) by reflexivity.
  rewrite Ht, Hp.
  assert (Hdiv : py_div (fmul total_bts (fdiv percentage (of_Z 100))) price self h =
                 {| res := Ok (desired total_bts percentage price); st := self; out := [] |}).
  { unfold py_div. rewrite Hz. reflexivity. }
  rewrite (bind_read _ _ _ _ _ Hdiv). reflexivity.
Qed.

Lemma debt_amounts_loop_run total_bts ms self h :
  String.eqb (config_market_separator dex) "" = false ->
  Forall (fun m => exists quote percentage price,
                     market_known self m quote percentage price) ms ->
  forall acc, exists amounts,
    debt_amounts_loop total_bts ms acc self h =
      {| res := Ok amounts; st := self; out := [] |} /\
    (forall q, (forall m, In m ms -> ~ has_quote m q) ->
               assoc_lookup q amounts = assoc_lookup q acc) /\
    (forall pre m post q percentage price,
       ms = pre ++ m :: post ->
       market_known self m q percentage price ->
       (forall m', In m' post -> ~ has_quote m' q) ->
       assoc_lookup q amounts = Some (desired total_bts percentage price)).
Proof.
  intros Hsep Hall. induction Hall as [| m ms (q0 & p0 & price0 & Hm) _ IH]; intros acc.
  - exists acc. split; [reflexivity |]. split; [reflexivity |].
    intros [| ? ?] ? ? ? ? ? Heq; discriminate.
  - rewrite (debt_amounts_loop_cons _ _ _ _ _ _ _ _ _ Hsep Hm).
    destruct (IH (assoc_set q0 (desired total_bts p0 price0) acc))
      as (amounts & Hrun & Hother & Hlast).
    exists amounts. split; [exact Hrun |]. split.
    + intros q Hq. rewrite Hother by (intros m' Hin; apply Hq; right; exact Hin).
      apply assoc_lookup_set_ne. intros ->.
      apply (Hq m (or_introl eq_refl)). destruct Hm as [Hm _]. exact Hm.
    + intros [| m0 pre] m1 post q percentage price Heq Hm1 Hpost;
        simpl in Heq; injection Heq as <- ->.
      * destruct (market_known_unique _ _ _ _ _ _ _ _ Hm Hm1) as (<- & <- & <-).
        rewrite Hother by exact Hpost. apply assoc_lookup_set_eq.
      * exact (Hlast pre m1 post q percentage price eq_refl Hm1 Hpost).
Qed.

(** The debt allocation on a snapshot with at least one debt position (or
    with [calculate_bts_total] set): [totalBacking] is the collateral held in
    BTS plus the free BTS plus the totals of the open buy orders, and every
    market's quote asset gets [totalBacking * (percentage/100) /
    settlement_price]; of two markets with the same quote asset the later one
    counts. *)
Theorem get_debt_amounts_formula (self : bot) (h : list event)
    (free : num) (ms : list string) :
  (debt_positions self <> [] \/ settings self !! "calculate_bts_total" <> None) ->
  balances self !! "BTS" = Some free ->
  settings self !! "markets" = Some (VList ms) ->
  String.eqb (config_market_separator dex) "" = false ->
  Forall (fun m => exists quote percentage price,
                     market_known self m quote percentage price) ms ->
  get_total_bts (Some (debt_positions self)) self h =
    {| res := Ok (total_backing self free); st := self; out := [] |} /\
  exists amounts,
    get_debt_amounts self h = {| res := Ok amounts; st := self; out := [] |} /\
    forall pre m post quote percentage price,
      ms = pre ++ m :: post ->
      market_known self m quote percentage price ->
      (forall m', In m' post -> ~ has_quote m' quote) ->
      assoc_lookup quote amounts =
        Some (desired (total_backing self free) percentage price).
Proof.
  intros Hpos Hfree Hmarkets Hsep Hall.
  assert (Htotal : forall hh, get_total_bts (Some (debt_positions self)) self hh =
            {| res := Ok (total_backing self free); st := self; out := [] |}).
  { intros hh. apply get_total_bts_run; [| exact Hfree].
    destruct (debt_positions self) as [| x l]; [| exact I].
    destruct Hpos as [Hpos | Hpos]; [contradiction | exact Hpos]. }
  split; [apply Htotal |].
  destruct (debt_amounts_loop_run (total_backing self free) ms self h Hsep Hall [])
    as (amounts & Hrun & _ & Hlast).
  exists amounts. split; [| exact Hlast].
  unfold get_debt_amounts. rewrite (bind_read _ _ _ _ self) by reflexivity.
  rewrite (bind_read _ _ _ _ _ (Htotal h)).
  assert (Hms : markets_setting self h = {| res := Ok ms; st := self; out := [] |}).
  { unfold markets_setting. rewrite (bind_read _ _ _ _ _ (setting_run _ _ _ _ Hmarkets)).
    reflexivity. }
  rewrite (bind_read _ _ _ _ _ Hms). exact Hrun.
Qed.

(** * Further properties *)

(** Cancelling a market is best effort: [cancel_orders] calls [dex.cancel]
    for every open order of the market, whether or not a call fails, and
    returns; it emits nothing but those calls and printed lines. *)
Theorem cancel_orders_best_effort (depth : nat) (market : string) (os : list order)
    (self : bot) (h : list event) :
  market <> "all" ->
  assoc_lookup market (open_orders self) = Some os ->
  let r := cancel_orders depth market self h in
  res r = Ok tt /\ st r = self /\
  (forall o, In o os -> In (Cancel (orderNumber o)) (out r)) /\
  Forall cancel_event (out r).
Proof.
  intros Hall Hos r.
  destruct (cancel_orders_run depth market os self h Hall Hos) as (cancels & Hrun & Hin & Hc).
  subst r. rewrite Hrun. cbn [res st out]. auto.
Qed.

(** Lines 244-248, for one debt position with a non-zero debt: the line with
    the change is printed, and the debt is adjusted by [desired - current] at
    the configured ratio exactly when the change in percent is at least
    [minimum_change_percentage]. *)
Lemma adjust_one_run symbol amount pos vmin minimum ratio self h :
  assoc_lookup symbol (debt_positions self) = Some pos ->
  feq (debt pos) (of_Z 0) = false ->
  settings self !! "minimum_change_percentage" = Some vmin ->
  num_of vmin = Some minimum ->
  settings self !! "ratio" = Some ratio ->
  adjust_one (symbol, amount) self h =
    {| res := Ok tt; st := self;
       out := Log (LogChange amount (debt pos) (change_percentage amount (debt pos))) ::
              (if fle minimum (change_percentage amount (debt pos))
               then [Log (LogAdjust symbol (fsub amount (debt pos)));
                     AdjustDebt (fsub amount (debt pos)) symbol ratio]
               else []) |}.
Proof.
  intros Hpos Hz Hmin Hnum Hratio. unfold adjust_one. cbn [fst snd].
  rewrite (bind_read _ _ _ _ self) by reflexivity. rewrite Hpos.
  assert (Hdiv : py_div amount (debt pos) self h =
                 {| res := Ok (fdiv amount (debt pos)); st := self; out := [] |})
    by (unfold py_div; rewrite Hz; reflexivity).
  rewrite (bind_read _ _ _ _ _ Hdiv). cbv zeta.
  erewrite bind_run by reflexivity.
  rewrite (bind_read _ _ _ _ _ (num_setting_run _ _ _ _ _ Hmin Hnum)).
  fold (change_percentage amount (debt pos)).
  destruct (fle minimum (change_percentage amount (debt pos))); [| reflexivity].
  unfold adjust_debt_amount. erewrite bind_run by reflexivity.
  rewrite (bind_read _ _ _ _ _ (setting_run _ _ _ _ Hratio)). reflexivity.
Qed.

(** [update_debt_positions] once the debt allocation [amounts] is computed:
    with exactly three open debt positions every allocated asset goes
    through the hysteresis test of [adjust_one]; with any number of positions
    other than zero and three the method only reports it.  For an asset with
    a non-zero debt the adjust command is issued exactly when the change is
    at least [minimum_change_percentage], with [delta = desired - current]. *)
Theorem update_debt_positions_hysteresis (self : bot) (h : list event)
    (amounts : list (string * num)) :
  res (get_debt_amounts self h) = Ok amounts ->
  let n := List.length (debt_positions self) in
  (n = 3%nat -> update_debt_positions self h = for_each amounts adjust_one self h) /\
  (n <> 0%nat -> n <> 3%nat ->
   update_debt_positions self h = {| res := Ok tt; st := self; out := [Log (LogWrong n)] |}) /\
  (forall symbol amount pos vmin minimum ratio hh,
     assoc_lookup symbol (debt_positions self) = Some pos ->
     feq (debt pos) (of_Z 0) = false ->
     settings self !! "minimum_change_percentage" = Some vmin ->
     num_of vmin = Some minimum ->
     settings self !! "ratio" = Some ratio ->
     let r := adjust_one (symbol, amount) self hh in
     (fle minimum (change_percentage amount (debt pos)) = true <->
      In (AdjustDebt (fsub amount (debt pos)) symbol ratio) (out r)) /\
     (fle minimum (change_percentage amount (debt pos)) = false ->
      out r = [Log (LogChange amount (debt pos) (change_percentage amount (debt pos)))])).
Proof.
  intros Hamounts n.
  pose proof (reader_run _ _ _ h _ reader_get_debt_amounts Hamounts) as Hrun.
  assert (Hupd : update_debt_positions self h =
    (if Nat.eqb n 0 then place_initial_debt_positions
     else if Nat.eqb n 3 then for_each amounts adjust_one
     else print (LogWrong n)) self h).
  { unfold update_debt_positions. rewrite (bind_read _ _ _ _ _ Hrun).
    rewrite (bind_read _ _ _ _ self) by reflexivity. reflexivity. }
  split; [| split].
  - intros H3. rewrite Hupd, H3. reflexivity.
  - intros H0 H3. rewrite Hupd.
    apply Nat.eqb_neq in H0, H3. rewrite H0, H3. reflexivity.
  - intros symbol amount pos vmin minimum ratio hh Hpos Hz Hmin Hnum Hratio r.
    subst r. rewrite (adjust_one_run _ _ _ _ _ _ _ _ Hpos Hz Hmin Hnum Hratio).
    cbn [out]. destruct (fle minimum (change_percentage amount (debt pos))).
    + split; [| discriminate]. split; [intros _; simpl; auto | reflexivity].
    + split; [| reflexivity]. split; [discriminate |].
      intros [Hin | []]. discriminate.
Qed.

(** * Running methods: further equations *)

Lemma bind_out {A B : Type} (m : M A) (k : A -> M B) self h :
  out (bind m k self h) =
    out (m self h) ++
    match res (m self h) with
    | Ok a => out (k a (st (m self h)) (h ++ out (m self h)))
    | Raise _ => []
    end.
Proof. unfold bind. destruct (res (m self h)); simpl; rewrite ?app_nil_r; reflexivity. Qed.

Lemma bind_res {A B : Type} (m : M A) (k : A -> M B) self h :
  res (bind m k self h) =
    match res (m self h) with
    | Ok a => res (k a (st (m self h)) (h ++ out (m self h)))
    | Raise e => Raise e
    end.
Proof. unfold bind. destruct (res (m self h)); reflexivity. Qed.

Lemma bind_st {A B : Type} (m : M A) (k : A -> M B) self h :
  st (bind m k self h) =
    match res (m self h) with
    | Ok a => st (k a (st (m self h)) (h ++ out (m self h)))
    | Raise _ => st (m self h)
    end.
Proof. unfold bind. destruct (res (m self h)); reflexivity. Qed.

(** Sequencing after a reader: it hands its result on, or raises. *)
Lemma bind_reader {A B : Type} (m : M A) (k : A -> M B) self h :
  reader m ->
  (exists a, (forall h', m self h' = {| res := Ok a; st := self; out := [] |}) /\
             bind m k self h = k a self h) \/
  (exists e, (forall h', m self h' = {| res := Raise e; st := self; out := [] |}) /\
             bind m k self h = {| res := Raise e; st := self; out := [] |}).
Proof.
  intros Hm. destruct (Hm self) as [[a | e] Hr].
  - left. exists a. split; [exact Hr |]. apply bind_read, Hr.
  - right. exists e. split; [exact Hr |]. apply bind_run_raise, Hr.
Qed.

(** Step over the reader [m] at the head of the method being run. *)
Ltac step_reader Hm :=
  match goal with
  | |- context [bind ?m ?k ?s ?h] =>
      let a := fresh "a" in
      let e := fresh "e" in
      let Ha := fresh "Hrun" in
      destruct (bind_reader m k s h Hm) as [(a & Ha & ->) | (e & Ha & ->)]
  end.

(** * Cancelling, exactly *)

Lemma cancel_loop_cancels os self h :
  List.filter is_cancel (out (for_each os cancel_one self h)) = map cancel_of os.
Proof.
  revert h. induction os as [| o os IH]; intros h; [reflexivity |].
  simpl for_each. rewrite (bind_run _ _ _ _ _ _ _ (cancel_one_run o self h)).
  unfold prepend. cbn [out]. rewrite List.filter_app, IH.
  destruct (cancel_raises dex _ _); reflexivity.
Qed.

Lemma cancel_orders_cancels depth market os self h :
  market <> "all" ->
  assoc_lookup market (open_orders self) = Some os ->
  List.filter is_cancel (out (cancel_orders depth market self h)) = map cancel_of os.
Proof.
  intros Hall%String.eqb_neq Hos.
  assert (Hm : forall h',
    List.filter is_cancel (out (cancel_orders_market market self h')) = map cancel_of os).
  { intros h'. unfold cancel_orders_market. rewrite (bind_read _ _ _ _ self) by reflexivity.
    rewrite Hos. apply cancel_loop_cancels. }
  assert (Hrun : cancel_orders depth market self h =
                 prepend [Log (LogCancelling market)]
                   (cancel_orders_market market self (h ++ [Log (LogCancelling market)]))).
  { destruct depth; cbn [cancel_orders]; (erewrite bind_run by reflexivity);
      rewrite Hall; reflexivity. }
  rewrite Hrun. unfold prepend. cbn [out app List.filter is_cancel]. apply Hm.
Qed.

Lemma place_orders_no_borrow depth market only_sell only_buy self h :
  Forall (fun e => is_borrow e = false)
    (out (place_orders depth market only_sell only_buy self h)).
Proof.
  apply (respects_place_orders eq (fun _ e => is_borrow e = false)); auto; congruence.
Qed.

Lemma cancel_events_no_borrow (l : list event) :
  Forall cancel_event l -> List.filter is_borrow l = [].
Proof.
  induction 1 as [| e l He _ IH]; [reflexivity |].
  destruct e; simpl in *; try contradiction; exact IH.
Qed.

(** Lines 146-148: exactly the open orders of the market are cancelled. *)
Lemma replace_now_cancels market os self h :
  market <> "all" ->
  assoc_lookup market (open_orders self) = Some os ->
  List.filter is_cancel (out (replace_now market self h)) = map cancel_of os /\
  res (replace_now market self h) <> Ok false.
Proof.
  intros Hall Hos.
  destruct (cancel_orders_run recursionlimit market os self h Hall Hos)
    as (cancels & Hrun & _ & _).
  pose proof (cancel_orders_cancels recursionlimit market os self h Hall Hos) as Hc.
  rewrite Hrun in Hc. cbn [out] in Hc.
  unfold replace_now. rewrite (bind_run _ _ _ _ _ _ _ Hrun). unfold prepend. cbn [out res].
  rewrite bind_out, bind_res, !List.filter_app, Hc.
  rewrite (filter_none _ _ (place_orders_no_cancel _ _ _ _ _ _)).
  destruct (res (place_orders _ _ _ _ _ _)); simpl; rewrite ?app_nil_r;
    (split; [reflexivity | discriminate]).
Qed.

(** The loop of lines 142-148 cancels nothing, or it cancels every open order
    of the market once and does not fall through to the debt position. *)
Lemma replace_loop_cancels market os self :
  market <> "all" ->
  assoc_lookup market (open_orders self) = Some os ->
  forall os' h,
    let r := replace_loop market os' self h in
    (List.filter is_cancel (out r) = [] /\ res r <> Ok true) \/
    (List.filter is_cancel (out r) = map cancel_of os /\ res r <> Ok false).
Proof.
  intros Hall Hos os'. induction os' as [| o os' IH]; intros h r; subst r;
    [left; split; [reflexivity | discriminate] |].
  simpl replace_loop.
  destruct (bind_reader (order_feed_spread market o)
              (fun spread =>
                 print (LogOrderSpread (orderNumber o) spread) ;;
                 stale <- must_replace spread ;;
                 if stale then replace_now market else replace_loop market os')
              self h (reader_order_feed_spread market o))
    as [(spread & _ & ->) | (e & _ & ->)]; [| left; split; [reflexivity | discriminate]].
  erewrite bind_run by reflexivity. unfold prepend. cbn [out res].
  destruct (bind_reader (must_replace spread)
              (fun stale : bool => if stale then replace_now market else replace_loop market os')
              self (h ++ [Log (LogOrderSpread (orderNumber o) spread)])
              (reader_must_replace spread))
    as [([|] & _ & ->) | (e & _ & ->)]; simpl.
  - right. apply replace_now_cancels; assumption.
  - apply IH.
  - left. split; [reflexivity | discriminate].
Qed.

Lemma reconcile_orders_cancels market self h :
  market <> "all" ->
  let r := reconcile_orders market self h in
  (List.filter is_cancel (out r) = [] /\ res r <> Ok true) \/
  (List.filter is_cancel (out r) = map cancel_of (orders_of self market) /\
   res r <> Ok false).
Proof.
  intros Hall r. subst r. unfold reconcile_orders, orders_of.
  rewrite (bind_read _ _ _ _ self) by reflexivity.
  destruct (assoc_lookup market (open_orders self)) as [os |] eqn:Hos;
    [| left; split; [reflexivity | discriminate]].
  set (first := if Nat.eqb (List.length os) 0
                then place_orders recursionlimit market false false else ret tt).
  set (second := match os with
                 | [o] =>
                     if String.eqb (type o) "sell" then place_orders recursionlimit market false true
                     else if String.eqb (type o) "buy" then place_orders recursionlimit market true false
                     else ret tt
                 | _ => ret tt
                 end).
  assert (Hfirst : forall hh, st (first self hh) = self /\
                              Forall (fun e => is_cancel e = false) (out (first self hh))).
  { intros hh. subst first. destruct (Nat.eqb (List.length os) 0);
      [split; [apply place_orders_keeps_self | apply place_orders_no_cancel]
      | split; [reflexivity | constructor]]. }
  assert (Hsecond : forall hh, st (second self hh) = self /\
                               Forall (fun e => is_cancel e = false) (out (second self hh))).
  { intros hh. subst second. destruct os as [| o [| o' os']];
      try (split; [reflexivity | constructor]).
    destruct (String.eqb (type o) "sell");
      [split; [apply place_orders_keeps_self | apply place_orders_no_cancel] |].
    destruct (String.eqb (type o) "buy");
      [split; [apply place_orders_keeps_self | apply place_orders_no_cancel] |].
    split; [reflexivity | constructor]. }
  rewrite bind_out, bind_res. destruct (Hfirst h) as [Hst1 Hq1].
  rewrite List.filter_app, (filter_none _ _ Hq1), Hst1. cbn [app].
  destruct (res (first self h)) as [[] | e]; [| left; split; [reflexivity | discriminate]].
  rewrite bind_out, bind_res. destruct (Hsecond (h ++ out (first self h))) as [Hst2 Hq2].
  rewrite List.filter_app, (filter_none _ _ Hq2), Hst2. cbn [app].
  destruct (res (second self _)) as [[] | e]; [| left; split; [reflexivity | discriminate]].
  apply (replace_loop_cancels market os self Hall Hos).
Qed.

Lemma borrow_missing_no_cancel market self h :
  Forall (fun e => is_cancel e = false) (out (borrow_missing market self h)).
Proof.
  apply Forall_no_order_action_no_cancel, borrow_missing_no_order_action.
Qed.

(** One call of [check_and_replace] for a market other than ["all"] cancels
    nothing, or it cancels exactly the open orders that the snapshot lists for
    that market, each once and in their order; in the second case it issues
    no borrow command and does not return [False].  It returns [True] only
    after it has cancelled them.  For a market that [self.open_orders] does
    not list, no order is placed or cancelled. *)
Theorem check_and_replace_cancels_all_or_nothing
    (market : string) (self : bot) (h : list event) :
  market <> "all" ->
  let r := check_and_replace market self h in
  (List.filter is_cancel (out r) = [] \/
   (List.filter is_cancel (out r) = map cancel_of (orders_of self market) /\
    List.filter is_borrow (out r) = [] /\
    res r <> Ok false)) /\
  (res r = Ok true ->
   List.filter is_cancel (out r) = map cancel_of (orders_of self market)) /\
  (assoc_lookup market (open_orders self) = None ->
   Forall (fun e => order_action e = false) (out r)).
Proof.
  intros Hall r. subst r.
  assert (Hcases :
    (List.filter is_cancel (out (check_and_replace market self h)) = [] /\
     res (check_and_replace market self h) <> Ok true) \/
    (List.filter is_cancel (out (check_and_replace market self h))
       = map cancel_of (orders_of self market) /\
     List.filter is_borrow (out (check_and_replace market self h)) = [] /\
     res (check_and_replace market self h) <> Ok false)).
  { unfold check_and_replace. rewrite bind_out, bind_res, !List.filter_app.
    rewrite (filter_none _ _ (reconcile_orders_no_borrow market self h)).
    destruct (reconcile_orders_cancels market self h Hall) as [[Hnone Hres] | [Hsome Hres]].
    - rewrite Hnone. cbn [app]. left.
      destruct (res (reconcile_orders market self h)) as [[|] | e];
        [contradiction | | split; [reflexivity | discriminate]].
      rewrite bind_out, bind_res, List.filter_app.
      rewrite (filter_none _ _ (borrow_missing_no_cancel _ _ _)).
      destruct (res (borrow_missing _ _ _)); split; try reflexivity; discriminate.
    - right. rewrite Hsome.
      destruct (res (reconcile_orders market self h)) as [[|] | e];
        [| contradiction |]; cbn; rewrite app_nil_r;
        (split; [reflexivity | split; [reflexivity | discriminate]]). }
  split; [| split].
  - destruct Hcases as [[Hnone _] | Hsome]; [left; exact Hnone | right; exact Hsome].
  - intros Htrue. destruct Hcases as [[_ Hres] | [Hsome _]]; [contradiction | exact Hsome].
  - intros Hnone.
    assert (Hrec : reconcile_orders market self h =
                   {| res := Ok false; st := self; out := [] |}).
    { unfold reconcile_orders. rewrite (bind_read _ _ _ _ self) by reflexivity.
      rewrite Hnone. reflexivity. }
    unfold check_and_replace. rewrite (bind_read _ _ _ _ _ Hrec), bind_out.
    apply Forall_app. split; [apply borrow_missing_no_order_action |].
    destruct (res (borrow_missing market self h)); constructor.
Qed.

(** A market with exactly one open order, and that order stale.  The method
    first calls [place_orders] for the missing side (lines 137-141).  When
    that call returns, the loop of lines 142-148 evaluates the order, cancels
    it and calls [place_orders] for both sides: the missing side is placed a
    second time in the same call. *)
Theorem check_and_replace_one_stale_order
    (market : string) (self : bot) (h : list event) (o : order)
    (p allowed sp : num) (only_sell only_buy : bool) :
  market <> "all" ->
  assoc_lookup market (open_orders self) = Some [o] ->
  feed_known self market p allowed sp ->
  is_stale allowed sp p o = true ->
  (type o = "sell" /\ only_sell = false /\ only_buy = true) \/
  (type o = "buy" /\ only_sell = true /\ only_buy = false) ->
  let first := place_orders recursionlimit market only_sell only_buy self h in
  let r := check_and_replace market self h in
  (forall e, res first = Raise e -> res r = Raise e /\ out r = out first) /\
  (res first = Ok tt ->
   exists cancels,
     List.filter is_cancel cancels = [cancel_of o] /\
     Forall cancel_event cancels /\
     let second := place_orders recursionlimit market false false self
                     (h ++ out first ++ spread_log p o :: cancels) in
     out r = out first ++ spread_log p o :: cancels ++ out second /\
     res r = match res second with Ok _ => Ok true | Raise e => Raise e end).
Proof.
  intros Hall Hos Hk Hstale Hside first r.
  assert (Hrec : reconcile_orders market self h =
            bind (place_orders recursionlimit market only_sell only_buy)
                 (fun _ => replace_loop market [o]) self h).
  { unfold reconcile_orders. rewrite (bind_read _ _ _ _ self) by reflexivity. rewrite Hos.
    cbn [List.length Nat.eqb]. rewrite bind_ret.
    destruct Hside as [(-> & -> & ->) | (-> & -> & ->)]; reflexivity. }
  pose proof (place_orders_keeps_self recursionlimit market only_sell only_buy self h) as Hst.
  fold first in Hst.
  split.
  - intros e He. subst r. unfold check_and_replace.
    rewrite bind_res, bind_out, Hrec, bind_res, bind_out. fold first. rewrite He.
    cbn. rewrite !app_nil_r. split; reflexivity.
  - intros Hfirst.
    destruct (replace_now_run market [o] self (h ++ out first ++ [spread_log p o]) Hall Hos)
      as (cancels & _ & Hevents & Hnow).
    pose proof (replace_now_cancels market [o] self (h ++ out first ++ [spread_log p o])
                  Hall Hos) as [Hcancels _].
    rewrite Hnow in Hcancels. cbn [out] in Hcancels.
    rewrite List.filter_app, (filter_none _ _ (place_orders_no_cancel _ _ _ _ _ _)),
      app_nil_r in Hcancels.
    exists cancels. split; [exact Hcancels |]. split; [exact Hevents |].
    intros second.
    assert (Hloop : replace_loop market [o] self (h ++ out first) =
              prepend [spread_log p o]
                (replace_now market self ((h ++ out first) ++ [spread_log p o]))).
    { rewrite (replace_loop_cons _ _ _ _ _ _ _ _ Hk), Hstale. reflexivity. }
    rewrite <- app_assoc in Hloop. rewrite Hnow in Hloop.
    replace ((h ++ out first ++ [spread_log p o]) ++ cancels)
      with (h ++ out first ++ spread_log p o :: cancels) in Hloop
      by (rewrite <- !app_assoc; reflexivity).
    fold second in Hloop.
    subst r. unfold check_and_replace.
    rewrite bind_res, bind_out, Hrec, bind_res, bind_out. fold first.
    rewrite Hfirst, Hst, Hloop. unfold prepend. cbn [res out].
    destruct (res second) as [[] | e]; cbn; rewrite ?app_nil_r, <- ?app_assoc;
      split; reflexivity.
Qed.

(** * The tick, step by step *)

Lemma update_data_fresh self h :
  update_data self h =
    {| res := Ok tt; st := fresh_snapshot self h; out := refresh_events |}.
Proof.
  unfold update_data.
  do 7 (erewrite bind_run by reflexivity).
  unfold prepend, assign, query, fresh_snapshot, refresh_events. cbn [res st out app].
  cbn [settings block_counter set_ticker set_open_orders set_debt_positions set_balances].
  rewrite <- !app_assoc. reflexivity.
Qed.

Lemma tick_work_run self h :
  let line := Log (LogBlocks (block_counter self)) in
  tick_work self h =
    prepend (line :: refresh_events)
      ((markets <- markets_setting ;; reconcile_list markets)
         (fresh_snapshot self (h ++ [line])) (h ++ line :: refresh_events)).
Proof.
  intros line. unfold tick_work.
  rewrite (bind_read _ _ _ _ self) by reflexivity.
  erewrite bind_run by reflexivity. fold line.
  rewrite (bind_run _ _ _ _ _ _ _ (update_data_fresh self (h ++ [line]))).
  rewrite prepend_prepend, <- app_assoc. reflexivity.
Qed.

Lemma tick_run_gate self h :
  let s1 := set_block_counter (block_counter self + 1) self in
  tick self h =
    match tick_gate s1 with
    | Ok true => tick_work s1 h
    | Ok false => {| res := Ok tt; st := s1; out := [] |}
    | Raise e => {| res := Raise e; st := s1; out := [] |}
    end.
Proof.
  intros s1. unfold tick, tick_gate.
  erewrite bind_run by reflexivity. rewrite prepend_nil, app_nil_r. fold s1.
  rewrite (bind_read _ _ _ _ s1) by reflexivity. cbv beta.
  destruct (bind_reader (setting "skip_blocks")
              (fun skip => r <- py_mod (block_counter s1) skip ;;
                           if r =? 0 then tick_work else ret tt)
              s1 h (reader_setting "skip_blocks"))
    as [(skip & Hskip & ->) | (e & Hskip & ->)].
  - rewrite (bind_read _ _ _ _ _ (Hskip [])).
    assert (Hmod : reader (py_mod (block_counter s1) skip)).
    { unfold py_mod. destruct skip as [| [] | z | | | | |]; try destruct (z =? 0);
        auto with reader. }
    destruct (bind_reader (py_mod (block_counter s1) skip)
                (fun r => if r =? 0 then tick_work else ret tt) s1 h Hmod)
      as [(r & Hr & ->) | (e & Hr & ->)].
    + rewrite (bind_read _ _ _ _ _ (Hr [])). cbn [res ret].
      destruct (r =? 0); reflexivity.
    + rewrite (bind_run_raise _ _ _ _ _ _ _ (Hr [])). reflexivity.
  - rewrite (bind_run_raise _ _ _ _ _ _ _ (Hskip [])). reflexivity.
Qed.

Lemma check_and_replace_unit_keeps_self market self h :
  st ((_ <- check_and_replace market ;; ret tt) self h) = self.
Proof.
  rewrite bind_st. pose proof (check_and_replace_keeps_self market self h) as Hst.
  destruct (res (check_and_replace market self h)); exact Hst.
Qed.

Lemma reconcile_list_keeps_self ms self h : st (reconcile_list ms self h) = self.
Proof.
  revert h. induction ms as [| m ms IH]; intros h; [reflexivity |].
  unfold reconcile_list. cbn [for_each]. rewrite bind_st.
  rewrite check_and_replace_unit_keeps_self.
  destruct (res _); [apply IH | reflexivity].
Qed.

(** * Debt commands *)

(** Lines 149-154 borrow only for an asset without a debt position. *)
Lemma borrow_missing_allowed market self h :
  Forall (debt_command_allowed self) (out (borrow_missing market self h)).
Proof.
  unfold borrow_missing.
  step_reader (reader_split_market (dex_market_separator dex) market); [| constructor].
  cbv zeta. rewrite (bind_read _ _ _ _ self) by reflexivity.
  destruct (assoc_lookup (fst a) (debt_positions self)) eqn:Hpos; [constructor |].
  step_reader reader_get_debt_amounts; [| constructor].
  destruct (assoc_lookup (fst a) a0) as [amount |]; [| constructor].
  erewrite bind_run by reflexivity. unfold prepend. cbn [out].
  constructor; [exact I |].
  step_reader (reader_setting "ratio"); [| constructor].
  repeat constructor. exact Hpos.
Qed.

Lemma check_and_replace_allowed market self h :
  Forall (debt_command_allowed self) (out (check_and_replace market self h)).
Proof.
  unfold check_and_replace. rewrite bind_out. apply Forall_app. split.
  - apply (respects_reconcile_orders eq debt_command_allowed); simpl; auto; congruence.
  - rewrite reconcile_orders_keeps_self.
    destruct (res (reconcile_orders market self h)) as [[|] | e]; try constructor.
    rewrite bind_out. apply Forall_app. split; [apply borrow_missing_allowed |].
    destruct (res (borrow_missing _ _ _)); constructor.
Qed.

Lemma reconcile_list_allowed ms self h :
  Forall (debt_command_allowed self) (out (reconcile_list ms self h)).
Proof.
  revert h. induction ms as [| m ms IH]; intros h; [constructor |].
  unfold reconcile_list. cbn [for_each]. rewrite bind_out.
  rewrite check_and_replace_unit_keeps_self.
  assert (Hm : Forall (debt_command_allowed self)
                 (out ((_ <- check_and_replace m ;; ret tt) self h))).
  { rewrite bind_out. apply Forall_app. split; [apply check_and_replace_allowed |].
    destruct (res (check_and_replace m self h)); constructor. }
  apply Forall_app. split; [exact Hm |].
  destruct (res _); [apply IH | constructor].
Qed.

Lemma reconcile_markets_allowed self h :
  st ((markets <- markets_setting ;; reconcile_list markets) self h) = self /\
  Forall (debt_command_allowed self)
    (out ((markets <- markets_setting ;; reconcile_list markets) self h)).
Proof.
  step_reader reader_markets_setting; [| split; [reflexivity | constructor]].
  split; [apply reconcile_list_keeps_self | apply reconcile_list_allowed].
Qed.

Lemma tick_work_allowed self h :
  Forall (debt_command_allowed (st (tick_work self h))) (out (tick_work self h)).
Proof.
  rewrite tick_work_run. cbv zeta. unfold prepend. cbn [st out].
  destruct (reconcile_markets_allowed
              (fresh_snapshot self (h ++ [Log (LogBlocks (block_counter self))]))
              (h ++ Log (LogBlocks (block_counter self)) :: refresh_events)) as [-> Hall].
  apply Forall_app. split; [repeat constructor | exact Hall].
Qed.

Lemma no_adjust_of_allowed self (l : list event) :
  Forall (debt_command_allowed self) l -> Forall (fun e => is_adjust e = false) l.
Proof.
  intros Hl. eapply Forall_impl; [exact Hl |]. intros []; simpl; tauto.
Qed.

(** No call of [tick] adjusts a debt position, and a tick borrows only
    assets that have no debt position in the snapshot it fetched (the one the
    object holds afterwards).  The same holds of one call of
    [check_and_replace] on the snapshot of the object; [init] adjusts no
    debt position either. *)
Theorem tick_debt_commands (self : bot) (h : list event) :
  Forall (debt_command_allowed (st (tick self h))) (out (tick self h)) /\
  (forall market,
     Forall (debt_command_allowed self) (out (check_and_replace market self h))) /\
  Forall (fun e => is_adjust e = false) (out (init self h)).
Proof.
  assert (Htick : forall s hh,
    Forall (debt_command_allowed (st (tick s hh))) (out (tick s hh))).
  { intros s hh. rewrite tick_run_gate. cbv zeta.
    destruct (tick_gate _) as [[|] | e]; [apply tick_work_allowed | constructor | constructor]. }
  split; [apply Htick |]. split; [intros market; apply check_and_replace_allowed |].
  unfold init. rewrite bind_out.
  destruct (init_checks_quiet self h "markets" eq_refl) as (-> & _). cbn [app].
  destruct (res (init_checks self h)) as [[] | e]; [| constructor].
  rewrite app_nil_r.
  rewrite (bind_run _ _ _ _ _ _ _ (update_data_fresh _ _)). unfold prepend. cbn [out].
  apply Forall_app. split; [repeat constructor |].
  rewrite (bind_read _ _ _ _ (fresh_snapshot (st (init_checks self h)) h)) by reflexivity.
  rewrite bind_out. apply Forall_app. split.
  - destruct (Nat.eqb _ 0); [| constructor].
    apply (respects_place_initial_debt_positions eq (fun _ e => is_adjust e = false));
      auto; congruence.
  - destruct (res _); [| constructor].
    eapply no_adjust_of_allowed, Htick.
Qed.

(** * The tick and the stored snapshot *)

Lemma tick_gate_same s1 s2 :
  settings s1 = settings s2 -> block_counter s1 = block_counter s2 ->
  tick_gate s1 = tick_gate s2.
Proof.
  intros Hs Hc. unfold tick_gate, bind, setting. rewrite Hs, Hc.
  destruct (settings s2 !! "skip_blocks") as [v |]; [| reflexivity].
  cbn [res st out]. unfold py_mod.
  destruct v as [| [] | z | | | | |]; try destruct (z =? 0); reflexivity.
Qed.

Lemma fresh_snapshot_same s1 s2 h :
  settings s1 = settings s2 -> block_counter s1 = block_counter s2 ->
  fresh_snapshot s1 h = fresh_snapshot s2 h.
Proof. intros Hs Hc. unfold fresh_snapshot. rewrite Hs, Hc. reflexivity. Qed.

Lemma tick_work_same s1 s2 h :
  settings s1 = settings s2 -> block_counter s1 = block_counter s2 ->
  tick_work s1 h = tick_work s2 h.
Proof.
  intros Hs Hc. rewrite !tick_work_run. cbv zeta.
  rewrite Hc, (fresh_snapshot_same s1 s2 _ Hs Hc). reflexivity.
Qed.

Lemma tick_work_out self h :
  out (tick_work self h) <> [].
Proof. rewrite tick_work_run. discriminate. Qed.

(** The state is rebuilt on every active tick: what an active tick calls,
    prints, returns and leaves in the object depends on the settings, the
    counter, the calls made so far and the answers of the exchange, and not on
    the snapshots the object held before.  An idle tick, or one whose test of
    [skip_blocks] raises, calls nothing and leaves the stored snapshots as
    they were. *)
Theorem tick_rebuilds_snapshot (s1 s2 : bot) (h : list event) :
  settings s1 = settings s2 ->
  block_counter s1 = block_counter s2 ->
  res (tick s1 h) = res (tick s2 h) /\
  out (tick s1 h) = out (tick s2 h) /\
  (out (tick s1 h) <> [] -> st (tick s1 h) = st (tick s2 h)) /\
  (out (tick s1 h) = [] ->
   st (tick s1 h) = set_block_counter (block_counter s1 + 1) s1).
Proof.
  intros Hs Hc. rewrite !tick_run_gate. cbv zeta.
  assert (Hs' : settings (set_block_counter (block_counter s1 + 1) s1) =
                settings (set_block_counter (block_counter s2 + 1) s2)) by exact Hs.
  assert (Hc' : block_counter (set_block_counter (block_counter s1 + 1) s1) =
                block_counter (set_block_counter (block_counter s2 + 1) s2))
    by (cbn [block_counter set_block_counter]; rewrite Hc; reflexivity).
  rewrite (tick_gate_same _ _ Hs' Hc').
  destruct (tick_gate _) as [[|] | e].
  - rewrite (tick_work_same _ _ h Hs' Hc').
    split; [reflexivity |]. split; [reflexivity |]. split; [reflexivity |].
    intros Hout. exfalso. exact (tick_work_out _ _ Hout).
  - cbn [res out st]. split; [reflexivity |]. split; [reflexivity |].
    split; [intros Hne; contradiction | reflexivity].
  - cbn [res out st]. split; [reflexivity |]. split; [reflexivity |].
    split; [intros Hne; contradiction | reflexivity].
Qed.

(** * Errors of a tick *)

Lemma reconcile_list_app pre post self h :
  reconcile_list (pre ++ post) self h =
    match res (reconcile_list pre self h) with
    | Ok _ =>
        prepend (out (reconcile_list pre self h))
          (reconcile_list post self (h ++ out (reconcile_list pre self h)))
    | Raise _ => reconcile_list pre self h
    end.
Proof.
  revert h. induction pre as [| m pre IH]; intros h.
  - cbn [app]. unfold reconcile_list at 2 3 4. cbn [for_each ret res out].
    rewrite app_nil_r. symmetry. apply prepend_nil.
  - unfold reconcile_list in *. cbn [app for_each].
    pose proof (check_and_replace_unit_keeps_self m self h) as Hst.
    destruct ((_ <- check_and_replace m ;; ret tt) self h) as [[[] | e] s o] eqn:Hm;
      cbn [st] in Hst; subst s.
    + rewrite !(bind_run _ _ _ _ _ _ _ Hm). rewrite IH. unfold prepend. cbn [res out].
      destruct (for_each pre _ self (h ++ o)) as [[[] | e'] s' o']; cbn [res st out];
        rewrite <- ?app_assoc; reflexivity.
    + rewrite !(bind_run_raise _ _ _ _ _ _ _ Hm). reflexivity.
Qed.

Lemma reconcile_list_one m self h :
  reconcile_list [m] self h =
    {| res := match res (check_and_replace m self h) with
              | Ok _ => Ok tt
              | Raise e => Raise e
              end;
       st := self;
       out := out (check_and_replace m self h) |}.
Proof.
  unfold reconcile_list. cbn [for_each].
  pose proof (check_and_replace_keeps_self m self h) as Hst.
  unfold bind. destruct (check_and_replace m self h) as [[b | e] s o];
    cbn [st] in Hst; subst s; cbn; rewrite ?app_nil_r; reflexivity.
Qed.

(** [tick] catches nothing.  A missing [skip_blocks] and a [skip_blocks] of
    zero make the test of line 127 raise, after the counter was incremented
    and before anything is fetched.  An active tick is the printed line, the
    refresh and the reconciliation of the markets in their configured order
    on the fresh snapshot; when [check_and_replace] raises for a market, the
    tick ends with that exception and the markets after it are not
    reconciled. *)
Theorem tick_stops_at_first_error (self : bot) (h : list event) :
  let s1 := set_block_counter (block_counter self + 1) self in
  let line := Log (LogBlocks (block_counter self + 1)) in
  let s2 := fresh_snapshot s1 (h ++ [line]) in
  let h2 := h ++ line :: refresh_events in
  (settings self !! "skip_blocks" = None ->
   tick self h = {| res := Raise (KeyError "skip_blocks"); st := s1; out := [] |}) /\
  (settings self !! "skip_blocks" = Some (VInt 0) ->
   tick self h = {| res := Raise ZeroDivisionError; st := s1; out := [] |}) /\
  (forall ms,
     tick_gate s1 = Ok true ->
     settings self !! "markets" = Some (VList ms) ->
     tick self h = prepend (line :: refresh_events) (reconcile_list ms s2 h2)) /\
  (forall pre m post e,
     let before := reconcile_list pre s2 h2 in
     let failing := check_and_replace m s2 (h2 ++ out before) in
     res before = Ok tt ->
     res failing = Raise e ->
     reconcile_list (pre ++ m :: post) s2 h2 =
       {| res := Raise e; st := s2; out := out before ++ out failing |}).
Proof.
  intros s1 line s2 h2.
  assert (Hgate : forall v, settings self !! "skip_blocks" = v ->
            tick_gate s1 =
              res ((match v with
                    | Some skip => r <- py_mod (block_counter self + 1) skip ;; ret (r =? 0)
                    | None => raise (KeyError "skip_blocks")
                    end) s1 [])).
  { intros v Hv. unfold tick_gate, bind at 1, setting.
    change (settings s1) with (settings self). rewrite Hv.
    destruct v as [skip |]; [| reflexivity]. cbn [res st out app].
    unfold bind. destruct (py_mod _ skip s1 []) as [[r | e] s o]; reflexivity. }
  split; [| split; [| split]].
  - intros Hnone. rewrite tick_run_gate. cbv zeta. fold s1.
    rewrite (Hgate _ Hnone). reflexivity.
  - intros Hzero. rewrite tick_run_gate. cbv zeta. fold s1.
    rewrite (Hgate _ Hzero). reflexivity.
  - intros ms Hactive Hms. rewrite tick_run_gate. cbv zeta. fold s1.
    rewrite Hactive, tick_work_run. cbv zeta.
    change (block_counter s1) with (block_counter self + 1). fold line s2 h2.
    assert (Hmarkets : markets_setting s2 h2 = {| res := Ok ms; st := s2; out := [] |}).
    { unfold markets_setting.
      rewrite (bind_read _ _ _ _ (VList ms)) by (apply setting_run; exact Hms).
      reflexivity. }
    rewrite (bind_read _ _ _ _ _ Hmarkets). reflexivity.
  - intros pre m post e before failing Hbefore Hfailing.
    rewrite reconcile_list_app. fold before. rewrite Hbefore.
    change (m :: post) with ([m] ++ post). rewrite reconcile_list_app.
    rewrite reconcile_list_one. fold failing. cbn [res]. rewrite Hfailing.
    reflexivity.
Qed.

(** * Start-up: the markets and the first tick *)

Lemma verify_market_cases market :
  String.eqb (dex_market_separator dex) "" = false ->
  (market_verified market /\
   forall self h, verify_market market self h = {| res := Ok tt; st := self; out := [] |}) \/
  (not_borrowable market /\
   forall self h, verify_market market self h =
                    {| res := Raise ValueError; st := self; out := [] |}) \/
  (wrong_collateral market /\
   forall self h, verify_market market self h =
                    {| res := Raise AssertionError; st := self; out := [] |}).
Proof.
  intros Hsep. unfold verify_market, split_market. rewrite Hsep.
  destruct (py_split (dex_market_separator dex) market) as [| q [| b [| c l]]] eqn:Hsplit;
    try (right; left; split;
         [left; intros quote base; unfold not_borrowable; rewrite ?Hsplit; discriminate
         | intros self h; reflexivity]).
  destruct (bitasset_data_id (get_asset dex q)) as [bid |] eqn:Hbid.
  - destruct (String.eqb_spec (short_backing_asset dex bid) (asset_id (get_asset dex b)))
      as [Heq | Hne].
    + left. split; [exists q, b, bid; auto |].
      intros self h. rewrite bind_ret. cbn [fst snd]. rewrite Hbid.
      apply String.eqb_eq in Heq. rewrite Heq. reflexivity.
    + right. right. split; [exists q, b, bid; auto |].
      intros self h. rewrite bind_ret. cbn [fst snd]. rewrite Hbid.
      apply String.eqb_neq in Hne. rewrite Hne. reflexivity.
  - right. left. split; [right; exists q, b; auto |].
    intros self h. rewrite bind_ret. cbn [fst snd]. rewrite Hbid. reflexivity.
Qed.

(** The loop of lines 93-107 stops at the first market that fails. *)
Lemma verify_loop_run ms self h :
  String.eqb (dex_market_separator dex) "" = false ->
  exists r,
    for_each ms verify_market self h = {| res := r; st := self; out := [] |} /\
    ((r = Ok tt /\ Forall market_verified ms) \/
     (exists pre m post,
        ms = pre ++ m :: post /\ Forall market_verified pre /\
        ((not_borrowable m /\ r = Raise ValueError) \/
         (wrong_collateral m /\ r = Raise AssertionError)))).
Proof.
  intros Hsep. induction ms as [| m ms (r & Hrun & Hcases)].
  - exists (Ok tt). split; [reflexivity |]. left. split; [reflexivity | constructor].
  - cbn [for_each].
    destruct (verify_market_cases m Hsep) as [[Hm Hv] | [[Hm Hv] | [Hm Hv]]].
    + rewrite (bind_read _ _ _ _ _ (Hv self h)). exists r. split; [exact Hrun |].
      destruct Hcases as [[-> Hall] | (pre & m' & post & -> & Hpre & Hfail)].
      * left. split; [reflexivity | constructor; assumption].
      * right. exists (m :: pre), m', post. split; [reflexivity |].
        split; [constructor; assumption | exact Hfail].
    + rewrite (bind_run_raise _ _ _ _ _ _ _ (Hv self h)).
      exists (Raise ValueError). split; [reflexivity |].
      right. exists [], m, ms. split; [reflexivity |]. split; [constructor | auto].
    + rewrite (bind_run_raise _ _ _ _ _ _ _ (Hv self h)).
      exists (Raise AssertionError). split; [reflexivity |].
      right. exists [], m, ms. split; [reflexivity |]. split; [constructor | auto].
Qed.

Lemma verified_not_failing market :
  market_verified market -> ~ not_borrowable market /\ ~ wrong_collateral market.
Proof.
  intros (q & b & bid & Hsplit & Hbid & Heq). split.
  - intros [Hno | (q' & b' & Hsplit' & Hbid')]; [exact (Hno q b Hsplit) |].
    rewrite Hsplit in Hsplit'. injection Hsplit' as <- <-. congruence.
  - intros (q' & b' & bid' & Hsplit' & Hbid' & Hne).
    rewrite Hsplit in Hsplit'. injection Hsplit' as <- <-.
    rewrite Hbid in Hbid'. injection Hbid' as <-. contradiction.
Qed.

Lemma init_checks_run self h ms :
  res (init_settings self h) = Ok tt ->
  settings self !! "markets" = Some (VList ms) ->
  init_checks self h =
    for_each ms verify_market (set_settings (with_defaults (settings self)) self) h.
Proof.
  intros Hres Hms. unfold init_checks.
  pose proof (init_settings_run self h) as Hrun.
  destruct (first_missing (settings self) required_settings) as [k |];
    [rewrite Hrun in Hres; discriminate |].
  rewrite (bind_run _ _ _ _ _ _ _ Hrun), prepend_nil, app_nil_r.
  assert (Hmarkets : forall s hh, settings s = with_defaults (settings self) ->
            markets_setting s hh = {| res := Ok ms; st := s; out := [] |}).
  { intros s hh Hs. unfold markets_setting.
    rewrite (bind_read _ _ _ _ (VList ms)); [reflexivity |].
    apply setting_run. rewrite Hs, lookup_with_defaults, Hms. reflexivity. }
  rewrite (bind_read _ _ _ _ _
             (Hmarkets (set_settings (with_defaults (settings self)) self) h eq_refl)).
  reflexivity.
Qed.

(** [init] on settings that pass the validation of lines 58-89 and list the
    markets [ms].  The checks of lines 93-107 pass exactly when every market
    is a pair whose quote asset is a bitasset backed by its base asset.
    Otherwise they stop at the first market that fails, with [ValueError]
    when it is no pair or its quote asset is no bitasset and with
    [AssertionError] when the backing asset is another one; then [init] ends
    with that exception before it has fetched a snapshot or issued a
    command. *)
Theorem init_verifies_markets (self : bot) (h : list event) (ms : list string) :
  res (init_settings self h) = Ok tt ->
  settings self !! "markets" = Some (VList ms) ->
  String.eqb (dex_market_separator dex) "" = false ->
  let r := init_checks self h in
  st r = set_settings (with_defaults (settings self)) self /\
  out r = [] /\
  (res r = Ok tt <-> Forall market_verified ms) /\
  (res r <> Ok tt ->
   exists pre m post,
     ms = pre ++ m :: post /\ Forall market_verified pre /\
     ((not_borrowable m /\ res r = Raise ValueError) \/
      (wrong_collateral m /\ res r = Raise AssertionError))) /\
  (res r <> Ok tt -> res (init self h) = res r /\ out (init self h) = []).
Proof.
  intros Hsettings Hms Hsep r. subst r.
  rewrite (init_checks_run self h ms Hsettings Hms).
  set (s1 := set_settings (with_defaults (settings self)) self).
  destruct (verify_loop_run ms s1 h Hsep) as (r & Hrun & Hcases).
  assert (Hinit : init self h =
            bind (for_each ms verify_market)
              (fun _ => update_data ;;
                        self' <- get_self ;;
                        (if Nat.eqb (List.length (debt_positions self')) 0
                         then place_initial_debt_positions else ret tt) ;;
                        tick) s1 h).
  { unfold init. unfold bind at 1. unfold bind at 5.
    rewrite (init_checks_run self h ms Hsettings Hms). reflexivity. }
  rewrite Hrun. cbn [res st out].
  split; [reflexivity |]. split; [reflexivity |].
  destruct Hcases as [[-> Hall] | (pre & m & post & Heq & Hpre & Hfail)].
  - split; [split; auto |]. split; intros Hne; contradiction.
  - assert (Hr : r <> Ok tt)
      by (destruct Hfail as [[_ ->] | [_ ->]]; discriminate).
    split; [| split].
    + split; [intros Hok; contradiction |].
      intros Hall. exfalso. rewrite Heq in Hall.
      apply Forall_app in Hall as [_ Hall]. inversion Hall as [| ? ? Hm _].
      destruct (verified_not_failing m Hm) as [Hnb Hwc].
      destruct Hfail as [[Hf _] | [Hf _]]; contradiction.
    + intros _. exists pre, m, post. auto.
    + intros _. rewrite Hinit.
      destruct r as [[] | e]; [contradiction |].
      rewrite (bind_run_raise _ _ _ _ _ _ _ Hrun). split; reflexivity.
Qed.

Lemma tick_gate_first self k :
  block_counter self = 0 ->
  settings self !! "skip_blocks" = Some (VInt k) -> k <> 0 ->
  tick_gate self = Ok true.
Proof.
  intros Hc Hk Hk0. unfold tick_gate.
  rewrite (bind_read _ _ _ _ (VInt k)) by (apply setting_run; exact Hk).
  unfold py_mod. apply Z.eqb_neq in Hk0. rewrite Hk0, bind_ret, Hc.
  rewrite Zmod_0_l. reflexivity.
Qed.

Lemma init_checks_ok self h :
  res (init_checks self h) = Ok tt ->
  init_checks self h =
    {| res := Ok tt; st := set_settings (with_defaults (settings self)) self; out := [] |}.
Proof.
  intros Hchecks.
  destruct (init_checks_quiet self h "markets" eq_refl) as (Hout & _).
  assert (Hsettings : res (init_settings self h) = Ok tt).
  { unfold init_checks in Hchecks. rewrite bind_res in Hchecks.
    destruct (res (init_settings self h)) as [[] | e]; [reflexivity | discriminate]. }
  assert (Hst : st (init_checks self h) = set_settings (with_defaults (settings self)) self).
  { pose proof (init_settings_run self h) as Hrun.
    destruct (first_missing (settings self) required_settings) as [k |];
      [rewrite Hrun in Hsettings; discriminate |].
    unfold init_checks. rewrite (bind_run _ _ _ _ _ _ _ Hrun), prepend_nil, app_nil_r.
    assert (Hkeep : respects eq (fun _ _ => True)
                      (markets <- markets_setting ;; for_each markets verify_market)).
    { apply respects_reader; auto. apply reader_bind; [apply reader_markets_setting |].
      intros markets. apply reader_for_each, reader_verify_market. }
    symmetry. apply Hkeep. }
  destruct (init_checks self h) as [r s o]. cbn [res st out] in *. subst. reflexivity.
Qed.

Lemma init_after_checks self h :
  res (init_checks self h) = Ok tt ->
  list_debt_positions dex (h ++ [ReturnTicker; ReturnOpenOrders]) <> [] ->
  init self h =
    prepend refresh_events
      (tick (fresh_snapshot (set_settings (with_defaults (settings self)) self) h)
         (h ++ refresh_events)).
Proof.
  intros Hchecks Hdebt. unfold init.
  rewrite (bind_run _ _ _ _ _ _ _ (init_checks_ok self h Hchecks)), prepend_nil, app_nil_r.
  rewrite (bind_run _ _ _ _ _ _ _ (update_data_fresh _ h)).
  match goal with |- context [fresh_snapshot ?s h] =>
    rewrite (bind_read _ _ _ _ (fresh_snapshot s h)) by reflexivity end.
  cbn [debt_positions fresh_snapshot].
  destruct (list_debt_positions dex (h ++ [ReturnTicker; ReturnOpenOrders]))
    as [| d ds]; [contradiction |].
  cbn [List.length Nat.eqb]. rewrite bind_ret. reflexivity.
Qed.

(** [init] on a new object (counter [-1]) whose checks pass, on an exchange
    that lists a debt position.  It fetches the snapshot and runs one tick
    on it.  That tick is an active one whatever the interval [skip_blocks]
    is, a configured integer other than zero or the default: the counter is
    0, a multiple of every interval.  So the snapshot is fetched a second
    time and every market is reconciled before the first block arrives. *)
Theorem init_first_tick_is_active (self : bot) (h : list event) :
  res (init_checks self h) = Ok tt ->
  block_counter self = initial_block_counter ->
  (settings self !! "skip_blocks" = None \/
   exists k, settings self !! "skip_blocks" = Some (VInt k) /\ k <> 0) ->
  list_debt_positions dex (h ++ [ReturnTicker; ReturnOpenOrders]) <> [] ->
  let s2 := fresh_snapshot (st (init_checks self h)) h in
  init self h = prepend refresh_events (tick s2 (h ++ refresh_events)) /\
  tick s2 (h ++ refresh_events) =
    tick_work (set_block_counter 0 s2) (h ++ refresh_events) /\
  block_counter (st (init self h)) = 0 /\
  exists rest,
    out (init self h) = refresh_events ++ Log (LogBlocks 0) :: refresh_events ++ rest.
Proof.
  intros Hchecks Hcounter Hskip Hdebt s2.
  pose proof (init_after_checks self h Hchecks Hdebt) as Hinit.
  assert (Hs2 : s2 = fresh_snapshot (set_settings (with_defaults (settings self)) self) h).
  { unfold s2. rewrite (init_checks_ok self h Hchecks). reflexivity. }
  rewrite <- Hs2 in Hinit. clearbody s2.
  assert (Hc2 : block_counter s2 + 1 = 0).
  { rewrite Hs2. cbn [block_counter fresh_snapshot set_settings]. rewrite Hcounter.
    reflexivity. }
  assert (Hk : exists k, settings s2 !! "skip_blocks" = Some (VInt k) /\ k <> 0).
  { rewrite Hs2. cbn [settings fresh_snapshot set_settings]. rewrite lookup_with_defaults.
    destruct Hskip as [-> | (k & -> & Hk0)]; [exists 20; split; [reflexivity | lia] |].
    exists k. auto. }
  destruct Hk as (k & Hk & Hk0).
  assert (Htick : tick s2 (h ++ refresh_events) =
                  tick_work (set_block_counter 0 s2) (h ++ refresh_events)).
  { rewrite tick_run_gate. cbv zeta. rewrite Hc2.
    rewrite (tick_gate_first (set_block_counter 0 s2) k eq_refl Hk Hk0). reflexivity. }
  split; [exact Hinit |]. split; [exact Htick |].
  rewrite Hinit, Htick, tick_work_run. cbv zeta. unfold prepend. cbn [st out].
  split.
  - match goal with |- context [st (?m ?s ?hh)] =>
      destruct (reconcile_markets_allowed s hh) as [-> _] end.
    reflexivity.
  - eexists. reflexivity.
Qed.

(** * Sizing the walls *)

Lemma existsb_unique_strings a l :
  existsb (String.eqb a) (unique_strings l) = existsb (String.eqb a) l.
Proof.
  induction l as [| x l IH]; [reflexivity |]. cbn [unique_strings existsb].
  destruct (existsb (String.eqb x) l) eqn:Hx.
  - rewrite IH. destruct (String.eqb_spec a x) as [-> | _]; [| reflexivity].
    rewrite Hx. reflexivity.
  - cbn [existsb]. rewrite IH. reflexivity.
Qed.

Lemma collect_asset_ids_run ms self h :
  String.eqb (config_market_separator dex) "" = false ->
  Forall is_pair ms ->
  forall acc,
    collect_asset_ids ms acc self h =
      {| res := Ok (acc ++ market_assets ms); st := self; out := [] |}.
Proof.
  intros Hsep Hall. induction Hall as [| m ms (q & b & Hsplit) _ IH]; intros acc.
  - cbn. rewrite app_nil_r. reflexivity.
  - cbn [collect_asset_ids].
    rewrite (bind_read _ _ _ _ _ (split_market_run _ _ _ _ _ _ Hsep Hsplit)).
    cbn [fst snd]. rewrite IH. unfold market_assets. cbn [flat_map]. rewrite Hsplit.
    rewrite <- app_assoc. reflexivity.
Qed.

(** Lines 174-176: every asset of the markets that has a balance gets its
    allocation, whatever the order in which the set is iterated. *)
Lemma compute_amounts_run bal ids uniq self h v vp :
  settings self !! "volume_percentage" = Some v ->
  num_of v = Some vp ->
  forall acc, exists amounts,
    compute_amounts bal ids uniq acc self h =
      {| res := Ok amounts; st := self; out := [] |} /\
    forall a,
      amounts !! a =
        if existsb (String.eqb a) uniq
        then match bal !! a with
             | Some b => Some (allocation vp b (count_string a ids))
             | None => acc !! a
             end
        else acc !! a.
Proof.
  intros Hv Hvp. induction uniq as [| a0 rest IH]; intros acc.
  - exists acc. split; [reflexivity |]. intros a. reflexivity.
  - cbn [compute_amounts existsb].
    destruct (bal !! a0) as [b0 |] eqn:Hb0.
    + rewrite (bind_read _ _ _ _ _ (num_setting_run _ _ _ _ _ Hv Hvp)).
      destruct (IH (<[a0 := allocation vp b0 (count_string a0 ids)]> acc))
        as (amounts & Hrun & Hlookup).
      exists amounts. split; [exact Hrun |]. intros a. rewrite Hlookup.
      destruct (String.eqb_spec a a0) as [-> | Hne]; cbn [orb].
      * rewrite Hb0, lookup_insert_eq. destruct (existsb _ rest); reflexivity.
      * rewrite lookup_insert_ne by congruence. reflexivity.
    + destruct (IH acc) as (amounts & Hrun & Hlookup).
      exists amounts. split; [exact Hrun |]. intros a. rewrite Hlookup.
      destruct (String.eqb_spec a a0) as [-> | Hne]; cbn [orb]; [| reflexivity].
      rewrite Hb0. destruct (existsb _ rest); reflexivity.
Qed.

Lemma existsb_market_assets market quote base ms :
  In market ms ->
  py_split (config_market_separator dex) market = [quote; base] ->
  existsb (String.eqb quote) (market_assets ms) = true /\
  existsb (String.eqb base) (market_assets ms) = true.
Proof.
  intros Hin Hsplit.
  assert (Hq : In quote (market_assets ms) /\ In base (market_assets ms)).
  { unfold market_assets. split; apply in_flat_map; exists market;
      (split; [exact Hin |]); rewrite Hsplit; simpl; auto. }
  destruct Hq as [Hq Hb].
  split; apply existsb_exists; [exists quote | exists base];
    (split; [assumption | apply String.eqb_refl]).
Qed.

Lemma dict_setting_run k key d x self h :
  settings self !! k = Some (VDict d) -> d !! key = Some x ->
  dict_setting k key self h = {| res := Ok x; st := self; out := [] |}.
Proof.
  intros Hk Hkey. unfold dict_setting.
  rewrite (bind_read _ _ _ _ _ (setting_run _ _ _ _ Hk)), Hkey. reflexivity.
Qed.

Lemma submit_if_large_run quote amount order minimum d self h :
  settings self !! "minimum_amounts" = Some (VDict d) -> d !! quote = Some minimum ->
  submit_if_large quote amount order self h =
    {| res := Ok tt; st := self; out := if fle minimum amount then [order] else [] |}.
Proof.
  intros Hd Hq. unfold submit_if_large.
  rewrite (bind_read _ _ _ _ _ (dict_setting_run _ _ _ _ _ _ Hd Hq)).
  destruct (fle minimum amount); reflexivity.
Qed.

Lemma py_div_run x y self h :
  feq y (of_Z 0) = false ->
  py_div x y self h = {| res := Ok (fdiv x y); st := self; out := [] |}.
Proof. intros Hy. unfold py_div. rewrite Hy. reflexivity. Qed.

Lemma symmetric_sides_run self h :
  symmetric_sides self h = {| res := Ok (symmetric_of self); st := self; out := [] |}.
Proof. reflexivity. Qed.

(** Lines 192-200 with both allocations at hand. *)
Lemma place_sell_run market quote base amounts buy sell only_sell only_buy
    aq ab minimum d self h :
  amounts !! quote = Some aq -> amounts !! base = Some ab ->
  feq buy (of_Z 0) = false ->
  settings self !! "minimum_amounts" = Some (VDict d) -> d !! quote = Some minimum ->
  let amount := if symmetric_of self && negb only_sell
                then py_min aq (fdiv ab buy) else aq in
  place_sell market quote base amounts buy sell only_sell only_buy self h =
    {| res := Ok tt; st := self;
       out := if negb only_buy && fle minimum amount
              then [Sell market sell amount] else [] |}.
Proof.
  intros Hq Hb Hbuy Hd Hmin amount. subst amount. unfold place_sell. rewrite Hq.
  destruct only_buy; cbn [negb andb]; [reflexivity |].
  rewrite (bind_read _ _ _ _ _ (symmetric_sides_run self h)).
  destruct (symmetric_of self && negb only_sell).
  - rewrite Hb. rewrite (bind_read _ _ _ _ (py_min aq (fdiv ab buy))).
    + apply (submit_if_large_run _ _ _ _ _ _ _ Hd Hmin).
    + rewrite (bind_read _ _ _ _ _ (py_div_run ab buy self h Hbuy)). reflexivity.
  - apply (submit_if_large_run _ _ _ _ _ _ _ Hd Hmin).
Qed.

(** Lines 201-209 with both allocations at hand. *)
Lemma place_buy_run market quote base amounts buy only_sell only_buy
    aq ab minimum d self h :
  amounts !! quote = Some aq -> amounts !! base = Some ab ->
  feq buy (of_Z 0) = false ->
  settings self !! "minimum_amounts" = Some (VDict d) -> d !! quote = Some minimum ->
  let amount := if symmetric_of self && negb only_buy
                then py_min aq (fdiv ab buy) else fdiv ab buy in
  place_buy market quote base amounts buy only_sell only_buy self h =
    {| res := Ok tt; st := self;
       out := if negb only_sell && fle minimum amount
              then [Buy market buy amount] else [] |}.
Proof.
  intros Hq Hb Hbuy Hd Hmin amount. subst amount. unfold place_buy. rewrite Hb.
  destruct only_sell; cbn [negb andb]; [reflexivity |].
  rewrite (bind_read _ _ _ _ _ (symmetric_sides_run self h)).
  destruct (symmetric_of self && negb only_buy).
  - rewrite Hq. rewrite (bind_read _ _ _ _ (py_min aq (fdiv ab buy))).
    + apply (submit_if_large_run _ _ _ _ _ _ _ Hd Hmin).
    + rewrite (bind_read _ _ _ _ _ (py_div_run ab buy self h Hbuy)). reflexivity.
  - rewrite (bind_read _ _ _ _ _ (py_div_run ab buy self h Hbuy)).
    apply (submit_if_large_run _ _ _ _ _ _ _ Hd Hmin).
Qed.

Lemma markets_setting_run ms self h :
  settings self !! "markets" = Some (VList ms) ->
  markets_setting self h = {| res := Ok ms; st := self; out := [] |}.
Proof.
  intros Hms. unfold markets_setting.
  rewrite (bind_read _ _ _ _ _ (setting_run _ _ _ _ Hms)). reflexivity.
Qed.

(** The branch [market != "all"] on a configuration that is complete for the
    market. *)
Lemma place_orders_market_run market quote base only_sell only_buy self h
    ms vp sp bp bq bb minimum :
  ready_to_place self h market quote base ms vp sp bp bq bb minimum ->
  let buy := buy_price_of bp sp in
  let sell := sell_price_of bp sp in
  feq buy (of_Z 0) = false ->
  let aq := allocation vp bq (count_string quote (market_assets ms)) in
  let ab := allocation vp bb (count_string base (market_assets ms)) in
  let both := py_min aq (fdiv ab buy) in
  let sell_amount := if symmetric_of self && negb only_sell then both else aq in
  let buy_amount := if symmetric_of self && negb only_buy then both else fdiv ab buy in
  place_orders_market market only_sell only_buy self h =
    {| res := Ok tt; st := self;
       out := ReturnBalances ::
              (if negb only_buy && fle minimum sell_amount
               then [Sell market sell sell_amount] else []) ++
              (if negb only_sell && fle minimum buy_amount
               then [Buy market buy buy_amount] else []) |}.
Proof.
  intros (_ & Hsep & Hms & Hpairs & Hin & Hsplit & Hbq & Hbb & (v_vp & Hvp & Hvpn) &
          (tp & Htp & Hbase) & (v_sp & Hsp & Hspn) & (d & Hd & Hmin))
    buy sell Hbuy aq ab both sell_amount buy_amount.
  unfold place_orders_market.
  rewrite (bind_read _ _ _ _ _ (setting_run _ _ _ _ Htp)).
  erewrite bind_run by reflexivity.
  set (h1 := h ++ [ReturnBalances]).
  rewrite (bind_read _ _ _ _ _ (markets_setting_run _ _ _ Hms)).
  rewrite (bind_read _ _ _ _ _ (collect_asset_ids_run ms self h1 Hsep Hpairs [])).
  cbn [app].
  destruct (compute_amounts_run (returnBalances dex h) (market_assets ms)
              (unique_strings (market_assets ms)) self h1 v_vp vp Hvp Hvpn ∅)
    as (amounts & Hrun & Hlookup).
  rewrite (bind_read _ _ _ _ _ Hrun).
  rewrite (bind_read _ _ _ _ _ (reader_run _ _ _ h1 _ (reader_base_price market tp) Hbase)).
  assert (Hbuyp : buy_price bp self h1 = {| res := Ok buy; st := self; out := [] |}).
  { unfold buy_price. rewrite (bind_read _ _ _ _ _ (num_setting_run _ _ _ _ _ Hsp Hspn)).
    reflexivity. }
  assert (Hsellp : sell_price bp self h1 = {| res := Ok sell; st := self; out := [] |}).
  { unfold sell_price. rewrite (bind_read _ _ _ _ _ (num_setting_run _ _ _ _ _ Hsp Hspn)).
    reflexivity. }
  rewrite (bind_read _ _ _ _ _ Hbuyp), (bind_read _ _ _ _ _ Hsellp).
  rewrite (bind_read _ _ _ _ _ (split_market_run _ _ _ _ _ _ Hsep Hsplit)).
  cbn [fst snd].
  destruct (existsb_market_assets market quote base ms Hin Hsplit) as [Hqin Hbin].
  assert (Haq : amounts !! quote = Some aq).
  { rewrite Hlookup, existsb_unique_strings, Hqin, Hbq. reflexivity. }
  assert (Hab : amounts !! base = Some ab).
  { rewrite Hlookup, existsb_unique_strings, Hbin, Hbb. reflexivity. }
  rewrite (bind_run _ _ _ _ _ _ _
             (place_sell_run market quote base amounts buy sell only_sell only_buy
                aq ab minimum d self h1 Haq Hab Hbuy Hd Hmin)).
  rewrite (place_buy_run market quote base amounts buy only_sell only_buy
             aq ab minimum d self _ Haq Hab Hbuy Hd Hmin).
  reflexivity.
Qed.

Lemma place_orders_one_market depth market only_sell only_buy self h :
  market <> "all" ->
  place_orders depth market only_sell only_buy self h =
    place_orders_market market only_sell only_buy self h.
Proof.
  intros Hall%String.eqb_neq. destruct depth; cbn [place_orders]; rewrite Hall; reflexivity.
Qed.

(** [place_orders] for one market, on a configuration that is complete for
    it and gives a buy price other than zero.  The method fetches the
    balances and then submits at most one sell order at the sell price and
    one buy order at the buy price.  Each asset's allocation is
    [balance * volume_percentage / 100 / n] where [n] counts the sides of
    configured markets that refer to the asset.  With symmetric sides and
    both sides asked for, both orders have the size
    [min(allocation of quote, allocation of base / buy_price)], and they are
    submitted together or not at all; a side placed alone, or without
    symmetric sides, has the size of its own allocation (in units of the
    quote asset).  A side is submitted exactly when it is asked for and its
    size is at least [minimum_amounts[quote]]. *)
Theorem place_orders_sizing
    (depth : nat) (market quote base : string) (only_sell only_buy : bool)
    (self : bot) (h : list event) (ms : list string)
    (vp sp bp bq bb minimum : num) :
  ready_to_place self h market quote base ms vp sp bp bq bb minimum ->
  let buy := buy_price_of bp sp in
  let sell := sell_price_of bp sp in
  feq buy (of_Z 0) = false ->
  let aq := allocation vp bq (count_string quote (market_assets ms)) in
  let ab := allocation vp bb (count_string base (market_assets ms)) in
  let both := py_min aq (fdiv ab buy) in
  let sell_amount := if symmetric_of self && negb only_sell then both else aq in
  let buy_amount := if symmetric_of self && negb only_buy then both else fdiv ab buy in
  let r := place_orders depth market only_sell only_buy self h in
  res r = Ok tt /\ st r = self /\
  out r = ReturnBalances ::
          (if negb only_buy && fle minimum sell_amount
           then [Sell market sell sell_amount] else []) ++
          (if negb only_sell && fle minimum buy_amount
           then [Buy market buy buy_amount] else []) /\
  (symmetric_of self = true -> only_sell = false -> only_buy = false ->
   sell_amount = buy_amount /\
   (In (Sell market sell both) (out r) <-> In (Buy market buy both) (out r))).
Proof.
  intros Hready buy sell Hbuy aq ab both sell_amount buy_amount r.
  assert (Hrun : r = place_orders_market market only_sell only_buy self h)
    by (apply place_orders_one_market; apply Hready).
  rewrite Hrun.
  rewrite (place_orders_market_run market quote base only_sell only_buy self h
             ms vp sp bp bq bb minimum Hready Hbuy).
  cbn [res st out]. fold buy sell aq ab both sell_amount buy_amount.
  split; [reflexivity |]. split; [reflexivity |]. split; [reflexivity |].
  intros Hsym -> ->. subst sell_amount buy_amount. rewrite Hsym. cbn [negb andb].
  split; [reflexivity |].
  destruct (fle minimum both); cbn; [tauto |].
  split; intros [Hf | []]; discriminate.
Qed.

(** * One wall per call *)

Lemma submit_if_large_out quote amount order self h :
  out (submit_if_large quote amount order self h) = [] \/
  out (submit_if_large quote amount order self h) = [order].
Proof.
  unfold submit_if_large.
  step_reader (reader_dict_setting "minimum_amounts" quote); [| left; reflexivity].
  destruct (fle a amount); [right | left]; reflexivity.
Qed.

Lemma place_sell_out market quote base amounts buy sell only_sell only_buy self h :
  let l := out (place_sell market quote base amounts buy sell only_sell only_buy self h) in
  l = [] \/ (only_buy = false /\ exists price amount, l = [Sell market price amount]).
Proof.
  intros l. subst l. unfold place_sell.
  destruct (amounts !! quote) as [aq |]; [| left; reflexivity].
  destruct only_buy; cbn [negb]; [left; reflexivity |].
  rewrite (bind_read _ _ _ _ _ (symmetric_sides_run self h)).
  assert (Hsubmit : forall amount hh,
    out (submit_if_large quote amount (Sell market sell amount) self hh) = [] \/
    (false = false /\ exists price amount',
       out (submit_if_large quote amount (Sell market sell amount) self hh)
         = [Sell market price amount'])).
  { intros amount hh. destruct (submit_if_large_out quote amount (Sell market sell amount) self hh)
      as [-> | ->]; [left; reflexivity | right; eauto]. }
  destruct (symmetric_of self && negb only_sell); [| apply Hsubmit].
  destruct (amounts !! base) as [ab |].
  - step_reader (reader_bind (py_div ab buy) (fun q => ret (py_min aq q))
                   (reader_py_div ab buy) (fun q => reader_ret (py_min aq q)));
      [apply Hsubmit | left; reflexivity].
  - rewrite bind_ret. apply Hsubmit.
Qed.

Lemma place_buy_out market quote base amounts buy only_sell only_buy self h :
  let l := out (place_buy market quote base amounts buy only_sell only_buy self h) in
  l = [] \/ (only_sell = false /\ exists price amount, l = [Buy market price amount]).
Proof.
  intros l. subst l. unfold place_buy.
  destruct (amounts !! base) as [ab |]; [| left; reflexivity].
  destruct only_sell; cbn [negb]; [left; reflexivity |].
  rewrite (bind_read _ _ _ _ _ (symmetric_sides_run self h)).
  assert (Hsubmit : forall amount hh,
    out (submit_if_large quote amount (Buy market buy amount) self hh) = [] \/
    (false = false /\ exists price amount',
       out (submit_if_large quote amount (Buy market buy amount) self hh)
         = [Buy market price amount'])).
  { intros amount hh. destruct (submit_if_large_out quote amount (Buy market buy amount) self hh)
      as [-> | ->]; [left; reflexivity | right; eauto]. }
  destruct (symmetric_of self && negb only_buy).
  - destruct (amounts !! quote) as [aq |].
    + step_reader (reader_bind (py_div ab buy) (fun q => ret (py_min aq q))
                     (reader_py_div ab buy) (fun q => reader_ret (py_min aq q)));
        [apply Hsubmit | left; reflexivity].
    + step_reader (reader_py_div ab buy); [apply Hsubmit | left; reflexivity].
  - step_reader (reader_py_div ab buy); [apply Hsubmit | left; reflexivity].
Qed.

Lemma place_sell_keeps_self market quote base amounts buy sell only_sell only_buy self h :
  st (place_sell market quote base amounts buy sell only_sell only_buy self h) = self.
Proof.
  unfold place_sell.
  assert (Hsubmit : forall amount order hh,
            st (submit_if_large quote amount order self hh) = self).
  { intros amount order hh. unfold submit_if_large.
    step_reader (reader_dict_setting "minimum_amounts" quote); [| reflexivity].
    destruct (fle a amount); reflexivity. }
  destruct (amounts !! quote) as [aq |]; [| reflexivity].
  destruct only_buy; cbn [negb]; [reflexivity |].
  rewrite (bind_read _ _ _ _ _ (symmetric_sides_run self h)).
  destruct (symmetric_of self && negb only_sell); [| apply Hsubmit].
  destruct (amounts !! base) as [ab |].
  - step_reader (reader_bind (py_div ab buy) (fun q => ret (py_min aq q))
                   (reader_py_div ab buy) (fun q => reader_ret (py_min aq q)));
      [apply Hsubmit | reflexivity].
  - rewrite bind_ret. apply Hsubmit.
Qed.

Lemma place_orders_market_out market only_sell only_buy self h :
  let l := out (place_orders_market market only_sell only_buy self h) in
  l = [] \/ exists orders, l = ReturnBalances :: orders /\ one_wall market only_sell only_buy orders.
Proof.
  intros l. subst l. unfold place_orders_market.
  assert (Hnone : one_wall market only_sell only_buy []).
  { exists [], []. auto. }
  step_reader (reader_setting "target_price"); [| left; reflexivity].
  erewrite bind_run by reflexivity. unfold prepend. cbn [out]. right.
  step_reader reader_markets_setting; [| eexists; split; [reflexivity | exact Hnone]].
  step_reader (reader_collect_asset_ids a0 []);
    [| eexists; split; [reflexivity | exact Hnone]].
  match goal with |- context [compute_amounts ?b ?i ?u ?acc] =>
    step_reader (reader_compute_amounts b i u acc) end;
    [| eexists; split; [reflexivity | exact Hnone]].
  step_reader (reader_base_price market a);
    [| eexists; split; [reflexivity | exact Hnone]].
  step_reader (reader_buy_price a3); [| eexists; split; [reflexivity | exact Hnone]].
  step_reader (reader_sell_price a3); [| eexists; split; [reflexivity | exact Hnone]].
  step_reader (reader_split_market (config_market_separator dex) market);
    [| eexists; split; [reflexivity | exact Hnone]].
  eexists. split; [reflexivity |].
  rewrite bind_out, place_sell_keeps_self.
  exists (out (place_sell market (fst a6) (snd a6) a2 a4 a5 only_sell only_buy self
                 (h ++ [ReturnBalances]))).
  eexists. split; [reflexivity |].
  split; [apply place_sell_out |].
  destruct (res (place_sell _ _ _ _ _ _ _ _ _ _)); [apply place_buy_out | left; reflexivity].
Qed.

(** One call of [place_orders] for a market other than ["all"] calls nothing,
    or it fetches the balances once and then submits at most one sell order
    and at most one buy order, in this order and both in that market; it
    submits no sell order when called with [only_buy] and no buy order when
    called with [only_sell].  Called for ["all"] it passes neither flag on:
    every market gets both sides. *)
Theorem place_orders_one_wall
    (depth : nat) (market : string) (only_sell only_buy : bool)
    (self : bot) (h : list event) :
  (market <> "all" ->
   let r := place_orders depth market only_sell only_buy self h in
   (out r = [] \/
    exists orders, out r = ReturnBalances :: orders /\
                   one_wall market only_sell only_buy orders) /\
   (only_buy = true -> List.filter is_sell (out r) = []) /\
   (only_sell = true -> List.filter is_buy (out r) = [])) /\
  place_orders depth "all" only_sell only_buy self h =
    place_orders depth "all" false false self h.
Proof.
  split; [| destruct depth; reflexivity].
  intros Hall r.
  assert (Hrun : r = place_orders_market market only_sell only_buy self h)
    by (apply place_orders_one_market, Hall).
  rewrite Hrun.
  pose proof (place_orders_market_out market only_sell only_buy self h) as Hout.
  cbv zeta in Hout. split; [exact Hout |].
  destruct Hout as [-> | (orders & -> & sells & buys & -> & Hs & Hb)];
    [split; reflexivity |].
  split; intros ->; cbn [List.filter is_sell is_buy]; rewrite List.filter_app.
  - destruct Hs as [-> | [Hf _]]; [| discriminate].
    destruct Hb as [-> | (_ & p & a & ->)]; reflexivity.
  - destruct Hb as [-> | [Hf _]]; [| discriminate].
    destruct Hs as [-> | (_ & p & a & ->)]; reflexivity.
Qed.

(** * The bootstrap of the debt positions *)

Lemma assoc_set_keys {V : Type} k (v : V) d :
  map fst (assoc_set k v d) =
    if existsb (String.eqb k) (map fst d) then map fst d else map fst d ++ [k].
Proof.
  induction d as [| [k' v'] d IH]; [reflexivity |]. cbn [assoc_set map fst existsb].
  destruct (String.eqb k k'); cbn [map fst orb]; [reflexivity |].
  rewrite IH. destruct (existsb _ _); reflexivity.
Qed.

Lemma assoc_set_NoDup {V : Type} k (v : V) d :
  List.NoDup (map fst d) -> List.NoDup (map fst (assoc_set k v d)).
Proof.
  intros Hd. rewrite assoc_set_keys.
  destruct (existsb (String.eqb k) (map fst d)) eqn:Hk; [exact Hd |].
  apply List.NoDup_app; [exact Hd | repeat constructor; intros [] |].
  intros x Hin [-> | []].
  assert (existsb (String.eqb x) (map fst d) = true)
    by (apply existsb_exists; exists x; split; [exact Hin | apply String.eqb_refl]).
  congruence.
Qed.

(** The allocation has one entry per asset. *)
Lemma debt_amounts_loop_NoDup total_bts ms self h :
  forall acc amounts,
    res (debt_amounts_loop total_bts ms acc self h) = Ok amounts ->
    List.NoDup (map fst acc) -> List.NoDup (map fst amounts).
Proof.
  induction ms as [| m ms IH]; intros acc amounts.
  - cbn. intros [= <-]. auto.
  - cbn [debt_amounts_loop].
    step_reader (reader_split_market (config_market_separator dex) m); [| discriminate].
    cbv zeta.
    step_reader (reader_dict_setting "borrow_percentages" (fst a)); [| discriminate].
    rewrite (bind_read _ _ _ _ self) by reflexivity.
    destruct (ticker self !! m) as [t |]; [| discriminate].
    destruct (settlement_price t) as [price |]; [| discriminate].
    match goal with |- context [py_div ?x ?y] => step_reader (reader_py_div x y) end;
      [| discriminate].
    intros Hres Hacc. apply (IH _ _ Hres). apply assoc_set_NoDup, Hacc.
Qed.

Lemma borrow_loop_run ratio amounts self h :
  settings self !! "ratio" = Some ratio ->
  for_each amounts
    (fun sa => print (LogPlacingDebt (fst sa) (snd sa)) ;;
               ratio <- setting "ratio" ;;
               emit (Borrow (snd sa) (fst sa) ratio)) self h =
    {| res := Ok tt; st := self; out := flat_map (borrow_events ratio) amounts |}.
Proof.
  intros Hratio. revert h. induction amounts as [| sa amounts IH]; intros h; [reflexivity |].
  cbn [for_each flat_map].
  assert (Hone : forall hh,
    (print (LogPlacingDebt (fst sa) (snd sa)) ;;
     ratio <- setting "ratio" ;;
     emit (Borrow (snd sa) (fst sa) ratio)) self hh =
      {| res := Ok tt; st := self; out := borrow_events ratio sa |}).
  { intros hh. erewrite bind_run by reflexivity.
    rewrite (bind_read _ _ _ _ _ (setting_run _ _ _ _ Hratio)). reflexivity. }
  rewrite (bind_run _ _ _ _ _ _ _ (Hone h)), IH. reflexivity.
Qed.

(** The bootstrap once the debt allocation [amounts] is computed.  The
    allocation has one entry per asset.  With a configured [ratio] the method
    prints its line and then, for every allocated asset in turn, prints a
    line and issues one borrow command for the allocated amount at that
    ratio; it returns and leaves the object alone.  Without a [ratio] it
    raises [KeyError] at the first allocated asset, before any borrow
    command. *)
Theorem bootstrap_borrows_each_asset_once (self : bot) (h : list event)
    (amounts : list (string * num)) :
  res (get_debt_amounts self h) = Ok amounts ->
  List.NoDup (map fst amounts) /\
  (forall ratio,
     settings self !! "ratio" = Some ratio ->
     place_initial_debt_positions self h =
       {| res := Ok tt; st := self;
          out := Log LogNoDebt :: flat_map (borrow_events ratio) amounts |} /\
     List.filter is_borrow (out (place_initial_debt_positions self h)) =
       map (fun sa => Borrow (snd sa) (fst sa) ratio) amounts) /\
  (settings self !! "ratio" = None -> amounts <> [] ->
   res (place_initial_debt_positions self h) = Raise (KeyError "ratio") /\
   List.filter is_borrow (out (place_initial_debt_positions self h)) = []).
Proof.
  intros Hamounts.
  pose proof (reader_run _ _ _ h _ reader_get_debt_amounts Hamounts) as Hrun.
  split; [| split].
  - revert Hamounts. unfold get_debt_amounts.
    rewrite (bind_read _ _ _ _ self) by reflexivity.
    step_reader (reader_get_total_bts (Some (debt_positions self))); [| discriminate].
    step_reader reader_markets_setting; [| discriminate].
    intros Hres. apply (debt_amounts_loop_NoDup _ _ _ _ _ _ Hres). constructor.
  - intros ratio Hratio.
    assert (Hplace : place_initial_debt_positions self h =
              {| res := Ok tt; st := self;
                 out := Log LogNoDebt :: flat_map (borrow_events ratio) amounts |}).
    { unfold place_initial_debt_positions. rewrite (bind_read _ _ _ _ _ Hrun).
      erewrite bind_run by reflexivity.
      rewrite (borrow_loop_run ratio amounts self _ Hratio). reflexivity. }
    split; [exact Hplace |]. rewrite Hplace. cbn [out List.filter is_borrow].
    clear. induction amounts as [| sa amounts IH]; [reflexivity |].
    cbn. rewrite IH. reflexivity.
  - intros Hnone Hne. destruct amounts as [| sa amounts]; [contradiction |].
    unfold place_initial_debt_positions. rewrite (bind_read _ _ _ _ _ Hrun).
    erewrite bind_run by reflexivity. cbn [for_each].
    assert (Hone : forall hh,
      (print (LogPlacingDebt (fst sa) (snd sa)) ;;
       ratio <- setting "ratio" ;;
       emit (Borrow (snd sa) (fst sa) ratio)) self hh =
        {| res := Raise (KeyError "ratio"); st := self;
           out := [Log (LogPlacingDebt (fst sa) (snd sa))] |}).
    { intros hh. erewrite bind_run by reflexivity.
      unfold bind, setting. rewrite Hnone. reflexivity. }
    rewrite (bind_run_raise _ _ _ _ _ _ _ (Hone _)). split; reflexivity.
Qed.

(** * Market names *)

Lemma py_split_aux_nonempty sep k s : py_split_aux sep k s <> [].
Proof.
  revert k. induction s as [| a s IH]; intros k; [discriminate |].
  cbn [py_split_aux]. destruct k as [| k]; [| apply IH].
  destruct (String.prefix sep (String a s)); [discriminate |].
  destruct (py_split_aux sep 0 s); discriminate.
Qed.

Lemma py_join_cons sep p ps :
  ps <> [] -> py_join sep (p :: ps) = String.append p (String.append sep (py_join sep ps)).
Proof. destruct ps; [contradiction | reflexivity]. Qed.

Lemma py_join_cons_char sep a p ps :
  py_join sep (String a p :: ps) = String a (py_join sep (p :: ps)).
Proof. destruct ps; reflexivity. Qed.

Lemma append_cons a s t : String.append (String a s) t = String a (String.append s t).
Proof. reflexivity. Qed.

Lemma append_empty t : String.append EmptyString t = t.
Proof. reflexivity. Qed.

Lemma prefix_drop sep s :
  String.prefix sep s = true ->
  String.append sep (drop_chars (String.length sep) s) = s.
Proof.
  revert s. induction sep as [| a sep IH]; intros s; [reflexivity |].
  destruct s as [| b s]; [discriminate |]. cbn [String.prefix].
  destruct (Ascii.ascii_dec a b) as [<- |]; [| discriminate].
  intros Hp. cbn [String.length drop_chars]. rewrite append_cons. f_equal. apply IH, Hp.
Qed.

(** Joining the parts of a split gives the string back. *)
Lemma py_join_split_aux sep k s :
  sep <> EmptyString ->
  py_join sep (py_split_aux sep k s) = drop_chars k s.
Proof.
  intros Hsep. revert k. induction s as [| a s IH]; intros k.
  - destruct k; reflexivity.
  - cbn [py_split_aux]. destruct k as [| k]; [| apply IH].
    cbn [drop_chars].
    destruct (String.prefix sep (String a s)) eqn:Hp.
    + rewrite py_join_cons by apply py_split_aux_nonempty.
      rewrite IH, append_empty.
      destruct sep as [| c sep]; [contradiction |].
      pose proof (prefix_drop _ _ Hp) as Hd. cbn [String.length drop_chars] in Hd.
      replace (String.length (String c sep) - 1)%nat with (String.length sep)
        by (cbn [String.length]; lia).
      exact Hd.
    + pose proof (IH O) as IH0. cbn [drop_chars] in IH0.
      destruct (py_split_aux sep 0 s) as [| p ps] eqn:Hs;
        [exfalso; exact (py_split_aux_nonempty _ _ _ Hs) |].
      rewrite py_join_cons_char, IH0. destruct s; reflexivity.
Qed.

Lemma py_split_char c s :
  py_split (String c EmptyString) s =
    match s with
    | EmptyString => [EmptyString]
    | String a s' =>
        if Ascii.eqb a c then EmptyString :: py_split (String c EmptyString) s'
        else match py_split (String c EmptyString) s' with
             | p :: ps => String a p :: ps
             | [] => [String a EmptyString]
             end
    end.
Proof.
  destruct s as [| a s']; [reflexivity |].
  unfold py_split. cbn [py_split_aux String.prefix String.length Nat.sub].
  destruct (Ascii.ascii_dec c a) as [<- | Hne].
  - rewrite Ascii.eqb_refl. destruct s'; reflexivity.
  - assert (Ascii.eqb a c = false) as -> by (apply Ascii.eqb_neq; congruence).
    reflexivity.
Qed.

Lemma py_split_char_length c s :
  List.length (py_split (String c EmptyString) s) = S (count_char c s).
Proof.
  induction s as [| a s IH]; [reflexivity |].
  rewrite py_split_char. cbn [count_char].
  destruct (Ascii.eqb a c); cbn [List.length]; [rewrite IH; reflexivity |].
  destruct (py_split (String c EmptyString) s) as [| p ps]; [discriminate |].
  cbn [List.length] in *. cbn. exact IH.
Qed.

Lemma py_split_char_free c s :
  count_char c s = O -> py_split (String c EmptyString) s = [s].
Proof.
  induction s as [| a s IH]; [reflexivity |].
  rewrite py_split_char. cbn [count_char].
  destruct (Ascii.eqb a c); [discriminate |]. cbn. intros Hs. rewrite IH by exact Hs.
  reflexivity.
Qed.

Lemma py_split_char_join c q b :
  count_char c q = O -> count_char c b = O ->
  py_split (String c EmptyString) (String.append q (String c b)) = [q; b].
Proof.
  intros Hq Hb. induction q as [| a q IH].
  - rewrite append_empty, py_split_char, Ascii.eqb_refl.
    rewrite py_split_char_free by exact Hb. reflexivity.
  - rewrite append_cons, py_split_char. cbn [count_char] in Hq.
    destruct (Ascii.eqb a c); [discriminate |]. rewrite IH by exact Hq. reflexivity.
Qed.

(** [quote, base = market.split(separator)].  When the unpacking succeeds,
    the market name is [quote + separator + base].  For a separator of one
    character it succeeds exactly for the names that hold the separator
    once: a name built from two parts free of the separator splits back into
    them, and a name in which the separator does not occur exactly once
    raises [ValueError].  An empty separator raises [ValueError]. *)
Theorem split_market_round_trip (sep market : string) (self : bot) (h : list event) :
  (forall quote base,
     res (split_market sep market self h) = Ok (quote, base) ->
     market = String.append quote (String.append sep base)) /\
  (forall c quote base,
     sep = String c EmptyString ->
     count_char c quote = O -> count_char c base = O ->
     split_market sep (String.append quote (String.append sep base)) self h =
       {| res := Ok (quote, base); st := self; out := [] |}) /\
  (forall c,
     sep = String c EmptyString ->
     count_char c market <> 1%nat ->
     split_market sep market self h = {| res := Raise ValueError; st := self; out := [] |}) /\
  (sep = EmptyString ->
   split_market sep market self h = {| res := Raise ValueError; st := self; out := [] |}).
Proof.
  split; [| split; [| split]].
  - intros quote base. unfold split_market.
    destruct (String.eqb_spec sep "") as [-> | Hsep]; [discriminate |].
    pose proof (py_join_split_aux sep 0 market Hsep) as Hjoin. fold (py_split sep market) in Hjoin.
    destruct (py_split sep market) as [| q [| b [| x l]]]; try discriminate.
    intros [= <- <-]. cbn [py_join drop_chars] in Hjoin. symmetry. exact Hjoin.
  - intros c quote base -> Hq Hb. unfold split_market. cbn [String.eqb].
    rewrite append_cons, append_empty.
    rewrite (py_split_char_join c quote base Hq Hb). reflexivity.
  - intros c -> Hcount. unfold split_market. cbn [String.eqb].
    pose proof (py_split_char_length c market) as Hlen.
    destruct (py_split (String c EmptyString) market) as [| q [| b [| x l]]];
      try reflexivity.
    cbn in Hlen. exfalso. apply Hcount. congruence.
  - intros ->. reflexivity.
Qed.

(** * The base price from the feed *)

Lemma reader_run_raise {A : Type} (m : M A) self h h' e :
  reader m -> res (m self h) = Raise e ->
  m self h' = {| res := Raise e; st := self; out := [] |}.
Proof.
  intros Hm Hres. destruct (Hm self) as [r Hr]. rewrite Hr in Hres. simpl in Hres.
  subst r. apply Hr.
Qed.

Lemma place_orders_market_no_price market only_sell only_buy self h tp e :
  settings self !! "target_price" = Some tp ->
  res (base_price market tp self h) = Raise e ->
  let r := place_orders_market market only_sell only_buy self h in
  (exists e', res r = Raise e') /\ out r = [ReturnBalances].
Proof.
  intros Htp Hbase r. subst r. unfold place_orders_market.
  rewrite (bind_read _ _ _ _ _ (setting_run _ _ _ _ Htp)).
  erewrite bind_run by reflexivity. unfold prepend. cbn [res out].
  step_reader reader_markets_setting; [| split; [eexists |]; reflexivity].
  step_reader (reader_collect_asset_ids a []); [| split; [eexists |]; reflexivity].
  match goal with |- context [compute_amounts ?b ?i ?u ?acc] =>
    step_reader (reader_compute_amounts b i u acc) end;
    [| split; [eexists |]; reflexivity].
  rewrite (bind_run_raise _ _ _ _ _ _ _
             (reader_run_raise _ _ _ (h ++ [ReturnBalances]) _
                (reader_base_price market tp) Hbase)).
  split; [eexists |]; reflexivity.
Qed.

(** The base price for a target price that names the feed, that is, for
    the interned string ["settlement_price"], ["feed"] or ["price_feed"]: it
    is the market's settlement price times [1 + offset/100].  A market whose
    ticker entry has no settlement price raises the exception of line 186,
    and a market without a ticker entry raises [KeyError].  A target price
    that is neither a number nor one of these three objects - another string
    of the same spelling included, since lines 180-182 compare by identity -
    leaves [base_price] unbound, and line 188 raises [UnboundLocalError].
    Whenever the base price of a market cannot be computed, [place_orders]
    for that market raises after it has fetched the balances, and submits no
    order. *)
Theorem base_price_from_feed (market token : string) (self : bot) (h : list event) :
  names_feed token ->
  (forall t p v off,
     ticker self !! market = Some t -> settlement_price t = Some p ->
     settings self !! "target_price_offset_percentage" = Some v -> num_of v = Some off ->
     res (base_price market (VStr token) self h) =
       Ok (fmul p (fadd (of_Z 1) (fdiv off (of_Z 100))))) /\
  (forall t,
     ticker self !! market = Some t -> settlement_price t = None ->
     res (base_price market (VStr token) self h) = Raise (no_settlement_price market)) /\
  (ticker self !! market = None ->
   res (base_price market (VStr token) self h) = Raise (KeyError market)) /\
  (forall tp,
     unusable_target tp ->
     res (base_price market tp self h) = Raise (UnboundLocalError "base_price")) /\
  (forall depth only_sell only_buy tp e,
     market <> "all" ->
     settings self !! "target_price" = Some tp ->
     res (base_price market tp self h) = Raise e ->
     let r := place_orders depth market only_sell only_buy self h in
     (exists e', res r = Raise e') /\ out r = [ReturnBalances]).
Proof.
  intros Htoken.
  assert (Hrec : (String.eqb token "settlement_price" || String.eqb token "feed"
                  || String.eqb token "price_feed") = true)
    by (destruct Htoken as [-> | [-> | ->]]; reflexivity).
  assert (Hfeed : base_price market (VStr token) self h =
            (self' <- get_self ;;
             match ticker self' !! market with
             | None => raise (KeyError market)
             | Some t =>
                 match settlement_price t with
                 | Some p => with_offset p
                 | None => raise (no_settlement_price market)
                 end
             end) self h).
  { unfold base_price. rewrite Hrec. reflexivity. }
  split; [| split; [| split; [| split]]].
  - intros t p v off Ht Hp Hv Hoff. rewrite Hfeed.
    rewrite (bind_read _ _ _ _ self) by reflexivity. rewrite Ht, Hp.
    unfold with_offset. rewrite (bind_read _ _ _ _ _ (num_setting_run _ _ _ _ _ Hv Hoff)).
    reflexivity.
  - intros t Ht Hp. rewrite Hfeed.
    rewrite (bind_read _ _ _ _ self) by reflexivity. rewrite Ht, Hp. reflexivity.
  - intros Ht. rewrite Hfeed.
    rewrite (bind_read _ _ _ _ self) by reflexivity. rewrite Ht. reflexivity.
  - intros tp Htp. unfold base_price. destruct tp as [| b | z | x | s | s | l | d];
      try reflexivity; try contradiction.
    destruct Htp as (H1 & H2 & H3).
    apply String.eqb_neq in H1, H2, H3. rewrite H1, H2, H3. reflexivity.
  - intros depth only_sell only_buy tp e Hall Htp Hbase r. subst r.
    rewrite place_orders_one_market by exact Hall.
    apply (place_orders_market_no_price _ _ _ _ _ tp e Htp Hbase).
Qed.

(** * Settings that are not consulted *)

Lemma alike_refl s : alike s s.
Proof. repeat split. Qed.

Lemma blind_ret {A : Type} (a : A) : blind (ret a).
Proof. intros s1 s2 h Ha. auto. Qed.

Lemma blind_raise {A : Type} (e : exn) : blind (raise (A := A) e).
Proof. intros s1 s2 h Ha. auto. Qed.

Lemma blind_emit (e : event) : blind (emit e).
Proof. intros s1 s2 h Ha. auto. Qed.

Lemma blind_print (l : log) : blind (print l).
Proof. apply blind_emit. Qed.

Lemma blind_query {A : Type} (e : event) (f : list event -> A) : blind (query e f).
Proof. intros s1 s2 h Ha. auto. Qed.

Lemma blind_history : blind history.
Proof. intros s1 s2 h Ha. auto. Qed.

Lemma blind_bind {A B : Type} (m : M A) (k : A -> M B) :
  blind m -> (forall a, blind (k a)) -> blind (bind m k).
Proof.
  intros Hm Hk s1 s2 h Ha. destruct (Hm s1 s2 h Ha) as (Hres & Hout & Hst).
  rewrite !bind_res, !bind_out, !bind_st, <- Hres, <- Hout.
  destruct (res (m s1 h)) as [a | e]; [| auto].
  destruct (Hk a _ _ (h ++ out (m s1 h)) Hst) as (Hres' & Hout' & Hst').
  rewrite Hres', Hout'. auto.
Qed.

(** [self.attribute] is read through [get_self]; what follows may depend on
    every attribute but the settings, which it reads through [setting]. *)
Lemma blind_get_self {B : Type} (k : bot -> M B) :
  (forall s1 s2, alike s1 s2 -> alike_runs (k s1) (k s2)) -> blind (bind get_self k).
Proof.
  intros Hk s1 s2 h Ha.
  rewrite (bind_read get_self k s1 h s1), (bind_read get_self k s2 h s2) by reflexivity.
  apply Hk; exact Ha.
Qed.

Lemma blind_setting (k : string) : unread_setting k = false -> blind (setting k).
Proof.
  intros Hk s1 s2 h Ha. unfold setting. destruct Ha as (Hs & Hrest).
  rewrite (Hs k Hk). destruct (settings s2 !! k); repeat split; auto; apply Hrest.
Qed.

Lemma blind_assign (f : bot -> bot) :
  (forall s1 s2, alike s1 s2 -> alike (f s1) (f s2)) -> blind (assign f).
Proof. intros Hf s1 s2 h Ha. cbn. auto. Qed.

Lemma blind_for_each {A : Type} (l : list A) (body : A -> M unit) :
  (forall x, blind (body x)) -> blind (for_each l body).
Proof.
  intros Hb. induction l as [| x l IH]; cbn [for_each]; [apply blind_ret |].
  apply blind_bind; auto.
Qed.

Lemma blind_as_num (v : pyval) : blind (as_num v).
Proof.
  unfold as_num. destruct (num_of v); [apply blind_ret |].
  destruct v; apply blind_raise.
Qed.

Lemma blind_split_market (sep market : string) : blind (split_market sep market).
Proof.
  unfold split_market. destruct (String.eqb sep ""); [apply blind_raise |].
  destruct (py_split sep market) as [| q [| b [| c l]]];
    try apply blind_raise; apply blind_ret.
Qed.

Lemma blind_py_div (x y : num) : blind (py_div x y).
Proof. unfold py_div. destruct (feq y (of_Z 0)); [apply blind_raise | apply blind_ret]. Qed.

Lemma blind_symmetric_sides : blind symmetric_sides.
Proof.
  intros s1 s2 h Ha. unfold symmetric_sides. cbn [res st out].
  destruct Ha as (Hs & Hrest). rewrite (Hs "symmetric_sides" eq_refl).
  repeat split; auto; apply Hrest.
Qed.

Lemma blind_py_mod (n : Z) (v : pyval) : blind (py_mod n v).
Proof.
  unfold py_mod. destruct v as [| [] | z | | | | |]; try destruct (z =? 0);
    first [apply blind_raise | apply blind_ret].
Qed.

Create HintDb blind.

#[local] Hint Resolve blind_ret blind_raise blind_emit blind_print blind_query
  blind_history blind_as_num blind_split_market blind_py_div blind_symmetric_sides
  blind_py_mod : blind.

#[local] Hint Extern 1 (blind (setting _)) => (apply blind_setting; reflexivity) : blind.

(** Blind methods are closed under sequencing, case analysis and reading
    the attributes other than the settings. *)
Ltac blind_step :=
  match goal with
  | |- blind (bind get_self _) =>
      let s1 := fresh "s" in
      let s2 := fresh "s" in
      let Hc := fresh "Hc" in
      let Ht := fresh "Ht" in
      let Ho := fresh "Ho" in
      let Hd := fresh "Hd" in
      let Hb := fresh "Hb" in
      apply blind_get_self; intros s1 s2 (_ & Hc & Ht & Ho & Hd & Hb);
      rewrite ?Hc, ?Ht, ?Ho, ?Hd, ?Hb;
      match goal with |- alike_runs ?m ?m => change (blind m) end
  | |- blind (bind _ _) => apply blind_bind; [| intros ?]
  | |- blind (match ?x with _ => _ end) => destruct x
  | |- blind (if ?b then _ else _) => destruct b
  | |- blind (let _ := _ in _) => cbv zeta
  | |- blind _ => solve [auto with blind]
  end.

Ltac blind_tac := repeat blind_step.

Lemma blind_num_setting (k : string) : unread_setting k = false -> blind (num_setting k).
Proof. intros Hk. unfold num_setting. apply blind_bind; [apply blind_setting, Hk | auto with blind]. Qed.

Lemma blind_dict_setting (k key : string) :
  unread_setting k = false -> blind (dict_setting k key).
Proof.
  intros Hk. unfold dict_setting. apply blind_bind; [apply blind_setting, Hk |].
  intros v. blind_tac.
Qed.

Lemma blind_markets_setting : blind markets_setting.
Proof. unfold markets_setting. blind_tac. Qed.

#[local] Hint Extern 1 (blind (num_setting _)) => (apply blind_num_setting; reflexivity) : blind.
#[local] Hint Extern 1 (blind (dict_setting _ _)) => (apply blind_dict_setting; reflexivity) : blind.
#[local] Hint Resolve blind_markets_setting : blind.

Lemma blind_update_data : blind update_data.
Proof.
  unfold update_data.
  repeat (apply blind_bind; [first [apply blind_query | idtac] | intros ?]);
    try apply blind_query;
    apply blind_assign; intros s1 s2 (Hs & Hc & Ht & Ho & Hd & Hb);
    repeat split; cbn; auto.
Qed.

Lemma blind_get_total_bts (c : option (list (string * debt_position))) :
  blind (get_total_bts c).
Proof. unfold get_total_bts. blind_tac. Qed.

Lemma blind_debt_amounts_loop (total_bts : num) (markets : list string)
    (acc : list (string * num)) : blind (debt_amounts_loop total_bts markets acc).
Proof.
  revert acc. induction markets as [| m markets IH]; intros acc; cbn [debt_amounts_loop].
  - apply blind_ret.
  - blind_tac; try apply IH.
Qed.

#[local] Hint Resolve blind_update_data blind_get_total_bts blind_debt_amounts_loop : blind.

Lemma blind_get_debt_amounts : blind get_debt_amounts.
Proof. unfold get_debt_amounts. blind_tac. Qed.

#[local] Hint Resolve blind_get_debt_amounts : blind.

Lemma blind_place_initial_debt_positions : blind place_initial_debt_positions.
Proof.
  unfold place_initial_debt_positions. blind_tac.
  apply blind_for_each. intros sa. blind_tac.
Qed.

Lemma blind_collect_asset_ids (markets acc : list string) :
  blind (collect_asset_ids markets acc).
Proof.
  revert acc. induction markets as [| m markets IH]; intros acc; cbn [collect_asset_ids].
  - apply blind_ret.
  - blind_tac; try apply IH.
Qed.

Lemma blind_compute_amounts (bal : gmap string num) (ids uniq : list string)
    (acc : gmap string num) : blind (compute_amounts bal ids uniq acc).
Proof.
  revert acc. induction uniq as [| a rest IH]; intros acc; cbn [compute_amounts].
  - apply blind_ret.
  - destruct (bal !! a); [| apply IH]. blind_tac; try apply IH.
Qed.

Lemma blind_with_offset (price : num) : blind (with_offset price).
Proof. unfold with_offset. blind_tac. Qed.

#[local] Hint Resolve blind_place_initial_debt_positions blind_collect_asset_ids
  blind_compute_amounts blind_with_offset : blind.

Lemma blind_base_price (market : string) (target_price : pyval) :
  blind (base_price market target_price).
Proof. unfold base_price. blind_tac. Qed.

Lemma blind_buy_price (b : num) : blind (buy_price b).
Proof. unfold buy_price. blind_tac. Qed.

Lemma blind_sell_price (b : num) : blind (sell_price b).
Proof. unfold sell_price. blind_tac. Qed.

Lemma blind_submit_if_large (quote : string) (amount : num) (order : event) :
  blind (submit_if_large quote amount order).
Proof. unfold submit_if_large. blind_tac. Qed.

#[local] Hint Resolve blind_base_price blind_buy_price blind_sell_price
  blind_submit_if_large : blind.

Lemma blind_place_sell market quote base amounts buy sell only_sell only_buy :
  blind (place_sell market quote base amounts buy sell only_sell only_buy).
Proof. unfold place_sell. blind_tac. Qed.

Lemma blind_place_buy market quote base amounts buy only_sell only_buy :
  blind (place_buy market quote base amounts buy only_sell only_buy).
Proof. unfold place_buy. blind_tac. Qed.

#[local] Hint Resolve blind_place_sell blind_place_buy : blind.

Lemma blind_place_orders_market market only_sell only_buy :
  blind (place_orders_market market only_sell only_buy).
Proof. unfold place_orders_market. blind_tac. Qed.

Lemma blind_place_orders depth market only_sell only_buy :
  blind (place_orders depth market only_sell only_buy).
Proof.
  revert market only_sell only_buy.
  induction depth as [| d IH]; intros market only_sell only_buy; cbn [place_orders];
    destruct (negb (String.eqb market "all"));
    auto using blind_place_orders_market, blind_raise.
  apply blind_bind; [apply blind_markets_setting | intros markets].
  apply blind_for_each. intros m. apply IH.
Qed.

Lemma blind_cancel_one (o : order) : blind (cancel_one o).
Proof. unfold cancel_one. blind_tac. Qed.

Lemma blind_cancel_orders depth market : blind (cancel_orders depth market).
Proof.
  assert (Hm : forall m, blind (cancel_orders_market m)).
  { intros m. unfold cancel_orders_market. blind_tac.
    apply blind_for_each, blind_cancel_one. }
  revert market. induction depth as [| d IH]; intros market; cbn [cancel_orders];
    (apply blind_bind; [apply blind_print | intros _]);
    destruct (negb (String.eqb market "all")); auto using blind_raise.
  apply blind_bind; [apply blind_markets_setting | intros markets].
  apply blind_for_each. exact IH.
Qed.

#[local] Hint Resolve blind_place_orders blind_cancel_orders : blind.

Lemma blind_order_feed_spread market o : blind (order_feed_spread market o).
Proof. unfold order_feed_spread. blind_tac. Qed.

Lemma blind_must_replace spread : blind (must_replace spread).
Proof. unfold must_replace. blind_tac. Qed.

Lemma blind_replace_now market : blind (replace_now market).
Proof. unfold replace_now. blind_tac. Qed.

#[local] Hint Resolve blind_order_feed_spread blind_must_replace blind_replace_now : blind.

Lemma blind_replace_loop market os : blind (replace_loop market os).
Proof.
  induction os as [| o os IH]; cbn [replace_loop]; [apply blind_ret |].
  blind_tac; try exact IH.
Qed.

#[local] Hint Resolve blind_replace_loop : blind.

Lemma blind_reconcile_orders market : blind (reconcile_orders market).
Proof.
  unfold reconcile_orders. blind_tac.
Qed.

Lemma blind_borrow_missing market : blind (borrow_missing market).
Proof. unfold borrow_missing. blind_tac. Qed.

#[local] Hint Resolve blind_reconcile_orders blind_borrow_missing : blind.

Lemma blind_check_and_replace market : blind (check_and_replace market).
Proof. unfold check_and_replace. blind_tac. Qed.

#[local] Hint Resolve blind_check_and_replace : blind.

Lemma blind_tick_work : blind tick_work.
Proof.
  unfold tick_work. blind_tac.
  apply blind_for_each. intros market. blind_tac.
Qed.

#[local] Hint Resolve blind_tick_work : blind.

Lemma blind_tick : blind tick.
Proof.
  unfold tick. apply blind_bind.
  - apply blind_assign. intros s1 s2 (Hs & Hc & Ht & Ho & Hd & Hb).
    repeat split; cbn; auto. rewrite Hc. reflexivity.
  - intros _. blind_tac.
Qed.

Lemma blind_default_setting k v : blind (default_setting k v).
Proof.
  intros s1 s2 h Ha. rewrite !default_setting_run. cbn [res st out].
  split; [reflexivity |]. split; [reflexivity |].
  destruct Ha as (Hs & Hc & Ht & Ho & Hd & Hb).
  repeat split; cbn [settings block_counter ticker open_orders debt_positions balances
                     set_settings]; auto.
  intros k' Hk'. rewrite !lookup_fill, (Hs k' Hk'). reflexivity.
Qed.

Lemma blind_require_setting k : unread_setting k = false -> blind (require_setting k).
Proof.
  intros Hk s1 s2 h Ha. rewrite !require_setting_run. cbn [res st out].
  destruct Ha as (Hs & Hrest). rewrite (Hs k Hk).
  repeat split; auto; apply Hrest.
Qed.

Lemma blind_init_settings : blind init_settings.
Proof.
  unfold init_settings.
  repeat (apply blind_bind; [| intros _]);
    first [apply blind_default_setting | apply blind_require_setting; reflexivity].
Qed.

Lemma blind_verify_market market : blind (verify_market market).
Proof. unfold verify_market. blind_tac. Qed.

Lemma blind_init : blind init.
Proof.
  unfold init, init_checks.
  apply blind_bind; [| intros _].
  - apply blind_bind; [apply blind_init_settings | intros _].
    apply blind_bind; [apply blind_markets_setting | intros markets].
    apply blind_for_each, blind_verify_market.
  - apply blind_bind; [apply blind_update_data | intros _].
    blind_tac. apply blind_tick.
Qed.

(** The class documents the settings [only_buy], [only_sell] and
    [expiration]; no method of the module consults them ([init] only fills
    in a default for [expiration]).  Objects that differ at most in these
    three settings - for example by setting one of them to any value - make
    the same calls with the same arguments, print the same lines and return
    or raise the same in [tick], [init], [check_and_replace] and
    [place_orders]. *)
Theorem documented_settings_not_consulted (s1 s2 : bot) (h : list event) :
  alike s1 s2 ->
  (res (tick s1 h) = res (tick s2 h) /\ out (tick s1 h) = out (tick s2 h)) /\
  (res (init s1 h) = res (init s2 h) /\ out (init s1 h) = out (init s2 h)) /\
  (forall market,
     res (check_and_replace market s1 h) = res (check_and_replace market s2 h) /\
     out (check_and_replace market s1 h) = out (check_and_replace market s2 h)) /\
  (forall depth market only_sell only_buy,
     res (place_orders depth market only_sell only_buy s1 h) =
       res (place_orders depth market only_sell only_buy s2 h) /\
     out (place_orders depth market only_sell only_buy s1 h) =
       out (place_orders depth market only_sell only_buy s2 h)) /\
  (forall k v, unread_setting k = true ->
     alike (set_settings (<[k := v]> (settings s1)) s1) s1 /\
     alike (set_settings (delete k (settings s1)) s1) s1).
Proof.
  intros Ha. split; [| split; [| split; [| split]]].
  - destruct (blind_tick s1 s2 h Ha) as (Hres & Hout & _). auto.
  - destruct (blind_init s1 s2 h Ha) as (Hres & Hout & _). auto.
  - intros market. destruct (blind_check_and_replace market s1 s2 h Ha) as (Hres & Hout & _).
    auto.
  - intros depth market only_sell only_buy.
    destruct (blind_place_orders depth market only_sell only_buy s1 s2 h Ha)
      as (Hres & Hout & _).
    auto.
  - intros k v Hk. split; repeat split; cbn [settings set_settings]; intros k' Hk'.
    + apply lookup_insert_ne. intros ->. congruence.
    + apply lookup_delete_ne. intros ->. congruence.
Qed.

Lemma cancel_orders_unlisted depth market self h :
  market <> "all" ->
  assoc_lookup market (open_orders self) = None ->
  cancel_orders depth market self h =
    {| res := Raise (KeyError market); st := self; out := [Log (LogCancelling market)] |}.
Proof.
  intros Hall%String.eqb_neq Hos.
  assert (Hm : cancel_orders_market market self (h ++ [Log (LogCancelling market)]) =
               {| res := Raise (KeyError market); st := self; out := [] |}).
  { unfold cancel_orders_market. rewrite (bind_read _ _ _ _ self) by reflexivity.
    rewrite Hos. reflexivity. }
  destruct depth; cbn [cancel_orders]; (erewrite bind_run by reflexivity);
    rewrite Hall; cbn [negb]; rewrite Hm; reflexivity.
Qed.

(** The loop of lines 228-229. *)
Lemma cancel_markets_run depth ms self h :
  Forall (fun m => m <> "all") ms ->
  let r := for_each ms (cancel_orders depth) self h in
  List.filter is_cancel (out r) =
    flat_map (fun m => map cancel_of (orders_of self m)) (listed_markets self ms) /\
  res r = match first_unlisted self ms with
          | Some m => Raise (KeyError m)
          | None => Ok tt
          end /\
  st r = self /\
  Forall cancel_event (out r).
Proof.
  intros Hms. revert h. induction Hms as [| m ms Hm _ IH]; intros h.
  - cbn. repeat split. constructor.
  - cbn [for_each listed_markets first_unlisted].
    destruct (assoc_lookup m (open_orders self)) as [os |] eqn:Hos.
    + destruct (cancel_orders_run depth m os self h Hm Hos) as (cancels & Hrun & _ & Hc).
      pose proof (cancel_orders_cancels depth m os self h Hm Hos) as Hfilter.
      rewrite Hrun in Hfilter. cbn [out] in Hfilter.
      rewrite (bind_run _ _ _ _ _ _ _ Hrun). unfold prepend. cbn [res st out flat_map].
      destruct (IH (h ++ cancels)) as (IHf & IHr & IHs & IHc).
      rewrite List.filter_app, Hfilter, IHf.
      replace (orders_of self m) with os by (unfold orders_of; rewrite Hos; reflexivity).
      repeat split; auto. apply Forall_app. split; assumption.
    + rewrite (bind_run_raise _ _ _ _ _ _ _ (cancel_orders_unlisted depth m self h Hm Hos)).
      cbn. repeat split. repeat constructor.
Qed.

(** [cancel_orders()] for all markets (lines 217 and 227-229).  With the
    markets configured as a list, none of them named ['all'], the call goes
    through the markets in their order and cancels every open order the
    snapshot lists for each, failed cancels included in the attempts.  It
    catches no [KeyError]: at the first configured market that is no key of
    [self.open_orders] it raises [KeyError] for it, and the orders of the
    markets after it are not cancelled.  It issues nothing but cancels and
    printed lines and leaves the object as it is. *)
Theorem cancel_orders_all_markets (depth : nat) (self : bot) (h : list event) (ms : list string) :
  settings self !! "markets" = Some (VList ms) ->
  Forall (fun m => m <> "all") ms ->
  let r := cancel_orders (S depth) "all" self h in
  List.filter is_cancel (out r) =
    flat_map (fun m => map cancel_of (orders_of self m)) (listed_markets self ms) /\
  res r = match first_unlisted self ms with
          | Some m => Raise (KeyError m)
          | None => Ok tt
          end /\
  st r = self /\
  Forall cancel_event (out r).
Proof.
  intros Hset Hms r.
  assert (Hrun : r = prepend [Log (LogCancelling "all")]
                       (for_each ms (cancel_orders depth) self (h ++ [Log (LogCancelling "all")]))).
  { subst r. cbn [cancel_orders]. erewrite bind_run by reflexivity.
    cbn [String.eqb Ascii.eqb Bool.eqb negb].
    rewrite (bind_read _ _ _ _ _ (markets_setting_run ms self _ Hset)). reflexivity. }
  destruct (cancel_markets_run depth ms self (h ++ [Log (LogCancelling "all")]) Hms)
    as (Hf & Hr & Hs & Hc).
  rewrite Hrun. unfold prepend. cbn [res st out app List.filter is_cancel].
  repeat split; auto. constructor; [exact I | exact Hc].
Qed.

(** * The claims on orders, prices and the scheduler *)

(** [place_orders] for one market on a complete configuration. *)
Lemma place_orders_walls depth market quote base only_sell only_buy self h
    ms vp sp bp bq bb minimum :
  ready_to_place self h market quote base ms vp sp bp bq bb minimum ->
  feq (buy_price_of bp sp) (of_Z 0) = false ->
  place_orders depth market only_sell only_buy self h =
    {| res := Ok tt; st := self;
       out := ReturnBalances ::
              walls self market quote base ms vp sp bp bq bb minimum only_sell only_buy |}.
Proof.
  intros Hready Hbuy.
  rewrite place_orders_one_market by apply Hready.
  exact (place_orders_market_run market quote base only_sell only_buy self h
           ms vp sp bp bq bb minimum Hready Hbuy).
Qed.

(** The sizes of the orders of [walls]: the allocation of the quote asset,
    or the allocation of the base asset divided by the buy price. *)
Lemma walls_sizes self market quote base ms vp sp bp bq bb minimum only_sell only_buy e :
  In e (walls self market quote base ms vp sp bp bq bb minimum only_sell only_buy) ->
  let aq := allocation vp bq (count_string quote (market_assets ms)) in
  let ab := allocation vp bb (count_string base (market_assets ms)) in
  exists amount,
    (e = Sell market (sell_price_of bp sp) amount \/
     e = Buy market (buy_price_of bp sp) amount) /\
    (amount = aq \/ amount = fdiv ab (buy_price_of bp sp)) /\
    fle minimum amount = true.
Proof.
  intros Hin aq ab. unfold walls in Hin. fold aq ab in Hin.
  assert (Hboth : py_min aq (fdiv ab (buy_price_of bp sp)) = aq \/
                  py_min aq (fdiv ab (buy_price_of bp sp)) = fdiv ab (buy_price_of bp sp))
    by (unfold py_min; destruct (flt _ _); auto).
  apply in_app_or in Hin. destruct Hin as [Hin | Hin].
  - destruct (negb only_buy && fle minimum _) eqn:Hgate; [| destruct Hin].
    apply andb_prop in Hgate as [_ Hle]. destruct Hin as [<- | []].
    eexists. split; [left; reflexivity |]. split; [| exact Hle].
    destruct (symmetric_of self && negb only_sell); [exact Hboth | left; reflexivity].
  - destruct (negb only_sell && fle minimum _) eqn:Hgate; [| destruct Hin].
    apply andb_prop in Hgate as [_ Hle]. destruct Hin as [<- | []].
    eexists. split; [right; reflexivity |]. split; [| exact Hle].
    destruct (symmetric_of self && negb only_buy); [exact Hboth | right; reflexivity].
Qed.

(** ** Two-sided markets *)


(** ** Markets with no order or one order *)


(** ** The size gate *)

(** C7 (as amended).  Every order that [place_orders] submits, on the sell
    side as on the buy side, has passed the size gate of its market: the
    market splits into quote and base, [minimum_amounts[quote]] exists, and
    the comparison [amount >= minimum_amounts[quote]] held.  The minimum is
    the quote asset's for both sides, and so is the size: on a complete
    configuration the size of every order, sell or buy, is the allocation of
    the quote asset or the allocation of the base asset divided by the buy
    price, a quantity of the quote asset. *)
Theorem place_orders_minimum_size_gate
    (depth : nat) (market : string) (only_sell only_buy : bool)
    (self : bot) (h : list event) :
  let r := place_orders depth market only_sell only_buy self h in
  Forall (gated self) (out r) /\
  (forall quote base ms vp sp bp bq bb minimum,
     ready_to_place self h market quote base ms vp sp bp bq bb minimum ->
     feq (buy_price_of bp sp) (of_Z 0) = false ->
     let aq := allocation vp bq (count_string quote (market_assets ms)) in
     let ab := allocation vp bb (count_string base (market_assets ms)) in
     forall e, In e (out r) -> order_action e = true ->
       exists amount,
         (e = Sell market (sell_price_of bp sp) amount \/
          e = Buy market (buy_price_of bp sp) amount) /\
         (amount = aq \/ amount = fdiv ab (buy_price_of bp sp)) /\
         fle minimum amount = true).
Proof.
  intros r. split; [apply place_orders_gated |].
  intros quote base ms vp sp bp bq bb minimum Hready Hbuy aq ab e Hin Haction. subst r.
  rewrite (place_orders_walls depth market quote base only_sell only_buy self h
             ms vp sp bp bq bb minimum Hready Hbuy) in Hin.
  cbn [out] in Hin. destruct Hin as [<- | Hin]; [discriminate Haction |].
  exact (walls_sizes _ _ _ _ _ _ _ _ _ _ _ _ _ _ Hin).
Qed.

(** ** The pricing engine *)






(** ** The scheduler *)

(** C5.  Every invocation of [tick] raises the counter by exactly one and
    leaves the settings alone.  With an integer [skip_blocks = k], not zero,
    the snapshot is refreshed if and only if the new counter is a multiple of
    [k].  Such a tick prints its line and asks the exchange for the ticker,
    the open orders, the debt positions and the balances; the object it
    leaves holds these answers as its snapshot; and with the markets
    configured as a list it then runs [check_and_replace] on that snapshot
    for the markets in their order, each one that is reached, that is, as
    long as no earlier one raised.  Every other tick changes nothing but the
    counter and calls nothing.  Starting from the counter [-1] with
    [skip_blocks = 20], the tick after [n] earlier ones is an active one
    exactly when [n] is a multiple of 20. *)
Theorem tick_scheduler (self : bot) (h : list event) :
  let r := tick self h in
  let s1 := set_block_counter (block_counter self + 1) self in
  let line := Log (LogBlocks (block_counter self + 1)) in
  let s2 := fresh_snapshot s1 (h ++ [line]) in
  let h2 := h ++ line :: refresh_events in
  block_counter (st r) = block_counter self + 1 /\
  settings (st r) = settings self /\
  (forall k, settings self !! "skip_blocks" = Some (VInt k) -> k <> 0 ->
     ((block_counter self + 1) mod k = 0 <-> In ReturnTicker (out r)) /\
     ((block_counter self + 1) mod k = 0 ->
        r = tick_work s1 h /\
        st r = s2 /\
        (exists rest, out r = line :: refresh_events ++ rest) /\
        (forall ms,
           settings self !! "markets" = Some (VList ms) ->
           r = prepend (line :: refresh_events) (reconcile_list ms s2 h2) /\
           (forall pre m post,
              ms = pre ++ m :: post ->
              let before := reconcile_list pre s2 h2 in
              res before = Ok tt ->
              exists rest,
                out r = line :: refresh_events ++ out before ++
                        out (check_and_replace m s2 (h2 ++ out before)) ++ rest))) /\
     ((block_counter self + 1) mod k <> 0 ->
        r = {| res := Ok tt; st := s1; out := [] |})) /\
  (block_counter self = initial_block_counter ->
   settings self !! "skip_blocks" = Some (VInt 20) ->
   forall n,
     let sh := after_ticks n self h in
     block_counter (fst sh) + 1 = Z.of_nat n /\
     (Z.of_nat n mod 20 = 0 <-> In ReturnTicker (out (tick (fst sh) (snd sh)))) /\
     (Z.of_nat n mod 20 <> 0 ->
        tick (fst sh) (snd sh) =
          {| res := Ok tt; st := set_block_counter (Z.of_nat n) (fst sh); out := [] |})).
Proof.
  intros r s1 line s2 h2.
  destruct (tick_scheduler_run self h) as (Hcounter & Hsettings & Hgate & Hseq).
  fold r in Hcounter, Hsettings, Hgate.
  split; [exact Hcounter |]. split; [exact Hsettings |]. split; [| exact Hseq].
  intros k Hk Hk0. destruct (Hgate k Hk Hk0) as (Hiff & Hactive & Hidle).
  split; [exact Hiff |]. split; [| exact Hidle].
  intros Hmod. destruct (Hactive Hmod) as [Hwork _]. fold s1 in Hwork.
  assert (Hrun : r = prepend (line :: refresh_events)
                       ((markets <- markets_setting ;; reconcile_list markets) s2 h2)).
  { rewrite Hwork, tick_work_run. reflexivity. }
  split; [exact Hwork |].
  split; [| split].
  - rewrite Hrun. unfold prepend. cbn [st]. rewrite bind_st.
    destruct (reader_markets_setting s2) as [ms Hms]. rewrite !Hms. cbn [res st out].
    destruct ms as [ms | e]; [apply reconcile_list_keeps_self | reflexivity].
  - rewrite Hrun. unfold prepend. cbn [out app]. eexists. reflexivity.
  - intros ms Hms.
    assert (Hmarkets : markets_setting s2 h2 = {| res := Ok ms; st := s2; out := [] |})
      by (apply markets_setting_run; exact Hms).
    assert (Hlist : r = prepend (line :: refresh_events) (reconcile_list ms s2 h2)).
    { rewrite Hrun, (bind_read _ _ _ _ _ Hmarkets). reflexivity. }
    split; [exact Hlist |].
    intros pre m post -> before Hbefore.
    rewrite Hlist. unfold prepend. cbn [out app].
    rewrite reconcile_list_app. fold before. rewrite Hbefore.
    change (m :: post) with ([m] ++ post). rewrite reconcile_list_app, reconcile_list_one.
    cbn [res out]. unfold prepend.
    destruct (res (check_and_replace m s2 (h2 ++ out before))); cbn [out];
      [| exists []; rewrite app_nil_r]; eexists + idtac; rewrite <- ?app_assoc; reflexivity.
Qed.

End Strategy.

Arguments res {num A} o.
Arguments st {num A} o.
Arguments out {num A} o.

(** * The pricing engine, in doubles *)


(** * The worked configuration *)

Lemma example_feed_known orders debts bts :
  feed_known (example_bot orders debts bts) "USD:BTS" 2%float 2.5%float 12.5%float.
Proof.
  repeat split.
  - exists {| settlement_price := Some 2%float |}. split; reflexivity.
  - exists (VFloat 2.5%float). split; reflexivity.
  - exists (VFloat 12.5%float). split; reflexivity.
Defined.

(** The example is complete for placing orders in USD:BTS, whatever was
    called before. *)
Lemma example_ready_to_place_after orders debts (h : list event) :
  ready_to_place (example_dex orders debts 1500%float)
    (example_bot orders debts 1500%float) h "USD:BTS" "USD" "BTS" ["USD:BTS"]
    10%float 12.5%float 2.5%float 100%float 1500%float 0.25%float.
Proof.
  split; [discriminate |]. split; [reflexivity |]. split; [reflexivity |].
  split; [repeat constructor; exists "USD", "BTS"; reflexivity |].
  split; [left; reflexivity |]. split; [reflexivity |].
  split; [reflexivity |]. split; [reflexivity |].
  split; [exists (VInt 10); split; reflexivity |].
  split; [exists (VStr "feed"); split; [reflexivity | vm_compute; reflexivity] |].
  split; [exists (VFloat 12.5%float); split; reflexivity |].
  exists (list_to_map [("USD", 0.25%float)]). split; reflexivity.
Defined.





(** The theorem on the size gate, on the example called for the buy side
    alone: the one order is a buy of 64 USD, the allocation of 150 BTS
    divided by the buy price 2.34375, and it has passed the minimum of 0.25
    USD. *)
Lemma place_orders_minimum_size_gate_witness :
  let dex := example_dex [] [usd_debt] 1500%float in
  let self := example_bot [] [usd_debt] 1500%float in
  let r := place_orders dex 1000 "USD:BTS" false true self [] in
  out r = [ReturnBalances; Buy "USD:BTS" 2.34375%float 64%float] /\
  allocation 10%float 1500%float 1 = 150%float /\
  fdiv 150%float 2.34375%float = 64%float /\
  Forall (gated dex self) (out r) /\
  exists amount,
    (Buy "USD:BTS" 2.34375%float 64%float = Sell "USD:BTS" 2.65625%float amount \/
     Buy "USD:BTS" 2.34375%float 64%float = Buy "USD:BTS" 2.34375%float amount) /\
    (amount = 10%float \/ amount = 64%float) /\
    PrimFloat.leb 0.25%float amount = true.
Proof.
  intros dex self r.
  destruct (place_orders_minimum_size_gate dex 1000 "USD:BTS" false true self [])
    as [Hgate Hsize].
  assert (Hout : out r = [ReturnBalances; Buy "USD:BTS" 2.34375%float 64%float])
    by (vm_compute; reflexivity).
  split; [exact Hout |]. split; [vm_compute; reflexivity |].
  split; [vm_compute; reflexivity |]. split; [exact Hgate |].
  exact (Hsize "USD" "BTS" ["USD:BTS"] 10%float 12.5%float 2.5%float 100%float
           1500%float 0.25%float (example_ready_to_place_after [] [usd_debt] []) eq_refl
           (Buy "USD:BTS" 2.34375%float 64%float)
           ltac:(fold r; rewrite Hout; right; left; reflexivity) eq_refl).
Defined.

(** C7, refuted as stated: the size of a buy order is no quantity of the
    base asset.  Of the 1500 BTS held, 150 BTS are allocated to the buy side;
    the order that is gated and submitted has the size 64, the USD that 150
    BTS buy at 2.34375.  With a minimum of 100 USD that order is not
    submitted, although the allocation of the base asset, 150 BTS, is above
    that number. *)
Lemma place_orders_minimum_size_gate_counterexample :
  let dex := example_dex [] [usd_debt] 1500%float in
  allocation 10%float 1500%float 1 = 150%float /\
  out (place_orders dex 1000 "USD:BTS" false true (example_bot [] [usd_debt] 1500%float) [])
    = [ReturnBalances; Buy "USD:BTS" 2.34375%float 64%float] /\
  PrimFloat.leb 100%float 150%float = true /\
  PrimFloat.leb 100%float 64%float = false /\
  out (place_orders dex 1000 "USD:BTS" false true
         (large_minimum_bot [] [usd_debt] 1500%float) [])
    = [ReturnBalances].
Proof.
  intros dex. repeat split; vm_compute; reflexivity.
Qed.

(** C4, refuted as stated: the quote asset USD has no debt position, and
    the method places a sell and a buy order in the market before it
    borrows. *)
Lemma check_and_replace_missing_debt_counterexample :
  let orders := [("USD:BTS", [])] in
  let r := check_and_replace (example_dex orders [cny_debt] 1500%float) 1000 "USD:BTS"
             (example_bot orders [cny_debt] 1500%float) [] in
  assoc_lookup "USD" (debt_positions (example_bot orders [cny_debt] 1500%float)) = None /\
  out r =
    [ReturnBalances; Sell "USD:BTS" 2.65625%float 10%float;
     Buy "USD:BTS" 2.34375%float 10%float;
     Log (LogPlacingDebt "USD" 285%float); Borrow 285%float "USD" (VFloat 2.5%float)].
Proof.
  intros orders r. split; [reflexivity | vm_compute; reflexivity].
Qed.

(** The theorem on a missing debt position, on that market: one borrow
    command, for [desired 1900 30 2 = 285] USD. *)
Lemma check_and_replace_missing_debt_witness :
  let orders := [("USD:BTS", [])] in
  let dex := example_dex orders [cny_debt] 1500%float in
  let self := example_bot orders [cny_debt] 1500%float in
  let r := check_and_replace dex 1000 "USD:BTS" self [] in
  assoc_lookup "USD" (debt_positions self) = None /\
  res (reconcile_orders dex 1000 "USD:BTS" self []) = Ok false /\
  res r = Ok false /\
  List.filter is_borrow (out r) = [Borrow 285%float "USD" (VFloat 2.5%float)].
Proof.
  intros orders dex self r.
  assert (Hrec : res (reconcile_orders dex 1000 "USD:BTS" self []) = Ok false)
    by (vm_compute; reflexivity).
  assert (Hamounts : res (get_debt_amounts dex self []) = Ok [("USD", 285%float)])
    by (vm_compute; reflexivity).
  destruct (check_and_replace_missing_debt dex 1000 "USD:BTS" self [] "USD" "BTS"
              [("USD", 285%float)] 285%float (VFloat 2.5%float)
              eq_refl eq_refl eq_refl Hrec Hamounts eq_refl eq_refl)
    as (Hres & _ & Hborrow).
  split; [reflexivity |]. split; [exact Hrec |]. split; [exact Hres | exact Hborrow].
Defined.

(** The theorem on the scheduler.  The object holds an empty snapshot with
    7 BTS; the exchange lists the market USD:BTS without orders, a debt
    position and 1500 BTS.  The first tick, with counter 0, asks the
    exchange, stores its answers and reconciles the market on them: a sell
    and a buy order are placed.  The tick after seven earlier ones calls
    nothing. *)
Lemma tick_scheduler_witness :
  let orders := [("USD:BTS", [])] in
  let dex := example_dex orders [usd_debt] 1500%float in
  let self := example_bot [] [] 7%float in
  let r := tick dex 1000 self [] in
  block_counter self = initial_block_counter /\
  settings self !! "skip_blocks" = Some (VInt 20) /\
  block_counter (st r) = 0 /\
  open_orders (st r) = orders /\
  debt_positions (st r) = [usd_debt] /\
  balances (st r) !! "BTS" = Some 1500%float /\
  out r = [Log (LogBlocks 0); ReturnTicker; ReturnOpenOrders; ListDebtPositions;
           ReturnBalances;
           ReturnBalances; Sell "USD:BTS" 2.65625%float 10%float;
           Buy "USD:BTS" 2.34375%float 10%float] /\
  out (tick dex 1000 (fst (after_ticks dex 1000 7 self []))
         (snd (after_ticks dex 1000 7 self []))) = [].
Proof.
  intros orders dex self r.
  assert (Hskip : settings self !! "skip_blocks" = Some (VInt 20)) by reflexivity.
  destruct (tick_scheduler dex 1000 self []) as (Hcounter & _ & Hgate & Hseq).
  destruct (Hgate 20 Hskip ltac:(discriminate)) as (_ & Hactive & _).
  destruct (Hactive eq_refl) as (_ & Hst & _ & Hmarkets).
  destruct (Hmarkets ["USD:BTS"] eq_refl) as [Hrun _].
  destruct (Hseq eq_refl Hskip 7%nat) as (_ & _ & Hidle).
  split; [reflexivity |]. split; [exact Hskip |].
  split; [exact Hcounter |].
  fold r in Hst, Hrun.
  split; [rewrite Hst; reflexivity |]. split; [rewrite Hst; reflexivity |].
  split; [rewrite Hst; reflexivity |].
  split; [rewrite (f_equal out Hrun); vm_compute; reflexivity |].
  rewrite (Hidle ltac:(discriminate)). reflexivity.
Defined.

(** The theorem on the validator: required keys alone pass and the four
    defaults are filled in; without ["ratio"] the validation raises
    [MissingSettingsException "ratio"]. *)
Lemma init_settings_validates_witness :
  let self := set_settings example_raw_settings (example_bot [] [] 1000%float) in
  let r := init_settings self [] in
  let r' := init_settings (set_settings (delete "ratio" example_raw_settings) self) [] in
  res r = Ok tt /\
  settings (st r) !! "target_price_offset_percentage" = Some (VFloat 0%float) /\
  settings (st r) !! "symmetric_sides" = Some (VBool true) /\
  settings (st r) !! "expiration" = Some (VInt 86400) /\
  settings (st r) !! "skip_blocks" = Some (VInt 20) /\
  settings (st r) !! "spread_percentage" = Some (VFloat 12.5%float) /\
  settings (st r) !! "allowed_spread_percentage" = None /\
  res r' = Raise (MissingSettingsException "ratio").
Proof.
  intros self r r'.
  destruct (init_settings_validates self []) as (Hpresent & _).
  assert (Hall : forall k, In k required_settings -> settings self !! k <> None).
  { intros k Hk. simpl in Hk.
    destruct Hk as [<- | [<- | [<- | [<- | [<- | [<- | [<- | []]]]]]]]; discriminate. }
  destruct (Hpresent Hall) as [Hres Hlookup].
  split; [exact Hres |].
  do 6 (split; [exact (Hlookup _) |]).
  destruct (init_settings_validates
              (set_settings (delete "ratio" example_raw_settings) self) [])
    as (_ & Hmissing & _).
  destruct (Hmissing "ratio" ltac:(simpl; tauto) eq_refl) as (k' & _ & _ & Hraise).
  assert (Hr' : res r' = Raise (MissingSettingsException "ratio"))
    by (vm_compute; reflexivity).
  exact Hr'.
Defined.

(** The theorem on the bootstrap, on the example with no debt position and
    a free balance of 1000 BTS: [init] fetches the snapshot and then raises
    [KeyError "calculate_bts_total"], without a borrow command. *)
Lemma bootstrap_needs_calculate_bts_total_witness :
  let dex := example_dex [] [] 1000%float in
  let self := example_bot [] [] 1000%float in
  settings self !! "calculate_bts_total" = None /\
  res (init_settings self []) = Ok tt /\
  res (place_initial_debt_positions dex self []) = Raise (KeyError "calculate_bts_total") /\
  res (init dex 1000 self []) = Raise (KeyError "calculate_bts_total") /\
  Forall (fun e => is_borrow e = false) (out (init dex 1000 self [])).
Proof.
  intros dex self.
  assert (Hkey : settings self !! "calculate_bts_total" = None) by reflexivity.
  destruct (bootstrap_needs_calculate_bts_total dex 1000 self [] Hkey)
    as (Hempty & _ & _ & Hinit).
  destruct (Hempty eq_refl) as [_ Hplace].
  destruct (Hinit (fun _ => eq_refl)) as (_ & Hborrow & Hraise).
  assert (Hchecks : res (init_checks dex self []) = Ok tt) by (vm_compute; reflexivity).
  split; [exact Hkey |]. split; [vm_compute; reflexivity |].
  split; [rewrite Hplace; reflexivity |].
  split; [exact (proj1 (Hraise Hchecks)) | exact Hborrow].
Defined.



(** * The debt manager on the example *)

(** C3.  [update_debt_positions] on the documented configuration, one market
    and one open debt position: the desired debt is 150 USD against a current
    debt of 100 USD, a change of 50 percent where 10 percent is the
    threshold, and yet the method only reports that something is wrong and
    adjusts nothing, because the number of positions is compared with 3.
    With three open positions and the same single market it does adjust. *)
Theorem update_debt_positions_counts_three :
  let orders := [("USD:BTS", [buy_far])] in
  let one := update_debt_positions (example_dex orders [usd_debt] 300%float)
               (example_bot orders [usd_debt] 300%float) [] in
  let three := update_debt_positions
                 (example_dex orders [usd_debt; cny_debt; eur_debt] 300%float)
                 (example_bot orders [usd_debt; cny_debt; eur_debt] 300%float) [] in
  res (get_debt_amounts (example_dex orders [usd_debt] 300%float)
         (example_bot orders [usd_debt] 300%float) []) = Ok [("USD", 150%float)] /\
  res one = Ok tt /\ out one = [Log (LogWrong 1)] /\
  res three = Ok tt /\
  In (AdjustDebt 170%float "USD" (VFloat 2.5%float)) (out three).
Proof.
  intros orders one three.
  do 4 (split; [vm_compute; reflexivity |]).
  vm_compute. right. right. left. reflexivity.
Qed.

(** C9.  On a snapshot with one debt position the debt allocation follows
    the formulas: 600 BTS of collateral, 300 free BTS and a buy order
    holding 100 BTS back 1000 BTS, and with 30 percent for USD at a
    settlement price of 2 the desired debt is exactly 150 USD.  On the
    snapshot of a fresh account, with no debt position and 1000 free BTS, the
    same computation raises [KeyError "calculate_bts_total"] instead of
    returning 150 USD. *)
Theorem get_debt_amounts_on_fresh_account :
  let orders := [("USD:BTS", [buy_far])] in
  let funded := example_bot orders [usd_debt] 300%float in
  let fresh := example_bot [] [] 1000%float in
  total_backing funded 300%float = 1000%float /\
  desired 1000%float 30%float 2%float = 150%float /\
  res (get_debt_amounts (example_dex orders [usd_debt] 300%float) funded [])
    = Ok [("USD", 150%float)] /\
  total_backing fresh 1000%float = 1000%float /\
  settings fresh !! "calculate_bts_total" = None /\
  res (get_total_bts (Some (debt_positions fresh)) fresh [])
    = Raise (KeyError "calculate_bts_total") /\
  res (get_debt_amounts (example_dex [] [] 1000%float) fresh [])
    = Raise (KeyError "calculate_bts_total").
Proof.
  intros orders funded fresh. repeat split; vm_compute; reflexivity.
Qed.

(** The formula of the debt allocation, on the funded example. *)
Lemma get_debt_amounts_formula_witness :
  let orders := [("USD:BTS", [buy_far])] in
  let dex := example_dex orders [usd_debt] 300%float in
  let self := example_bot orders [usd_debt] 300%float in
  debt_positions self <> [] /\
  balances self !! "BTS" = Some 300%float /\
  res (get_total_bts (Some (debt_positions self)) self []) = Ok (total_backing self 300%float) /\
  exists amounts,
    res (get_debt_amounts dex self []) = Ok amounts /\
    assoc_lookup "USD" amounts = Some (desired (total_backing self 300%float) 30%float 2%float).
Proof.
  intros orders dex self.
  assert (Hpos : debt_positions self <> []) by discriminate.
  assert (Hknown : market_known dex self "USD:BTS" "USD" 30%float 2%float).
  { repeat split.
    - exists "BTS". reflexivity.
    - exists (list_to_map [("USD", 30%float); ("BTS", 70%float)]). split; reflexivity.
    - exists {| settlement_price := Some 2%float |}. split; reflexivity. }
  destruct (get_debt_amounts_formula dex self [] 300%float ["USD:BTS"]
              (or_introl Hpos) eq_refl eq_refl eq_refl
              ltac:(repeat constructor; exists "USD", 30%float, 2%float; exact Hknown))
    as (Htotal & amounts & Hrun & Hlookup).
  split; [exact Hpos |]. split; [reflexivity |].
  split; [rewrite Htotal; reflexivity |].
  exists amounts. split; [rewrite Hrun; reflexivity |].
  apply (Hlookup [] "USD:BTS" [] "USD" 30%float 2%float eq_refl Hknown).
  intros m' [].
Defined.

(** Cancelling on an exchange where the cancel of the order 1.7.1 fails:
    the failure is printed and the order 1.7.2 is cancelled all the same. *)
Lemma cancel_orders_best_effort_witness :
  let orders := [("USD:BTS", [sell_near; buy_far])] in
  let r := cancel_orders (example_dex_cancel_fails orders [usd_debt] 1500%float) 1000
             "USD:BTS" (example_bot orders [usd_debt] 1500%float) [] in
  res r = Ok tt /\
  In (Cancel "1.7.1") (out r) /\ In (Cancel "1.7.2") (out r) /\
  In (Log (LogCancelError sell_near)) (out r).
Proof.
  intros orders r.
  destruct (cancel_orders_best_effort
              (example_dex_cancel_fails orders [usd_debt] 1500%float) 1000 "USD:BTS"
              [sell_near; buy_far] (example_bot orders [usd_debt] 1500%float) []
              ltac:(discriminate) eq_refl) as (Hres & _ & Hin & _).
  split; [exact Hres |].
  split; [exact (Hin sell_near (or_introl eq_refl)) |].
  split; [exact (Hin buy_far (or_intror (or_introl eq_refl))) |].
  vm_compute. tauto.
Defined.

(** The hysteresis on the example with three open debt positions: a desired
    debt of 270 USD against a current one of 100 USD is adjusted by 170
    USD. *)
Lemma update_debt_positions_hysteresis_witness :
  let orders := [("USD:BTS", [buy_far])] in
  let debts := [usd_debt; cny_debt; eur_debt] in
  let dex := example_dex orders debts 300%float in
  let self := example_bot orders debts 300%float in
  res (get_debt_amounts dex self []) = Ok [("USD", 270%float)] /\
  update_debt_positions dex self [] = for_each [("USD", 270%float)] adjust_one self [] /\
  PrimFloat.leb 10%float (change_percentage 270%float 100%float) = true /\
  In (AdjustDebt 170%float "USD" (VFloat 2.5%float))
     (out (adjust_one ("USD", 270%float) self [])).
Proof.
  intros orders debts dex self.
  assert (Hamounts : res (get_debt_amounts dex self []) = Ok [("USD", 270%float)])
    by (vm_compute; reflexivity).
  destruct (update_debt_positions_hysteresis dex self [] [("USD", 270%float)] Hamounts)
    as (Hthree & _ & Hone).
  assert (Hle : PrimFloat.leb 10%float (change_percentage 270%float 100%float) = true)
    by (vm_compute; reflexivity).
  destruct (Hone "USD" 270%float (snd usd_debt) (VInt 10) 10%float (VFloat 2.5%float) []
              eq_refl eq_refl eq_refl eq_refl eq_refl) as [Hiff _].
  split; [exact Hamounts |]. split; [exact (Hthree eq_refl) |].
  split; [exact Hle | exact (proj1 Hiff Hle)].
Defined.

(** With 4 free BTS the sizes on both sides are 0.4/2.34375 USD, below the
    minimum of 0.25 USD, and [place_orders] submits nothing; called for the
    sell side alone it sizes the order from the USD balance and submits it. *)
Example place_orders_skips_small_orders :
  let dex := example_dex [] [usd_debt] 4%float in
  let self := example_bot [] [usd_debt] 4%float in
  out (place_orders dex 1000 "USD:BTS" false false self []) = [ReturnBalances] /\
  out (place_orders dex 1000 "USD:BTS" true false self [])
    = [ReturnBalances; Sell "USD:BTS" 2.65625%float 10%float].
Proof.
  intros dex self. split; vm_compute; reflexivity.
Qed.

(** * The further properties on the worked configuration *)

(** Cancelling on the market with a compliant sell and a stale buy: exactly
    the two open orders are cancelled, and nothing is borrowed. *)
Lemma check_and_replace_cancels_all_or_nothing_witness :
  let orders := [("USD:BTS", [sell_near; buy_far])] in
  let self := example_bot orders [cny_debt] 1500%float in
  let r := check_and_replace (example_dex orders [cny_debt] 1500%float) 1000 "USD:BTS" self [] in
  List.filter is_cancel (out r) = [Cancel "1.7.1"; Cancel "1.7.2"] /\
  (List.filter is_cancel (out r) = [] \/
   (List.filter is_cancel (out r) = map cancel_of (orders_of self "USD:BTS") /\
    List.filter is_borrow (out r) = [] /\ res r <> Ok false)).
Proof.
  intros orders self r.
  destruct (check_and_replace_cancels_all_or_nothing
              (example_dex orders [cny_debt] 1500%float) 1000 "USD:BTS" self []
              ltac:(discriminate)) as [Hcancel _].
  split; [vm_compute; reflexivity | exact Hcancel].
Defined.

(** Two objects with the settings of the example and different stored
    snapshots: their first tick makes the same calls and leaves the same
    object. *)
Lemma tick_rebuilds_snapshot_witness :
  let orders := [("USD:BTS", [sell_near; buy_far])] in
  let dex := example_dex orders [usd_debt] 1500%float in
  let s1 := example_bot orders [usd_debt] 1500%float in
  let s2 := example_bot [] [] 7%float in
  out (tick dex 1000 s1 []) = out (tick dex 1000 s2 []) /\
  (out (tick dex 1000 s1 []) <> [] -> st (tick dex 1000 s1 []) = st (tick dex 1000 s2 [])) /\
  In ReturnTicker (out (tick dex 1000 s1 [])).
Proof.
  intros orders dex s1 s2.
  destruct (tick_rebuilds_snapshot dex 1000 s1 s2 [] eq_refl eq_refl)
    as (_ & Hout & Hst & _).
  split; [exact Hout |]. split; [exact Hst |].
  vm_compute. tauto.
Defined.

(** A tick over the markets EUR:BTS and USD:BTS, where the ticker has no
    entry for EUR:BTS: the tick raises [KeyError] for that market after it
    fetched the balances, and USD:BTS is not reconciled. *)
Lemma tick_stops_at_first_error_witness :
  let orders := [("EUR:BTS", []); ("USD:BTS", [])] in
  let dex := example_dex orders [usd_debt] 1500%float in
  let self := two_market_bot orders [usd_debt] 1500%float in
  res (tick dex 1000 self []) = Raise (KeyError "EUR:BTS") /\
  out (tick dex 1000 self []) = Log (LogBlocks 0) :: refresh_events ++ [ReturnBalances].
Proof.
  intros orders dex self.
  destruct (tick_stops_at_first_error dex 1000 self []) as (_ & _ & Hactive & Hstop).
  pose proof (Hstop [] "EUR:BTS" ["USD:BTS"] (KeyError "EUR:BTS") eq_refl
                ltac:(vm_compute; reflexivity)) as Hraise.
  rewrite (Hactive ["EUR:BTS"; "USD:BTS"] eq_refl eq_refl).
  cbn [app] in Hraise |- *. rewrite Hraise. unfold prepend. cbn [res out].
  split; [reflexivity |]. vm_compute. reflexivity.
Defined.

(** The market USD:BTS of the example passes the checks of [init]; with the
    market BTS:USD, whose quote asset is no bitasset, [init] raises
    [ValueError] and has called nothing. *)
Lemma init_verifies_markets_witness :
  let dex := example_dex [] [usd_debt] 1000%float in
  let good := example_bot [] [usd_debt] 1000%float in
  let bad := set_settings (<["markets" := VList ["USD:BTS"; "BTS:USD"]]> example_settings) good in
  res (init_checks dex good []) = Ok tt /\
  res (init dex 1000 bad []) = Raise ValueError /\
  out (init dex 1000 bad []) = [].
Proof.
  intros dex good bad.
  destruct (init_verifies_markets dex 1000 good [] ["USD:BTS"]
              ltac:(vm_compute; reflexivity) eq_refl eq_refl)
    as (_ & _ & Hgood & _).
  destruct (init_verifies_markets dex 1000 bad [] ["USD:BTS"; "BTS:USD"]
              ltac:(vm_compute; reflexivity) eq_refl eq_refl)
    as (_ & _ & _ & _ & Hbad).
  assert (Hverified : Forall (market_verified dex) ["USD:BTS"]).
  { repeat constructor. exists "USD", "BTS", "2.4.21". repeat split. }
  assert (Hraise : res (init_checks dex bad []) = Raise ValueError)
    by (vm_compute; reflexivity).
  split; [exact (proj2 Hgood Hverified) |].
  destruct (Hbad ltac:(rewrite Hraise; discriminate)) as [Hres Hout].
  split; [rewrite Hres; exact Hraise | exact Hout].
Defined.

(** [init] on the example, whose exchange lists the debt position in USD:
    the counter ends at 0 and the snapshot was fetched twice. *)
Lemma init_first_tick_is_active_witness :
  let orders := [("USD:BTS", [sell_near; buy_far])] in
  let dex := example_dex orders [usd_debt] 1500%float in
  let self := example_bot orders [usd_debt] 1500%float in
  block_counter (st (init dex 1000 self [])) = 0 /\
  exists rest,
    out (init dex 1000 self []) =
      refresh_events ++ Log (LogBlocks 0) :: refresh_events ++ rest.
Proof.
  intros orders dex self.
  assert (Hchecks : res (init_checks dex self []) = Ok tt) by (vm_compute; reflexivity).
  assert (Hskip : settings self !! "skip_blocks" = None \/
                  exists k, settings self !! "skip_blocks" = Some (VInt k) /\ k <> 0).
  { right. exists 20. split; [reflexivity | discriminate]. }
  assert (Hdebt : list_debt_positions dex ([] ++ [ReturnTicker; ReturnOpenOrders]) <> [])
    by discriminate.
  destruct (init_first_tick_is_active dex 1000 self [] Hchecks eq_refl Hskip Hdebt)
    as (_ & _ & Hcounter & Hout).
  split; [exact Hcounter | exact Hout].
Defined.

Lemma example_ready_to_place orders debts :
  ready_to_place (example_dex orders debts 1500%float)
    (example_bot orders debts 1500%float) [] "USD:BTS" "USD" "BTS" ["USD:BTS"]
    10%float 12.5%float 2.5%float 100%float 1500%float 0.25%float.
Proof.
  split; [discriminate |]. split; [reflexivity |]. split; [reflexivity |].
  split; [repeat constructor; exists "USD", "BTS"; reflexivity |].
  split; [left; reflexivity |]. split; [reflexivity |].
  split; [reflexivity |]. split; [reflexivity |].
  split; [exists (VInt 10); split; reflexivity |].
  split; [exists (VStr "feed"); split; [reflexivity | vm_compute; reflexivity] |].
  split; [exists (VFloat 12.5%float); split; reflexivity |].
  exists (list_to_map [("USD", 0.25%float)]). split; reflexivity.
Defined.

(** The sizes on the example: 100 USD and 1500 BTS at a volume of 10 percent
    are allocations of 10 USD and 150 BTS; at the buy price 2.34375 the base
    allocation buys 64 USD, so both walls have the size 10. *)
Lemma place_orders_sizing_witness :
  let dex := example_dex [] [usd_debt] 1500%float in
  let self := example_bot [] [usd_debt] 1500%float in
  buy_price_of 2.5%float 12.5%float = 2.34375%float /\
  sell_price_of 2.5%float 12.5%float = 2.65625%float /\
  allocation 10%float 100%float 1 = 10%float /\
  allocation 10%float 1500%float 1 = 150%float /\
  out (place_orders dex 1000 "USD:BTS" false false self []) =
    [ReturnBalances; Sell "USD:BTS" 2.65625%float 10%float;
     Buy "USD:BTS" 2.34375%float 10%float] /\
  out (place_orders dex 1000 "USD:BTS" false true self []) =
    [ReturnBalances; Buy "USD:BTS" 2.34375%float 64%float].
Proof.
  intros dex self.
  destruct (place_orders_sizing dex 1000 "USD:BTS" "USD" "BTS" false false self []
              ["USD:BTS"] 10%float 12.5%float 2.5%float 100%float 1500%float 0.25%float
              (example_ready_to_place [] [usd_debt]) eq_refl)
    as (_ & _ & Hboth & _).
  destruct (place_orders_sizing dex 1000 "USD:BTS" "USD" "BTS" false true self []
              ["USD:BTS"] 10%float 12.5%float 2.5%float 100%float 1500%float 0.25%float
              (example_ready_to_place [] [usd_debt]) eq_refl)
    as (_ & _ & Hbuy & _).
  do 4 (split; [vm_compute; reflexivity |]).
  split; [rewrite Hboth | rewrite Hbuy]; vm_compute; reflexivity.
Defined.

(** One call for the market of the example, buy side only: no sell order. *)
Lemma place_orders_one_wall_witness :
  let dex := example_dex [] [usd_debt] 1500%float in
  let self := example_bot [] [usd_debt] 1500%float in
  List.filter is_sell (out (place_orders dex 1000 "USD:BTS" false true self [])) = [] /\
  place_orders dex 1000 "all" false true self [] = place_orders dex 1000 "all" false false self [].
Proof.
  intros dex self.
  destruct (place_orders_one_wall dex 1000 "USD:BTS" false true self []) as [Hone _].
  destruct (Hone ltac:(discriminate)) as (_ & Hsell & _).
  destruct (place_orders_one_wall dex 1000 "all" false true self []) as [_ Hall].
  split; [exact (Hsell eq_refl) | exact Hall].
Defined.

(** The bootstrap on a new account with 1000 BTS and ["calculate_bts_total"]
    configured: one borrow command, for 150 USD at the ratio 2.5. *)
Lemma bootstrap_borrows_each_asset_once_witness :
  let dex := example_dex [] [] 1000%float in
  let self := bootstrap_bot 1000%float in
  res (get_debt_amounts dex self []) = Ok [("USD", 150%float)] /\
  place_initial_debt_positions dex self [] =
    {| res := Ok tt; st := self;
       out := [Log LogNoDebt; Log (LogPlacingDebt "USD" 150%float);
               Borrow 150%float "USD" (VFloat 2.5%float)] |}.
Proof.
  intros dex self.
  assert (Hamounts : res (get_debt_amounts dex self []) = Ok [("USD", 150%float)])
    by (vm_compute; reflexivity).
  destruct (bootstrap_borrows_each_asset_once dex self [] [("USD", 150%float)] Hamounts)
    as (_ & Hrun & _).
  destruct (Hrun (VFloat 2.5%float) eq_refl) as [Hplace _].
  split; [exact Hamounts | exact Hplace].
Defined.

(** The market name of the example splits at the colon and is put together
    again; a name with two colons is refused. *)
Lemma split_market_round_trip_witness :
  let self := example_bot [] [] 1000%float in
  split_market ":" "USD:BTS" self [] = {| res := Ok ("USD", "BTS"); st := self; out := [] |} /\
  "USD:BTS" = String.append "USD" (String.append ":" "BTS") /\
  split_market ":" "USD:BTS:CNY" self [] = {| res := Raise ValueError; st := self; out := [] |}.
Proof.
  intros self.
  destruct (split_market_round_trip ":" "USD:BTS" self []) as (Hjoin & Hsplit & _).
  destruct (split_market_round_trip ":" "USD:BTS:CNY" self []) as (_ & _ & Hcount & _).
  split; [exact (Hsplit _ "USD" "BTS" eq_refl eq_refl eq_refl) |].
  split; [exact (Hjoin "USD" "BTS" eq_refl) |].
  exact (Hcount _ eq_refl ltac:(discriminate)).
Defined.

(** The example with [only_buy] switched on in the settings behaves as the
    example itself: on a market without orders the first tick still places
    the sell wall. *)
Lemma documented_settings_not_consulted_witness :
  let orders := [("USD:BTS", [])] in
  let dex := example_dex orders [usd_debt] 1500%float in
  let s1 := only_buy_bot orders [usd_debt] 1500%float in
  let s2 := example_bot orders [usd_debt] 1500%float in
  settings s1 !! "only_buy" = Some (VBool true) /\
  out (tick dex 1000 s1 []) = out (tick dex 1000 s2 []) /\
  In (Sell "USD:BTS" 2.65625%float 10%float) (out (tick dex 1000 s1 [])).
Proof.
  intros orders dex s1 s2.
  destruct (documented_settings_not_consulted dex 1000 s2 s2 [] (alike_refl s2))
    as (_ & _ & _ & _ & Hset).
  destruct (Hset "only_buy" (VBool true) eq_refl) as [Halike _].
  destruct (documented_settings_not_consulted dex 1000 s1 s2 [] Halike)
    as ((_ & Hout) & _).
  split; [reflexivity |]. split; [exact Hout |].
  rewrite Hout. vm_compute. tauto.
Defined.

(** The feed as target price on the example: 2 BTS per USD and an offset of
    25 percent give the base price 2.5; a string ["feed"] that is not the
    interned one leaves the base price unbound; for EUR:BTS, which the ticker
    does not list, [place_orders] raises and submits nothing. *)
Lemma base_price_from_feed_witness :
  let dex := example_dex [] [usd_debt] 1500%float in
  let self := two_market_bot [] [usd_debt] 1500%float in
  res (base_price "USD:BTS" (VStr "feed") self []) = Ok 2.5%float /\
  res (base_price "USD:BTS" (VStrFresh "feed") self [])
    = Raise (UnboundLocalError "base_price") /\
  res (base_price "EUR:BTS" (VStr "feed") self []) = Raise (KeyError "EUR:BTS") /\
  out (place_orders dex 1000 "EUR:BTS" false false self []) = [ReturnBalances].
Proof.
  intros dex self.
  destruct (base_price_from_feed dex "USD:BTS" "feed" self [] (or_intror (or_introl eq_refl)))
    as (Hprice & _ & _ & Hunbound & _).
  destruct (base_price_from_feed dex "EUR:BTS" "feed" self [] (or_intror (or_introl eq_refl)))
    as (_ & _ & Hkey & _ & Hplace).
  split.
  - rewrite (Hprice {| settlement_price := Some 2%float |} 2%float (VInt 25) 25%float
               eq_refl eq_refl eq_refl eq_refl).
    vm_compute. reflexivity.
  - split; [exact (Hunbound (VStrFresh "feed") I) |].
    split; [exact (Hkey eq_refl) |].
    exact (proj2 (Hplace 1000%nat false false (VStr "feed") (KeyError "EUR:BTS")
                    ltac:(discriminate) eq_refl (Hkey eq_refl))).
Defined.

(** The theorem on a single stale order, on a market whose only order is a
    sell 12.5 percent away from the feed: the buy side is placed, the sell
    is cancelled, and both sides are placed. *)
Lemma check_and_replace_one_stale_order_witness :
  let orders := [("USD:BTS", [sell_far])] in
  let dex := example_dex orders [usd_debt] 1500%float in
  let self := example_bot orders [usd_debt] 1500%float in
  let first := place_orders dex 1000 "USD:BTS" false true self [] in
  let r := check_and_replace dex 1000 "USD:BTS" self [] in
  is_stale 2.5%float 12.5%float 2%float sell_far = true /\
  out first = [ReturnBalances; Buy "USD:BTS" 2.34375%float 64%float] /\
  exists cancels,
    List.filter is_cancel cancels = [Cancel "1.7.3"] /\
    let second := place_orders dex 1000 "USD:BTS" false false self
                    ([] ++ out first ++ spread_log 2%float sell_far :: cancels) in
    out r = out first ++ spread_log 2%float sell_far :: cancels ++ out second /\
    res r = match res second with Ok _ => Ok true | Raise e => Raise e end.
Proof.
  intros orders dex self first r.
  assert (Hstale : is_stale 2.5%float 12.5%float 2%float sell_far = true) by reflexivity.
  assert (Hfirst : res first = Ok tt) by (vm_compute; reflexivity).
  assert (Hout : out first = [ReturnBalances; Buy "USD:BTS" 2.34375%float 64%float])
    by (vm_compute; reflexivity).
  pose proof (check_and_replace_one_stale_order dex 1000 "USD:BTS" self [] sell_far
    2%float 2.5%float 12.5%float false true
    ltac:(discriminate) eq_refl
    (example_feed_known orders [usd_debt] 1500%float) Hstale
    (or_introl (conj eq_refl (conj eq_refl eq_refl)))) as [_ Hok].
  destruct (Hok Hfirst) as (cancels & Hcancels & _ & Hr).
  split; [exact Hstale |]. split; [exact Hout |].
  exists cancels. split; [exact Hcancels | exact Hr].
Defined.

(** The theorem on cancelling all markets, with the markets EUR:BTS and
    USD:BTS configured and a snapshot that lists EUR:BTS only: the buy order
    of EUR:BTS is cancelled and the call raises [KeyError] for USD:BTS. *)
Lemma cancel_orders_all_markets_witness :
  let orders := [("EUR:BTS", [buy_far])] in
  let dex := example_dex orders [usd_debt] 1500%float in
  let self := two_market_bot orders [usd_debt] 1500%float in
  let r := cancel_orders dex 1 "all" self [] in
  List.filter is_cancel (out r) = [Cancel "1.7.2"] /\
  res r = Raise (KeyError "USD:BTS").
Proof.
  intros orders dex self r.
  destruct (cancel_orders_all_markets dex 0 self [] ["EUR:BTS"; "USD:BTS"] eq_refl
              ltac:(repeat constructor; discriminate)) as (Hcancels & Hres & _).
  split; [exact Hcancels | exact Hres].
Defined.

(** * The start-up script *)

Lemma main_prelude (config : Main.Config) (w : Main.Answers) (rest : Main.Script unit) :
  Main.bind (Main.do (Main.Sleep 5))
    (fun _ => Main.bind (Main.do (Main.GrapheneAPI (Main.wallet_host config) (Main.wallet_port config)))
    (fun _ => Main.bind
       (Main.except_RPCError
          (Main.attempt (Main.SetPassword (Main.wallet_password config))
             (fun w => if Main.set_password_fails w then Some Main.RPCError else None)))
    (fun _ => Main.bind (Main.do (Main.Unlock (Main.wallet_password config)))
    (fun _ => rest)))) w =
  (fst (rest w),
   [Main.Sleep 5;
    Main.GrapheneAPI (Main.wallet_host config) (Main.wallet_port config);
    Main.SetPassword (Main.wallet_password config);
    Main.Unlock (Main.wallet_password config)] ++ snd (rest w)).
Proof.
  unfold Main.bind, Main.do, Main.ask, Main.except_RPCError, Main.attempt.
  destruct (Main.set_password_fails w); destruct (rest w) as [[[] | e] calls]; reflexivity.
Qed.

(** The calls of [run_bot]. *)
Lemma run_bot_calls (config : Main.Config) (w : Main.Answers) :
  snd (Main.run_bot config w) =
    [Main.GrapheneAPI (Main.wallet_host config) (Main.wallet_port config); Main.IsLocked] ++
    (if Main.is_locked w then [Main.Unlock (Main.wallet_password config)] else []) ++
    [Main.Print Main.Starting; Main.BotInit] ++
    match Main.bot_init w with
    | Some _ => []
    | None => [Main.Sleep 6; Main.Print Main.Running; Main.BotRun]
    end.
Proof.
  unfold Main.run_bot, Main.bind, Main.do, Main.ask, Main.attempt, Main.ret.
  destruct (Main.is_locked w), (Main.bot_init w), (Main.bot_run w); reflexivity.
Qed.

(** The script after the wallet is unlocked, by the accounts of the wallet
    and the answer of the faucet. *)
Lemma main_calls (config : Main.Config) (w : Main.Answers) :
  let key := Main.brain_key w in
  snd (Main.main config w) =
    [Main.Sleep 5;
     Main.GrapheneAPI (Main.wallet_host config) (Main.wallet_port config);
     Main.SetPassword (Main.wallet_password config);
     Main.Unlock (Main.wallet_password config);
     Main.ListMyAccounts] ++
    match Main.my_accounts w with
    | [] =>
        [Main.SuggestBrainKey; Main.registration_of config (Main.pub_key key)] ++
        if Main.status_code w =? 201
        then [Main.ImportKey (Main.account config) (Main.wif_priv_key key);
              Main.Print (Main.Registered (Main.account config));
              Main.ListMyAccounts;
              Main.Print (Main.MyAccounts (Main.my_accounts_after_import w));
              Main.Print (Main.BrainKeyLine (Main.brain_priv_key key));
              Main.Print Main.WriteItDown;
              Main.Print (Main.SendFunds (Main.account config))]
        else [Main.Print Main.CreationFailed;
              Main.Print (Main.WholeBrainKey key);
              Main.Print (Main.FaucetResponse (Main.faucet config) (Main.text w))]
    | _ :: _ =>
        [Main.ListAccountBalances (Main.account config);
         Main.Print (Main.AccountName (Main.account config));
         Main.Print (Main.AccountBalances (Main.account_balances w));
         Main.Print (Main.BotConfig
                       (map (fun b => (fst b, Main.without_bot (snd b))) (Main.bots config)))] ++
        snd (Main.run_bot config w)
    end.
Proof.
  intros key. unfold Main.main. rewrite main_prelude. cbn [snd app]. do 4 f_equal.
  unfold Main.bind at 1. unfold Main.ask at 1. cbn [fst snd app]. f_equal.
  destruct (Main.my_accounts w) as [| a accounts]; cbn [List.length Nat.eqb].
  - unfold Main.register_account_faucet, Main.registration_of, Main.bind, Main.ask,
      Main.do, Main.ret. cbn [fst snd app]. fold key.
    destruct (Main.status_code w =? 201); reflexivity.
  - reflexivity.
Qed.

Lemma main_result (config : Main.Config) (w : Main.Answers) :
  fst (Main.main config w) =
    match Main.my_accounts w with
    | [] => inl tt
    | _ :: _ => fst (Main.run_bot config w)
    end.
Proof.
  unfold Main.main. rewrite main_prelude. cbn [fst].
  unfold Main.bind at 1. unfold Main.ask at 1. cbn [fst snd].
  destruct (Main.my_accounts w) as [| a accounts]; cbn [List.length Nat.eqb].
  - unfold Main.register_account_faucet, Main.bind, Main.ask, Main.do, Main.ret.
    cbn [fst snd]. destruct (Main.status_code w =? 201); reflexivity.
  - unfold Main.bind, Main.do, Main.ask.
    destruct (Main.run_bot config w) as [[[] | e] calls]; reflexivity.
Qed.

Lemma without_bot_no_bot (settings : list (string * string)) :
  ~ In "bot" (map fst (Main.without_bot settings)).
Proof.
  unfold Main.without_bot. rewrite in_map_iff. intros [[k v] [Hk Hin]].
  apply List.filter_In in Hin. destruct Hin as [_ Hneq]. cbn [fst] in Hk, Hneq. subst k.
  discriminate Hneq.
Qed.

(** The script either registers an account or runs the bot, never both.
    It unlocks the wallet right after [set_password], whether or not that
    call raised [RPCError], and before it lists the accounts.  The faucet is
    asked exactly when the wallet has no account, once, and the account is
    registered with the brain key's public key as owner, active and memo
    key.  The private key is imported exactly when the wallet had no account
    and the faucet answered with the status 201; on an empty wallet the
    script returns without starting the bot, and it prints the secret of the
    brain key whatever the faucet answered.  The bot is started exactly when
    the wallet has an account, [bot.run] is called exactly when [bot.init]
    returned, and the configuration printed before names every bot and none
    of its settings has the key ['bot']. *)
Theorem main_registers_or_runs (config : Main.Config) (w : Main.Answers) :
  let calls := snd (Main.main config w) in
  let key := Main.brain_key w in
  (exists rest,
     calls = [Main.Sleep 5;
              Main.GrapheneAPI (Main.wallet_host config) (Main.wallet_port config);
              Main.SetPassword (Main.wallet_password config);
              Main.Unlock (Main.wallet_password config);
              Main.ListMyAccounts] ++ rest) /\
  List.filter Main.is_post calls =
    match Main.my_accounts w with
    | [] => [Main.registration_of config (Main.pub_key key)]
    | _ :: _ => []
    end /\
  List.filter Main.is_import calls =
    match Main.my_accounts w with
    | [] => if Main.status_code w =? 201
            then [Main.ImportKey (Main.account config) (Main.wif_priv_key key)]
            else []
    | _ :: _ => []
    end /\
  List.filter Main.is_bot calls =
    match Main.my_accounts w with
    | [] => []
    | _ :: _ => match Main.bot_init w with
                | Some _ => [Main.BotInit]
                | None => [Main.BotInit; Main.BotRun]
                end
    end /\
  match Main.my_accounts w with
  | [] =>
      fst (Main.main config w) = inl tt /\
      (In (Main.Print (Main.BrainKeyLine (Main.brain_priv_key key))) calls \/
       In (Main.Print (Main.WholeBrainKey key)) calls)
  | _ :: _ =>
      exists bot_configs,
        In (Main.Print (Main.BotConfig bot_configs)) calls /\
        map fst bot_configs = map fst (Main.bots config) /\
        Forall (fun b => ~ In "bot" (map fst (snd b))) bot_configs
  end.
Proof.
  intros calls key. subst calls. rewrite main_calls, main_result, run_bot_calls.
  cbv zeta. fold key.
  split; [eexists; reflexivity |].
  destruct (Main.my_accounts w) as [| a accounts].
  - destruct (Main.status_code w =? 201);
      cbn [List.filter Main.is_post Main.is_import Main.is_bot app Main.registration_of];
      repeat (split; [reflexivity |]); cbn [In]; tauto.
  - destruct (Main.is_locked w), (Main.bot_init w);
      cbn [List.filter Main.is_post Main.is_import Main.is_bot app];
      repeat (split; [reflexivity |]).
    all: eexists; split; [cbn [In app]; do 8 right; left; reflexivity |].
    all: split; [rewrite List.map_map; reflexivity |].
    all: apply Forall_map, Forall_forall; intros b _; cbn [snd]; apply without_bot_no_bot.
Qed.

(** A first run on an empty wallet with a faucet that answers 201: the key
    is imported and the bot is not started; with the answer 200 no key is
    imported; on a later run the bot is started and nothing is registered. *)
Lemma main_registers_or_runs_witness :
  List.filter Main.is_import (snd (Main.main Main.example_config (Main.first_run 201))) =
    [Main.ImportKey "liquidity-bot" "5K"] /\
  List.filter Main.is_bot (snd (Main.main Main.example_config (Main.first_run 201))) = [] /\
  List.filter Main.is_import (snd (Main.main Main.example_config (Main.first_run 200))) = [] /\
  List.filter Main.is_bot (snd (Main.main Main.example_config Main.later_run)) =
    [Main.BotInit; Main.BotRun] /\
  List.filter Main.is_post (snd (Main.main Main.example_config Main.later_run)) = [].
Proof.
  destruct (main_registers_or_runs Main.example_config (Main.first_run 201))
    as (_ & _ & Himport & Hbot & _).
  destruct (main_registers_or_runs Main.example_config (Main.first_run 200))
    as (_ & _ & Himport' & _).
  destruct (main_registers_or_runs Main.example_config Main.later_run)
    as (_ & Hpost & _ & Hbot' & _).
  split; [exact Himport |]. split; [exact Hbot |]. split; [exact Himport' |].
  split; [exact Hbot' | exact Hpost].
Defined.
